(** * ts-transformer-json-schema: the type-to-schema decomposer

    A shallow embedding of the two transformer variants of the repository
    (the compiled full variant and the simplified [transformer.ts]) together
    with the properties of the decomposition that the specification states.

    The TypeScript compiler is an oracle: type objects live in a heap indexed
    by identifiers (type graphs may be cyclic), and the type checker answers
    structural questions about them.  The emitted syntax is the fragment of
    the TypeScript AST the transformer builds: literals, object literals and
    array literals. *)

From Stdlib Require Import String Ascii List ZArith QArith Bool Lia.
Import ListNotations.
Open Scope string_scope.
Open Scope list_scope.
Open Scope Z_scope.

Set Implicit Arguments.
Set Warnings "-register-all".

(** ** JavaScript values handed to [ts.createLiteral] *)

Inductive JsValue : Type :=
| JUndefined
| JBool (b : bool)
| JNumber (q : Q)
| JString (s : string)
| JObject (label : string).   (* an opaque object or function *)

(** ** The emitted syntax tree *)

Inductive Expression : Type :=
| Literal (v : JsValue)                                  (* ts.createLiteral(v) *)
| ObjectLiteral (properties : list (string * Expression)) (* ts.createObjectLiteral *)
| ArrayLiteral (elements : list Expression).             (* ts.createArrayLiteral *)

(** A property assignment [name: initializer]; the identifier is kept as the
    string it was created from. *)
Notation "'PropertyAssignment'" := (string * Expression)%type (only parsing).

Definition createPropertyAssignment (name : string) (e : Expression)
  : PropertyAssignment := (name, e).

(** [ts.createLiteral(v)], kept symbolic.  The library has literals for
    booleans, numbers and strings; [Literal JUndefined] and
    [Literal (JObject _)] stand for the call on a value of another kind (the
    missing [value] of a literal type, a member found on [Object.prototype]),
    and what the library does with such a value is not represented. *)
Definition createLiteral (v : JsValue) : Expression := Literal v.

(** [node.properties]: defined on object literals only. *)
Definition properties_of (e : Expression) : option (list PropertyAssignment) :=
  match e with
  | ObjectLiteral ps => Some ps
  | _ => None
  end.

(** ** Outcomes: a result, a thrown exception, or unbounded recursion *)

Inductive outcome (A : Type) : Type :=
| Ok (a : A)
| Throw (msg : string)
| Diverge.

Arguments Ok {A} a.
Arguments Throw {A} msg.
Arguments Diverge {A}.

(** The cycle guard: names pushed at the end, popped from the end.  A type
    without symbol contributes the name [undefined], hence [option]. *)
Definition History : Type := list (option string).

(** Computations that read and mutate the shared [history] array. *)
Definition M (A : Type) : Type := History -> outcome (A * History).

Definition ret {A} (a : A) : M A := fun h => Ok (a, h).

Definition bind {A B} (m : M A) (k : A -> M B) : M B :=
  fun h => match m h with
           | Ok (a, h') => k a h'
           | Throw e => Throw e
           | Diverge => Diverge
           end.

Definition throw {A} (msg : string) : M A := fun _ => Throw msg.

Declare Scope js_scope.
Delimit Scope js_scope with js.
Notation "x <- m ;; k" := (bind m (fun x => k))
  (at level 61, m at next level, right associativity) : js_scope.
Notation "m ;;; k" := (bind m (fun _ => k))
  (at level 61, right associativity) : js_scope.
Open Scope js_scope.

(** [Array.prototype.map] with an effectful callback. *)
Fixpoint mapM {A B} (f : A -> M B) (l : list A) : M (list B) :=
  match l with
  | [] => ret []
  | a :: l' => b <- f a ;; bs <- mapM f l' ;; ret (b :: bs)
  end.

Definition TypeError : string := "TypeError".

(** [history.push(name)], [history.pop()], [history.indexOf(name) !== -1]. *)
Definition push (name : option string) : M unit :=
  fun h => Ok (tt, h ++ [name]).

Definition pop : M unit := fun h => Ok (tt, removelast h).

Definition name_eqb (a b : option string) : bool :=
  match a, b with
  | Some x, Some y => String.eqb x y
  | None, None => true
  | _, _ => false
  end.

Definition includes (h : History) (name : option string) : bool :=
  existsb (name_eqb name) h.

Definition get_history : M History := fun h => Ok (h, h).

(** ** The compiler's type objects *)

Definition TypeId : Type := nat.
Bind Scope nat_scope with TypeId.

(** Values of [ts.TypeFlags] (TypeScript 3.7, the compiler API the emitted
    JavaScript is written against). *)
Module TypeFlags.
Definition Any : Z := 1.
Definition Unknown : Z := 2.
Definition String : Z := 4.
Definition Number : Z := 8.
Definition Boolean : Z := 16.
Definition Enum : Z := 32.
Definition BigInt : Z := 64.
Definition StringLiteral : Z := 128.
Definition NumberLiteral : Z := 256.
Definition BooleanLiteral : Z := 512.
Definition EnumLiteral : Z := 1024.
Definition BigIntLiteral : Z := 2048.
Definition ESSymbol : Z := 4096.
Definition UniqueESSymbol : Z := 8192.
Definition Void : Z := 16384.
Definition Undefined : Z := 32768.
Definition Null : Z := 65536.
Definition Never : Z := 131072.
Definition TypeParameter : Z := 262144.
Definition Object : Z := 524288.
Definition Union : Z := 1048576.
Definition Intersection : Z := 2097152.
Definition Literal : Z :=
  Z.lor (Z.lor StringLiteral NumberLiteral) (Z.lor BigIntLiteral BooleanLiteral).
Definition StringLike : Z := Z.lor String StringLiteral.
Definition NumberLike : Z := Z.lor (Z.lor Number NumberLiteral) Enum.
Definition BooleanLike : Z := Z.lor Boolean BooleanLiteral.
Definition EnumLike : Z := Z.lor Enum EnumLiteral.
End TypeFlags.

(** Values of [ts.ObjectFlags] used by the simplified variant. *)
Module ObjectFlags.
Definition Class : Z := 1.
Definition Interface : Z := 2.
Definition Reference : Z := 4.
End ObjectFlags.

(** [a & b] used as a condition. *)
Definition has_flag (flags mask : Z) : bool := negb (Z.land flags mask =? 0).

Record JSDocTagInfo : Type := {
  tag_name : string;
  tag_text : option string
}.

Record Symbol : Type := {
  symbol_name : string;
  symbol_docs : list JSDocTagInfo        (* symbol.getJsDocTags() *)
}.

Record Declaration : Type := {
  questionToken : bool
}.

(** A property symbol as returned by [tc.getPropertiesOfType]. *)
Record PropertySymbol : Type := {
  prop_name : string;
  declarations : option (list Declaration);
  prop_type : option TypeId;              (* property.type *)
  prop_docs : list JSDocTagInfo;          (* property.getJsDocTags() *)
  declared_type : TypeId                  (* tc.getTypeOfSymbolAtLocation(property, declarations[0]) *)
}.

Record TypeObject : Type := {
  flags : Z;
  objectFlags : Z;
  symbol : option Symbol;
  aliasSymbol : option Symbol;
  typeArguments : option (list TypeId);
  types : option (list TypeId);
  value : option JsValue;                 (* [None]: no own property 'value' *)
  intrinsicName : option string
}.

Inductive IndexKind : Type := IndexString | IndexNumber.

(** The type-checking oracle together with the heap of type objects. *)
Record TypeChecker : Type := {
  type_at : TypeId -> TypeObject;
  typeToString : TypeId -> string;
  isArrayType : TypeId -> bool;
  getIndexInfoOfType : TypeId -> IndexKind -> bool;
  getPropertiesOfType : TypeId -> list PropertySymbol
}.

Definition getTypeOfSymbolAtLocation (property : PropertySymbol) (d : Declaration)
  : TypeId := declared_type property.

(** ** Regular expressions, as used by [RegExp.prototype.test]

    Both patterns of the source are anchored at both ends, so [test] is a
    whole-string match; it is computed with derivatives. *)
Module RegExp.

Inductive re : Type :=
| Void
| Eps
| Class (p : ascii -> bool)
| Cat (r1 r2 : re)
| Alt (r1 r2 : re)
| Star (r : re).

Definition Opt (r : re) : re := Alt r Eps.        (* r? *)
Definition Plus (r : re) : re := Cat r (Star r).  (* r+ *)

Fixpoint nullable (r : re) : bool :=
  match r with
  | Void => false
  | Eps => true
  | Class _ => false
  | Cat r1 r2 => nullable r1 && nullable r2
  | Alt r1 r2 => nullable r1 || nullable r2
  | Star _ => true
  end.

Fixpoint deriv (c : ascii) (r : re) : re :=
  match r with
  | Void => Void
  | Eps => Void
  | Class p => if p c then Eps else Void
  | Cat r1 r2 =>
      if nullable r1
      then Alt (Cat (deriv c r1) r2) (deriv c r2)
      else Cat (deriv c r1) r2
  | Alt r1 r2 => Alt (deriv c r1) (deriv c r2)
  | Star r1 => Cat (deriv c r1) (Star r1)
  end.

Fixpoint test (r : re) (s : string) : bool :=
  match s with
  | EmptyString => nullable r
  | String c s' => test (deriv c r) s'
  end.

(** The language a pattern denotes. *)
Inductive lang : re -> string -> Prop :=
| lang_eps : lang Eps ""
| lang_class p c : p c = true -> lang (Class p) (String c "")
| lang_cat r1 r2 s1 s2 : lang r1 s1 -> lang r2 s2 -> lang (Cat r1 r2) (s1 ++ s2)%string
| lang_alt_l r1 r2 s : lang r1 s -> lang (Alt r1 r2) s
| lang_alt_r r1 r2 s : lang r2 s -> lang (Alt r1 r2) s
| lang_star_nil r : lang (Star r) ""
| lang_star_cons r s1 s2 :
    lang r s1 -> lang (Star r) s2 -> lang (Star r) (s1 ++ s2)%string.

(** Character classes of the source patterns. *)
Definition sign_class (c : ascii) : bool :=           (* [+-] *)
  Ascii.eqb c "+" || Ascii.eqb c "-".
Definition digit_class (c : ascii) : bool :=          (* [0-9] and \d *)
  (48 <=? nat_of_ascii c)%nat && (nat_of_ascii c <=? 57)%nat.
Definition dot_class (c : ascii) : bool :=            (* [.] *)
  Ascii.eqb c ".".

End RegExp.

(** The pattern of [parseJSDoc], written with blanks between its parts:
    ^ [+-]? ( [0-9]+ ( [.] [0-9]* )? | [.] [0-9]+ ) $ *)
Definition number_pattern : RegExp.re :=
  RegExp.Cat
    (RegExp.Opt (RegExp.Class RegExp.sign_class))
    (RegExp.Alt
       (RegExp.Cat (RegExp.Plus (RegExp.Class RegExp.digit_class))
                   (RegExp.Opt (RegExp.Cat (RegExp.Class RegExp.dot_class)
                                           (RegExp.Star (RegExp.Class RegExp.digit_class)))))
       (RegExp.Cat (RegExp.Class RegExp.dot_class)
                   (RegExp.Plus (RegExp.Class RegExp.digit_class)))).

(** The pattern ^ \d+ $ of the simplified variant. *)
Definition digits_pattern : RegExp.re :=
  RegExp.Plus (RegExp.Class RegExp.digit_class).

(** ** Numeric conversion

    [Number(text)] and [parseInt(text)] on the decimal texts the patterns
    accept.  Numbers are kept as exact rationals in lowest terms; rounding
    to a double and the sign of zero are not represented. *)

Definition digit_of (c : ascii) : Z := Z.of_nat (nat_of_ascii c) - 48.

Fixpoint digits_value (acc : Z) (s : string) : Z :=
  match s with
  | EmptyString => acc
  | String c s' => digits_value (10 * acc + digit_of c) s'
  end.

(** The text before and after the first decimal point. *)
Fixpoint split_point (s : string) : string * string :=
  match s with
  | EmptyString => ("", "")
  | String c s' =>
      if Ascii.eqb c "." then ("", s')
      else let '(a, b) := split_point s' in (String c a, b)
  end.

Definition Number (s : string) : Q :=
  let '(negative, body) :=
    match s with
    | String "+" r => (false, r)
    | String "-" r => (true, r)
    | _ => (false, s)
    end in
  let '(ip, fp) := split_point body in
  let n := digits_value (digits_value 0 ip) fp in
  Qred (Qmake (if negative then - n else n)
              (Z.to_pos (10 ^ Z.of_nat (String.length fp)))).

Definition parseInt (s : string) : Q := inject_Z (digits_value 0 s).

(** Truthiness of [doc.text]. *)
Definition has_text (doc : JSDocTagInfo) : bool :=
  match tag_text doc with
  | Some t => negb (String.eqb t "")
  | None => false
  end.

(** [String(value)], the coercion [test] applies to its argument. *)
Definition to_string (v : JsValue) : string :=
  match v with
  | JUndefined => "undefined"
  | JBool true => "true"
  | JBool false => "false"
  | JString s => s
  | JNumber _ => "number"          (* not reached: numbers arise after the test *)
  | JObject l => l
  end.

Definition strict_eq_string (v : JsValue) (s : string) : bool :=
  match v with
  | JString t => String.eqb t s
  | _ => false
  end.

Definition lift {A} (o : option A) : M A :=
  match o with
  | Some a => ret a
  | None => throw TypeError        (* a member access on [undefined] *)
  end.

Definition nonempty {A} (l : list A) : bool :=
  match l with [] => false | _ => true end.

Fixpoint assoc {A} (k : string) (l : list (string * A)) : option A :=
  match l with
  | [] => None
  | (k', v) :: l' => if String.eqb k k' then Some v else assoc k l'
  end.

(** The recursive entry point the rules call back into:
    [parseType(type, tc, depth, history, additional, optional)]. *)
Definition parser : Type := TypeId -> nat -> bool -> bool -> M Expression.

(** ** The full variant *)
Module Full.

Definition predefined : list (string * string) :=
  [ ("IDate", "date");
    ("IEmail", "email");
    ("IForbidden", "forbidden");
    ("IUrl", "url");
    ("IUUID", "uuid") ].

(** [predefined] is a plain object: a lookup also finds the members it
    inherits from [Object.prototype], all of them truthy. *)
Definition Object_prototype : list string :=
  [ "constructor"; "__defineGetter__"; "__defineSetter__"; "hasOwnProperty";
    "__lookupGetter__"; "__lookupSetter__"; "isPrototypeOf";
    "propertyIsEnumerable"; "toString"; "valueOf"; "__proto__";
    "toLocaleString" ].

(** [predefined[name]]; [None] is [undefined]. *)
Definition predefined_get (name : option string) : option JsValue :=
  let key := match name with Some n => n | None => "undefined" end in
  match assoc key predefined with
  | Some kind => Some (JString kind)
  | None =>
      if existsb (String.eqb key) Object_prototype
      then Some (JObject ("Object.prototype." ++ key)%string)
      else None
  end.

(** *** Helper functions *)

Definition parseJSDoc_value (doc : JSDocTagInfo) : JsValue :=
  let value := match tag_text doc with Some t => JString t | None => JUndefined end in
  let value := if strict_eq_string value "true" then JBool true else value in
  let value := if strict_eq_string value "false" then JBool false else value in
  let value := if RegExp.test number_pattern (to_string value)
               then JNumber (Number (to_string value)) else value in
  value.

Definition parseJSDoc (docs : list JSDocTagInfo) : list PropertyAssignment :=
  map (fun doc => createPropertyAssignment (tag_name doc)
                    (createLiteral (parseJSDoc_value doc)))
      (filter has_text docs).

Definition addProperties (object : Expression)
           (combined_properties : list PropertyAssignment) : option Expression :=
  match properties_of object with
  | Some ps => Some (ObjectLiteral (combined_properties ++ ps))
  | None => None
  end.

Definition addProperty (object : Expression) (name : string) (v : JsValue)
  : option Expression :=
  match properties_of object with
  | Some ps =>
      Some (ObjectLiteral (ps ++ [createPropertyAssignment name (createLiteral v)]))
  | None => None
  end.

Definition optional_prop (optional : bool) : list PropertyAssignment :=
  if optional
  then [createPropertyAssignment "optional" (createLiteral (JBool true))]
  else [].

Definition type_node (kind : string) : Expression :=
  ObjectLiteral [createPropertyAssignment "type" (createLiteral (JString kind))].

Section Rules.

Variable tc : TypeChecker.

(** [type.symbol.getJsDocTags()] followed by
    [type.aliasSymbol.getJsDocTags()]. *)
Definition type_docs (type : TypeId) : list JSDocTagInfo :=
  (match symbol (type_at tc type) with Some s => symbol_docs s | None => [] end)
  ++ (match aliasSymbol (type_at tc type) with Some s => symbol_docs s | None => [] end).

Definition value_of (type : TypeId) : JsValue :=
  match value (type_at tc type) with Some v => v | None => JUndefined end.

Definition parsePrimitive (type : TypeId) (depth : nat) (optional : bool)
  : Expression :=
  let props := optional_prop optional in
  if has_flag (flags (type_at tc type)) TypeFlags.Literal then
    match value (type_at tc type), intrinsicName (type_at tc type) with
    | None, Some intrinsic =>
        ObjectLiteral
          (props ++
           [createPropertyAssignment "type" (createLiteral (JString "enum"));
            createPropertyAssignment "values"
              (ArrayLiteral [createLiteral (JBool (String.eqb intrinsic "true"))])])
    | _, _ =>
        ObjectLiteral
          (props ++
           [createPropertyAssignment "type" (createLiteral (JString "enum"));
            createPropertyAssignment "values"
              (ArrayLiteral [createLiteral (value_of type)])])
    end
  else
    ObjectLiteral
      (props ++
       [createPropertyAssignment "type"
          (createLiteral (JString (typeToString tc type)))]).

Definition parseEnum (type : TypeId) (depth : nat) (optional : bool)
  : M Expression :=
  enum_types <- lift (types (type_at tc type)) ;;
  let values := map (fun enum_property => createLiteral (value_of enum_property))
                    enum_types in
  ret (ObjectLiteral
         (optional_prop optional ++
          [createPropertyAssignment "type" (createLiteral (JString "enum"));
           createPropertyAssignment "values" (ArrayLiteral values)])).

(** The callback of [union_type.types.filter], with its two captured
    variables; returns the kept members and the final [unionOptional]. *)
Fixpoint filter_union (firstBoolean unionOptional : bool) (l : list TypeId)
  : list TypeId * bool :=
  match l with
  | [] => ([], unionOptional)
  | union_property :: l' =>
      if has_flag (flags (type_at tc union_property)) TypeFlags.BooleanLiteral then
        if firstBoolean
        then let '(kept, u) := filter_union false unionOptional l' in
             (union_property :: kept, u)
        else filter_union firstBoolean unionOptional l'
      else if negb (String.eqb (typeToString tc union_property) "undefined")
      then let '(kept, u) := filter_union firstBoolean unionOptional l' in
           (union_property :: kept, u)
      else filter_union firstBoolean true l'
  end.

(** The inner [props.properties.forEach] of [parseIntersection]. *)
Fixpoint add_unique (props : list PropertyAssignment)
         (unique : list string) (combined : list PropertyAssignment)
  : list string * list PropertyAssignment :=
  match props with
  | [] => (unique, combined)
  | prop :: rest =>
      if existsb (String.eqb (fst prop)) unique
      then add_unique rest unique combined
      else add_unique rest (unique ++ [fst prop]) (combined ++ [prop])
  end.

(** [type.properties.forEach] of [parseIntersection]: only properties
    named [props] contribute. *)
Fixpoint collect_props (properties : list PropertyAssignment)
         (unique : list string) (combined : list PropertyAssignment)
  : option (list string * list PropertyAssignment) :=
  match properties with
  | [] => Some (unique, combined)
  | property :: rest =>
      if String.eqb (fst property) "props" then
        match properties_of (snd property) with
        | Some props =>
            let '(u, c) := add_unique props unique combined in
            collect_props rest u c
        | None => None
        end
      else collect_props rest unique combined
  end.

(** The outer [forEach] over the (already reversed) member nodes. *)
Fixpoint combine_members (nodes : list Expression)
         (unique : list string) (combined : list PropertyAssignment)
  : option (list PropertyAssignment) :=
  match nodes with
  | [] => Some combined
  | type :: rest =>
      match properties_of type with
      | Some properties =>
          match collect_props properties unique combined with
          | Some (u, c) => combine_members rest u c
          | None => None
          end
      | None => None
      end
  end.

(** [(declarations && declarations.length) || property.type] *)
Definition eligible (property : PropertySymbol) : bool :=
  match declarations property with
  | Some (_ :: _) => true
  | _ => match prop_type property with Some _ => true | None => false end
  end.

(** The rules that recurse, abstracted over the recursive call. *)
Variable self : parser.

Definition parseArray (type : TypeId) (depth : nat) (optional : bool)
  : M Expression :=
  let props := optional_prop optional in
  match typeArguments (type_at tc type) with
  | Some args =>
      match args with
      | element :: _ =>
          items <- self element depth false false ;;
          ret (ObjectLiteral
                 (props ++
                  [createPropertyAssignment "type" (createLiteral (JString "array"));
                   createPropertyAssignment "items" items]))
      | [] => throw TypeError
      end
  | None =>
      ret (ObjectLiteral
             (props ++
              [createPropertyAssignment "type" (createLiteral (JString "array"))]))
  end.

Definition boolean_literal (type : TypeId) : bool :=
  has_flag (flags (type_at tc type)) TypeFlags.BooleanLiteral.

Definition all_literals (members : list TypeId) : bool :=
  nonempty members
  && forallb (fun union_property =>
                has_flag (flags (type_at tc union_property)) TypeFlags.Literal)
             members.

Definition parseUnion (type : TypeId) (depth : nat)
           (additional optional : bool) : M Expression :=
  union_types <- lift (types (type_at tc type)) ;;
  let '(members, unionOptional) := filter_union true false union_types in
  match members with
  | [union_property] =>
      if boolean_literal union_property then
        if optional || unionOptional
        then ret (ObjectLiteral
                    [createPropertyAssignment "type" (createLiteral (JString "boolean"));
                     createPropertyAssignment "optional" (createLiteral (JBool true))])
        else ret (type_node "boolean")
      else self union_property depth additional (unionOptional || optional)
  | _ =>
      if all_literals members then
        let values :=
          map (fun union_property =>
                 if boolean_literal union_property then
                   if String.eqb (typeToString tc union_property) "false"
                   then createLiteral (JBool false)
                   else createLiteral (JBool true)
                 else createLiteral (value_of union_property))
              members in
        ret (ObjectLiteral
               (optional_prop (optional || unionOptional) ++
                [createPropertyAssignment "type" (createLiteral (JString "enum"));
                 createPropertyAssignment "values" (ArrayLiteral values)]))
      else
        mapped_types <-
          mapM (fun union_property =>
                  if boolean_literal union_property
                  then ret (type_node "boolean")
                  else self union_property depth additional false)
               members ;;
        if optional || unionOptional then
          mapped_types <-
            mapM (fun type => lift (addProperty type "optional" (JBool true)))
                 mapped_types ;;
          ret (ArrayLiteral mapped_types)
        else ret (ArrayLiteral mapped_types)
  end.

Definition wrap_props (depth : nat) (assignments : list PropertyAssignment)
  : list PropertyAssignment :=
  if (1 <? depth)%nat
  then [createPropertyAssignment "type" (createLiteral (JString "object"));
        createPropertyAssignment "props" (ObjectLiteral assignments)]
  else assignments.

Definition doc_props (additional : bool) (docs : list JSDocTagInfo)
  : list PropertyAssignment :=
  if additional && nonempty docs then parseJSDoc docs else [].

Definition parseIntersection (type : TypeId) (depth : nat) (additional : bool)
  : M Expression :=
  intersection_types <- lift (types (type_at tc type)) ;;
  member_nodes <-
    mapM (fun intersection_property =>
            self intersection_property depth additional false)
         intersection_types ;;
  combined_properties <- lift (combine_members (rev member_nodes) [] []) ;;
  ret (ObjectLiteral
         (wrap_props depth combined_properties
          ++ doc_props additional (type_docs type))).

(** What the callback of [properties.map] does to the decomposition of a
    property's type: [optional: true] is appended to a node that has
    [properties], and the property's doc tags are put in front of it. *)
Definition decorate (optional additional : bool) (docs : list JSDocTagInfo)
           (parsed : Expression) : Expression :=
  let parsed :=
    if optional
    then match addProperty parsed "optional" (JBool true) with
         | Some p => p
         | None => parsed
         end
    else parsed in
  let parsed :=
    if additional && nonempty docs
    then match addProperties parsed (parseJSDoc docs) with
         | Some p => p
         | None => parsed
         end
    else parsed in
  parsed.

(** The callback of [properties.map] in [parseInterface]. *)
Definition parseProperty (depth : nat) (additional : bool)
           (property : PropertySymbol) : M PropertyAssignment :=
  parsed_optional <-
    match declarations property with
    | Some ds =>
        match ds with
        | declaration :: _ =>
            let optional := questionToken declaration in
            parsed <- self (getTypeOfSymbolAtLocation property declaration)
                           depth additional optional ;;
            ret (parsed, optional)
        | [] => throw TypeError
        end
    | None =>
        match prop_type property with
        | Some t =>
            parsed <- self t depth additional false ;;
            ret (parsed, false)
        | None => throw TypeError
        end
    end ;;
  let '(parsed, optional) := parsed_optional in
  let parsed := decorate optional additional (prop_docs property) parsed in
  pop ;;;
  ret (createPropertyAssignment (prop_name property) parsed).

Definition parseInterface (type : TypeId) (depth : nat)
           (additional optional : bool) : M Expression :=
  let properties := filter eligible (getPropertiesOfType tc type) in
  properties_assignments <- mapM (parseProperty depth additional) properties ;;
  match properties_assignments with
  | [] => pop ;;; ret (ObjectLiteral [])
  | _ =>
      let neasted_properties_assignments :=
        wrap_props depth properties_assignments
        ++ doc_props additional (type_docs type)
        ++ optional_prop optional in
      pop ;;;
      ret (ObjectLiteral neasted_properties_assignments)
  end.

Definition primitive_like (f : Z) : bool :=
  has_flag f TypeFlags.StringLike
  || has_flag f TypeFlags.NumberLike
  || has_flag f TypeFlags.BooleanLike
  || (f =? TypeFlags.Any).

Definition forbidden_like (f : Z) : bool :=
  (f =? TypeFlags.Null) || (f =? TypeFlags.Undefined) || (f =? TypeFlags.Never).

Definition symbol_name_of (type : TypeId) : option string :=
  option_map symbol_name (symbol (type_at tc type)).

(** The body of [parseType]. *)
Definition dispatch (type : TypeId) (depth : nat)
           (additional optional : bool) : M Expression :=
  let f := flags (type_at tc type) in
  if primitive_like f then
    ret (parsePrimitive type (S depth) optional)
  else if forbidden_like f then
    ret (type_node "forbidden")
  else if f =? TypeFlags.Object then
    let name := symbol_name_of type in
    match predefined_get name with
    | Some kind =>
        ret (ObjectLiteral [createPropertyAssignment "type" (createLiteral kind)])
    | None =>
        if isArrayType tc type then
          parseArray type (S depth) optional
        else if getIndexInfoOfType tc type IndexNumber
                || getIndexInfoOfType tc type IndexString then
          ret (type_node "object")
        else
          history <- get_history ;;
          if includes history name then
            ret (type_node "any")
          else
            (if negb (name_eqb name (Some "__type"))
                && negb (name_eqb name (Some "Array"))
             then push name else ret tt) ;;;
            parseInterface type (S depth) additional optional
    end
  else if f =? TypeFlags.Union then
    parseUnion type (S depth) additional optional
  else if f =? TypeFlags.Intersection then
    parseIntersection type (S depth) additional
  else if has_flag f TypeFlags.EnumLike then
    parseEnum type (S depth) optional
  else
    throw "Unknown type".

End Rules.

(** [parseType]; [fuel] bounds the depth of the recursion, and running out
    of it stands for a recursion that does not end. *)
Fixpoint parseType (fuel : nat) (tc : TypeChecker) (type : TypeId) (depth : nat)
         (additional optional : bool) : M Expression :=
  match fuel with
  | O => fun _ => Diverge
  | S fuel' => dispatch tc (parseType fuel' tc) type depth additional optional
  end.

(** The call [parseType(type, typeChecker, 0, [], additional)] of
    [visitNode]. *)
Definition visitNode (fuel : nat) (tc : TypeChecker) (type : TypeId)
           (additional : bool) : outcome (Expression * History) :=
  parseType fuel tc type 0%nat additional false [].

End Full.

(** ** The simplified variant ([transformer.ts]) *)
Module Simplified.

Definition simple : Type := TypeId -> outcome Expression.

Definition obind {A B} (m : outcome A) (k : A -> outcome B) : outcome B :=
  match m with
  | Ok a => k a
  | Throw e => Throw e
  | Diverge => Diverge
  end.

Definition olift {A} (o : option A) : outcome A :=
  match o with
  | Some a => Ok a
  | None => Throw TypeError
  end.

Fixpoint omap {A B} (f : A -> outcome B) (l : list A) : outcome (list B) :=
  match l with
  | [] => Ok []
  | a :: l' => obind (f a) (fun b => obind (omap f l') (fun bs => Ok (b :: bs)))
  end.

Section Rules.

Variable tc : TypeChecker.

Definition parsePrimitive (type : TypeId) : Expression :=
  ObjectLiteral
    [createPropertyAssignment "type"
       (createLiteral (JString (typeToString tc type)))].

Definition parseEnum (type : TypeId) : outcome Expression :=
  obind (olift (types (type_at tc type))) (fun enum_types =>
  let values :=
    map (fun enum_property =>
           createLiteral (match value (type_at tc enum_property) with
                          | Some v => v
                          | None => JUndefined
                          end))
        enum_types in
  Ok (ObjectLiteral
        [createPropertyAssignment "type" (createLiteral (JString "enum"));
         createPropertyAssignment "values" (ArrayLiteral values)])).

Definition parseArray (type : TypeId) : Expression :=
  ObjectLiteral
    [createPropertyAssignment "type" (createLiteral (JString "array"))].

(** The body of [docs.forEach] in [parseInterface]. *)
Definition doc_value (text : string) : JsValue :=
  let value := JString text in
  let value := if String.eqb text "true" then JBool true else value in
  let value := if String.eqb text "false" then JBool false else value in
  let value := if RegExp.test digits_pattern text
               then JNumber (parseInt text) else value in
  value.

Fixpoint add_docs (docs : list JSDocTagInfo) (properties : list PropertyAssignment)
  : list PropertyAssignment :=
  match docs with
  | [] => properties
  | doc :: rest =>
      match tag_text doc with
      | Some text =>
          if negb (String.eqb text "")
          then add_docs rest
                 (properties ++
                  [createPropertyAssignment (tag_name doc)
                     (createLiteral (doc_value text))])
          else add_docs rest properties
      | None => add_docs rest properties
      end
  end.

Variable self : simple.

Definition parseUnion (type : TypeId) : outcome Expression :=
  obind (olift (types (type_at tc type))) (fun union_types =>
  obind (omap (fun union_property =>
                 if has_flag (flags (type_at tc union_property))
                             TypeFlags.BooleanLiteral
                 then Ok (ObjectLiteral
                            [createPropertyAssignment "type"
                               (createLiteral (JString "boolean"))])
                 else self union_property)
              (filter (fun union_property =>
                         negb (String.eqb (typeToString tc union_property)
                                          "undefined"))
                      union_types))
        (fun mapped => Ok (ArrayLiteral mapped))).

Definition parseIntersection (type : TypeId) : outcome Expression :=
  obind (olift (types (type_at tc type))) (fun intersection_types =>
  obind (omap self intersection_types) (fun member_nodes =>
  obind (omap (fun type => olift (properties_of type)) member_nodes)
        (fun member_properties =>
           Ok (ObjectLiteral (concat member_properties))))).

(** The callback of [properties.map] in [parseInterface]. *)
Definition parseProperty (property : PropertySymbol)
  : outcome PropertyAssignment :=
  match declarations property with
  | Some (declaration :: _) =>
      obind (self (getTypeOfSymbolAtLocation property declaration))
            (fun parsed =>
               let parsed :=
                 match properties_of parsed with
                 | Some ps =>
                     if questionToken declaration
                     then ObjectLiteral
                            (ps ++ [createPropertyAssignment "optional"
                                      (createLiteral (JBool true))])
                     else parsed
                 | None => parsed
                 end in
               let parsed :=
                 match properties_of parsed with
                 | Some ps =>
                     if nonempty (prop_docs property)
                     then ObjectLiteral (add_docs (prop_docs property) ps)
                     else parsed
                 | None => parsed
                 end in
               Ok (createPropertyAssignment (prop_name property) parsed))
  | _ => Throw TypeError
  end.

(** [property.declarations!.length] as the filter's condition. *)
Definition has_declarations (property : PropertySymbol) : outcome bool :=
  match declarations property with
  | Some ds => Ok (nonempty ds)
  | None => Throw TypeError
  end.

Fixpoint ofilter {A} (f : A -> outcome bool) (l : list A) : outcome (list A) :=
  match l with
  | [] => Ok []
  | a :: l' =>
      obind (f a) (fun keep =>
      obind (ofilter f l') (fun r => Ok (if keep then a :: r else r)))
  end.

Definition parseInterface (type : TypeId) : outcome Expression :=
  obind (ofilter has_declarations (getPropertiesOfType tc type))
        (fun properties =>
  obind (omap parseProperty properties) (fun properties_assignments =>
  Ok (ObjectLiteral properties_assignments))).

Definition dispatch (type : TypeId) : outcome Expression :=
  let f := flags (type_at tc type) in
  if has_flag f TypeFlags.StringLike
     || has_flag f TypeFlags.NumberLike
     || has_flag f TypeFlags.BooleanLike
     || (f =? TypeFlags.Any) then
    Ok (parsePrimitive type)
  else if (f =? TypeFlags.Null) || (f =? TypeFlags.Undefined) then
    Ok (ObjectLiteral [])
  else if (f =? TypeFlags.Object)
          && (objectFlags (type_at tc type) =? ObjectFlags.Interface) then
    parseInterface type
  else if (f =? TypeFlags.Object)
          && (objectFlags (type_at tc type) =? ObjectFlags.Reference) then
    Ok (parseArray type)
  else if f =? TypeFlags.Union then
    parseUnion type
  else if f =? TypeFlags.Intersection then
    parseIntersection type
  else if has_flag f TypeFlags.EnumLike then
    parseEnum type
  else
    Ok (ObjectLiteral []).

End Rules.

Fixpoint parseType (fuel : nat) (tc : TypeChecker) (type : TypeId)
  : outcome Expression :=
  match fuel with
  | O => Diverge
  | S fuel' => dispatch tc (parseType fuel' tc) type
  end.

(** The call [parseType(type, typeChecker, [])] of [visitNode]. *)
Definition visitNode (fuel : nat) (tc : TypeChecker) (type : TypeId)
  : outcome Expression :=
  parseType fuel tc type.

End Simplified.

(** ** Example type graphs *)
Module Examples.

Definition mkType (f : Z) : TypeObject :=
  {| flags := f; objectFlags := 0; symbol := None; aliasSymbol := None;
     typeArguments := None; types := None; value := None;
     intrinsicName := None |}.

Definition named (name : string) (docs : list JSDocTagInfo) (oflags : Z) : TypeObject :=
  {| flags := TypeFlags.Object; objectFlags := oflags;
     symbol := Some {| symbol_name := name; symbol_docs := docs |};
     aliasSymbol := None; typeArguments := None; types := None;
     value := None; intrinsicName := None |}.

Definition members (f : Z) (ms : list TypeId) : TypeObject :=
  {| flags := f; objectFlags := 0; symbol := None; aliasSymbol := None;
     typeArguments := None; types := Some ms; value := None;
     intrinsicName := None |}.

Definition field (name : string) (question : bool) (docs : list JSDocTagInfo)
           (t : TypeId) : PropertySymbol :=
  {| prop_name := name;
     declarations := Some [ {| questionToken := question |} ];
     prop_type := None; prop_docs := docs; declared_type := t |}.

Definition tag (name text : string) : JSDocTagInfo :=
  {| tag_name := name; tag_text := Some text |}.

(** One heap holding the types of the examples:
<<
    interface Node { value: string, next?: Node }            (0)
    string (1), Node | undefined (2), undefined (3), number (4)
    interface IDate { time: number }                         (5)
    A[] (6),  interface A { x: string, y?: number }          (7)
    interface B { a: A }                                     (8)
    A & C (9),  interface C { y: string, z: string }         (10)
    void (11), null (12), string | undefined (13)
    true (14), false (15), true | false | undefined (16)
    IDate | undefined (17)
    interface Node as (0) under strictNullChecks, where the
    type of next is the union Node | undefined               (18, 19)
    interface P { a: string, b: Q }, interface Q { c: P }    (20, 21)
    interface Rev { next?: Rev, value: string }              (22)
    type Node = { value: string, next?: Node }, a type alias:
    the symbol of the object literal type is the anonymous
    __type and Node is its alias symbol                      (23)
    A & (A | C) (24), A | C (25)
>>  *)
Definition heap (id : TypeId) : TypeObject :=
  match id with
  | 0 => named "Node" [] ObjectFlags.Interface
  | 1 => mkType TypeFlags.String
  | 2 => members TypeFlags.Union [3; 0]
  | 3 => mkType TypeFlags.Undefined
  | 4 => mkType TypeFlags.Number
  | 5 => named "IDate" [] ObjectFlags.Interface
  | 6 => {| flags := TypeFlags.Object; objectFlags := ObjectFlags.Reference;
            symbol := Some {| symbol_name := "Array"; symbol_docs := [] |};
            aliasSymbol := None; typeArguments := Some [7]; types := None;
            value := None; intrinsicName := None |}
  | 7 => named "A" [tag "title" "An A"] ObjectFlags.Interface
  | 8 => named "B" [] ObjectFlags.Interface
  | 9 => members TypeFlags.Intersection [7; 10]
  | 10 => named "C" [] ObjectFlags.Interface
  | 11 => mkType TypeFlags.Void
  | 12 => mkType TypeFlags.Null
  | 13 => members TypeFlags.Union [3; 1]
  | 14 => {| flags := TypeFlags.BooleanLiteral; objectFlags := 0; symbol := None;
             aliasSymbol := None; typeArguments := None; types := None;
             value := None; intrinsicName := Some "true" |}
  | 15 => {| flags := TypeFlags.BooleanLiteral; objectFlags := 0; symbol := None;
             aliasSymbol := None; typeArguments := None; types := None;
             value := None; intrinsicName := Some "false" |}
  | 16 => members TypeFlags.Union [3; 15; 14]
  | 17 => members TypeFlags.Union [3; 5]
  | 18 => named "Node" [] ObjectFlags.Interface
  | 19 => members TypeFlags.Union [3; 18]
  | 20 => named "P" [] ObjectFlags.Interface
  | 21 => named "Q" [] ObjectFlags.Interface
  | 22 => named "Rev" [] ObjectFlags.Interface
  | 23 => {| flags := TypeFlags.Object; objectFlags := 16;
             symbol := Some {| symbol_name := "__type"; symbol_docs := [] |};
             aliasSymbol := Some {| symbol_name := "Node"; symbol_docs := [] |};
             typeArguments := None; types := None;
             value := None; intrinsicName := None |}
  | 24 => members TypeFlags.Intersection [7; 25]
  | 25 => members TypeFlags.Union [7; 10]
  | _ => mkType TypeFlags.Unknown
  end%nat.

Definition display (id : TypeId) : string :=
  match id with
  | 0 => "Node" | 1 => "string" | 2 => "Node | undefined" | 3 => "undefined"
  | 4 => "number" | 5 => "IDate" | 6 => "A[]" | 7 => "A" | 8 => "B"
  | 9 => "A & C" | 10 => "C" | 11 => "void" | 12 => "null"
  | 13 => "string | undefined" | 14 => "true" | 15 => "false"
  | 16 => "boolean | undefined" | 17 => "IDate | undefined"
  | 18 => "Node" | 19 => "Node | undefined" | 20 => "P" | 21 => "Q"
  | 22 => "Rev" | 23 => "Node" | 24 => "A & (A | C)" | 25 => "A | C"
  | _ => "unknown"
  end%nat.

Definition props (id : TypeId) : list PropertySymbol :=
  match id with
  | 0 => [field "value" false [] 1; field "next" true [] 0]
  | 5 => [field "time" false [] 4]
  | 7 => [field "x" false [tag "min" "-1.5"] 1; field "y" true [] 4]
  | 8 => [field "a" false [] 7]
  | 10 => [field "y" false [] 1; field "z" false [] 1]
  | 18 => [field "value" false [] 1; field "next" true [] 19]
  | 20 => [field "a" false [] 1; field "b" false [] 21]
  | 21 => [field "c" false [] 20]
  | 22 => [field "next" true [] 22; field "value" false [] 1]
  | 23 => [field "value" false [] 1; field "next" true [] 23]
  | _ => []
  end%nat.

Definition tc : TypeChecker :=
  {| type_at := heap;
     typeToString := display;
     isArrayType := fun id => Nat.eqb id 6;
     getIndexInfoOfType := fun _ _ => false;
     getPropertiesOfType := props |}.

(** The decompositions of [A] and [C] as members of the intersection (9). *)
Definition A_and_C_nodes : list Expression :=
  [ ObjectLiteral
      [("type", Literal (JString "object"));
       ("props",
        ObjectLiteral
          [("x", ObjectLiteral [("min", Literal (JNumber (-3 # 2)));
                                ("type", Literal (JString "string"))]);
           ("y", ObjectLiteral [("optional", Literal (JBool true));
                                ("type", Literal (JString "number"));
                                ("optional", Literal (JBool true))])]);
       ("title", Literal (JString "An A"))];
    ObjectLiteral
      [("type", Literal (JString "object"));
       ("props",
        ObjectLiteral
          [("y", ObjectLiteral [("type", Literal (JString "string"))]);
           ("z", ObjectLiteral [("type", Literal (JString "string"))])])] ].

End Examples.


(** ** Notions of the specification *)

(** A run of decimal digits. *)
Inductive digits : string -> Prop :=
| digits_nil : digits ""
| digits_cons c s :
    RegExp.digit_class c = true -> digits s -> digits (String c s).

Definition sign (s : string) : Prop := s = "" \/ s = "+" \/ s = "-".

(** The texts the specification calls a signed decimal or integer: an
    optional sign followed by digits, by digits with a fractional part, or
    by a point and digits. *)
Inductive signed_decimal : string -> Prop :=
| sd_integer sg ds :
    sign sg -> digits ds -> ds <> "" -> signed_decimal (sg ++ ds)%string
| sd_fraction sg ds fs :
    sign sg -> digits ds -> ds <> "" -> digits fs ->
    signed_decimal (sg ++ ds ++ "." ++ fs)%string
| sd_point sg fs :
    sign sg -> digits fs -> fs <> "" -> signed_decimal (sg ++ "." ++ fs)%string.

(** The coercion rule of the specification for the text of a tag. *)
Inductive tag_value : string -> JsValue -> Prop :=
| tag_true : tag_value "true" (JBool true)
| tag_false : tag_value "false" (JBool false)
| tag_number t : signed_decimal t -> tag_value t (JNumber (Number t))
| tag_string t :
    t <> "true" -> t <> "false" -> ~ signed_decimal t -> tag_value t (JString t).

(** The literal [undefined] member of a union, as the filter of [parseUnion]
    recognises it. *)
Definition is_undefined (tc : TypeChecker) (m : TypeId) : bool :=
  negb (Full.boolean_literal tc m) && String.eqb (typeToString tc m) "undefined".

(** Of several boolean-literal members only the first one stays. *)
Fixpoint first_boolean_only (tc : TypeChecker) (l : list TypeId) : list TypeId :=
  match l with
  | [] => []
  | m :: l' =>
      if Full.boolean_literal tc m
      then m :: filter (fun x => negb (Full.boolean_literal tc x)) l'
      else m :: first_boolean_only tc l'
  end.

(** The schema literal of an outcome of the full variant, without the final
    state of the history. *)
Definition literal_of (o : outcome (Expression * History)) : outcome Expression :=
  match o with
  | Ok (e, _) => Ok e
  | Throw msg => Throw msg
  | Diverge => Diverge
  end.

(** A type checker that answers like [tc] but reports no doc tags at all,
    neither on types nor on properties. *)
Definition strip_symbol (s : Symbol) : Symbol :=
  {| symbol_name := symbol_name s; symbol_docs := [] |}.

Definition strip_type (t : TypeObject) : TypeObject :=
  {| flags := flags t;
     objectFlags := objectFlags t;
     symbol := option_map strip_symbol (symbol t);
     aliasSymbol := option_map strip_symbol (aliasSymbol t);
     typeArguments := typeArguments t;
     types := types t;
     value := value t;
     intrinsicName := intrinsicName t |}.

Definition strip_property (p : PropertySymbol) : PropertySymbol :=
  {| prop_name := prop_name p;
     declarations := declarations p;
     prop_type := prop_type p;
     prop_docs := [];
     declared_type := declared_type p |}.

Definition strip_docs (tc : TypeChecker) : TypeChecker :=
  {| type_at := fun id => strip_type (type_at tc id);
     typeToString := typeToString tc;
     isArrayType := isArrayType tc;
     getIndexInfoOfType := getIndexInfoOfType tc;
     getPropertiesOfType := fun id => map strip_property (getPropertiesOfType tc id) |}.

(** The entries a member node of an intersection contributes: those of the
    object literals under its keys named [props]. *)
Fixpoint props_entries (properties : list PropertyAssignment)
  : list PropertyAssignment :=
  match properties with
  | [] => []
  | property :: rest =>
      if String.eqb (fst property) "props"
      then match properties_of (snd property) with
           | Some props => props ++ props_entries rest
           | None => props_entries rest
           end
      else props_entries rest
  end.

Definition contributed (node : Expression) : list PropertyAssignment :=
  match properties_of node with
  | Some properties => props_entries properties
  | None => []
  end.

(** The entry of [name] in the merged mapping of the specification: going
    through the members in declared order, a later member that has the name
    replaces what an earlier one gave. *)
Definition merged_lookup (name : string) (nodes : list Expression)
  : option Expression :=
  fold_left (fun found node =>
               match assoc name (contributed node) with
               | Some e => Some e
               | None => found
               end)
            nodes None.

(** A member node [parseIntersection] can merge: an object literal whose
    [props] keys hold object literals. *)
Definition mergeable (node : Expression) : Prop :=
  exists properties,
    node = ObjectLiteral properties
    /\ forall v, In ("props", v) properties -> exists props, v = ObjectLiteral props.

(** An outcome other than unbounded recursion. *)
Definition settled {A} (o : outcome A) : Prop := o <> Diverge.

(** ** The remaining helper of the full variant *)

(** [combineObjects(o1, o2)]: the properties of both, those of [o1] first. *)
Definition combineObjects (o1 o2 : Expression) : option Expression :=
  match properties_of o1, properties_of o2 with
  | Some ps1, Some ps2 => Some (ObjectLiteral (ps1 ++ ps2))
  | _, _ => None
  end.

(** ** Call sites: [isKeysCallExpression] and [visitNode] *)

(** The declaration of a resolved signature: whether it is a JSDoc signature
    and the text of its name, if it has one. *)
Record SignatureDeclaration : Type := {
  isJSDocSignature : bool;
  declaration_name : option string       (* declaration.name.getText() *)
}.

Record Signature : Type := {
  declaration : option SignatureDeclaration
}.

Definition TypeNode : Type := nat.
Definition ArgumentNode : Type := nat.

Record CallExpression : Type := {
  call_id : nat;
  call_typeArguments : option (list TypeNode);   (* node.typeArguments *)
  call_arguments : list ArgumentNode             (* node.arguments *)
}.

(** The syntax nodes the visitor tells apart: call expressions, the literals
    it puts in their place, and everything else. *)
Inductive Node : Type :=
| CallNode (call : CallExpression)
| LiteralNode (e : Expression)
| OtherNode (id : nat).

(** The program: its type checker and the further questions the visitor asks
    it.  [getTypeAtLocation] and [getTypeFromTypeNode] are also asked about
    [arguments[0]] and [typeArguments[0]] when those are [undefined]. *)
Record Program : Type := {
  getTypeChecker : TypeChecker;
  getResolvedSignature : CallExpression -> option Signature;
  getTypeAtLocation : option ArgumentNode -> TypeId;
  getTypeFromTypeNode : option TypeNode -> TypeId
}.

Definition isKeysCallExpression (program : Program) (node : Node) : bool :=
  match node with
  | CallNode call =>
      match getResolvedSignature program call with
      | None => false
      | Some signature =>
          match declaration signature with
          | None => false
          | Some decl =>
              negb (isJSDocSignature decl)
              && match declaration_name decl with
                 | Some text => String.eqb text "schema"
                 | None => false
                 end
          end
      end
  | _ => false
  end.

Definition option_string_eqb (a : option string) (s : string) : bool :=
  match a with
  | Some t => String.eqb t s
  | None => false
  end.

Module Visitor.

(** [visitNode] of the full variant. *)
Definition visitNode (fuel : nat) (program : Program) (node : Node)
  : outcome Node :=
  if negb (isKeysCallExpression program node) then Ok node
  else
    match node with
    | CallNode call =>
        match call_typeArguments call with
        | None => Ok (LiteralNode (ObjectLiteral []))
        | Some typeArguments =>
            let typeArg := getTypeAtLocation program (hd_error (call_arguments call)) in
            let additional :=
              negb (nonempty (call_arguments call)
                    && option_string_eqb
                         (intrinsicName (type_at (getTypeChecker program) typeArg))
                         "false") in
            let type := getTypeFromTypeNode program (hd_error typeArguments) in
            match Full.parseType fuel (getTypeChecker program) type 0 additional
                                 false [] with
            | Ok (e, _) => Ok (LiteralNode e)
            | Throw msg => Throw msg
            | Diverge => Diverge
            end
        end
    | _ => Ok node
    end.

End Visitor.

Module SimplifiedVisitor.

(** [visitNode] of [transformer.ts]. *)
Definition visitNode (fuel : nat) (program : Program) (node : Node)
  : outcome Node :=
  if negb (isKeysCallExpression program node) then Ok node
  else
    match node with
    | CallNode call =>
        match call_typeArguments call with
        | None => Ok (LiteralNode (ObjectLiteral []))
        | Some typeArguments =>
            let type := getTypeFromTypeNode program (hd_error typeArguments) in
            match Simplified.parseType fuel (getTypeChecker program) type with
            | Ok e => Ok (LiteralNode e)
            | Throw msg => Throw msg
            | Diverge => Diverge
            end
        end
    | _ => Ok node
    end.

End SimplifiedVisitor.

(** A call the visitor rewrites: one resolved to a declaration, not a JSDoc
    signature, whose name reads [schema]. *)
Definition schema_call (program : Program) (node : Node) : Prop :=
  exists call signature decl,
    node = CallNode call
    /\ getResolvedSignature program call = Some signature
    /\ declaration signature = Some decl
    /\ isJSDocSignature decl = false
    /\ declaration_name decl = Some "schema".

(** The same program with a type checker that reports no doc tags. *)
Definition strip_program (program : Program) : Program :=
  {| getTypeChecker := strip_docs (getTypeChecker program);
     getResolvedSignature := getResolvedSignature program;
     getTypeAtLocation := getTypeAtLocation program;
     getTypeFromTypeNode := getTypeFromTypeNode program |}.

(** ** Further notions used in the properties *)

(** [h'] is an initial part of [h]. *)
Definition prefix (h' h : History) : Prop := exists rest, h = h' ++ rest.

(** The type [parseInterface] decomposes for a property, when it gets that
    far. *)
Definition property_type (property : PropertySymbol) : option TypeId :=
  match declarations property with
  | Some (_ :: _) => Some (declared_type property)
  | Some [] => None
  | None => prop_type property
  end.

(** The types a rule may recurse into from [type]: the first type argument,
    the members, and the types of the properties. *)
Definition children (tc : TypeChecker) (type : TypeId) : list TypeId :=
  match typeArguments (type_at tc type) with
  | Some (element :: _) => [element]
  | _ => []
  end
  ++ match types (type_at tc type) with
     | Some members => members
     | None => []
     end
  ++ flat_map (fun property =>
                 match property_type property with
                 | Some t => [t]
                 | None => []
                 end)
              (getPropertiesOfType tc type).

(** Neither a bare literal, nor an array literal unless the type is a union. *)
Definition well_shaped (tc : TypeChecker) (type : TypeId) (e : Expression) : Prop :=
  match e with
  | Literal _ => False
  | ObjectLiteral _ => True
  | ArrayLiteral _ => flags (type_at tc type) = TypeFlags.Union
  end.

(** The coercion rule of the simplified variant for the text of a tag. *)
Inductive simple_tag_value : string -> JsValue -> Prop :=
| simple_true : simple_tag_value "true" (JBool true)
| simple_false : simple_tag_value "false" (JBool false)
| simple_number t :
    digits t -> t <> "" -> simple_tag_value t (JNumber (parseInt t))
| simple_string t :
    t <> "true" -> t <> "false" -> ~ (digits t /\ t <> "") ->
    simple_tag_value t (JString t).

(** ** More examples *)
Module MoreExamples.

(** The types of [Examples.tc] without the properties of the
    self-referential ones: a type graph without cycles. *)
Definition tree_props (id : TypeId) : list PropertySymbol :=
  match id with
  | 5 => Examples.props 5
  | 7 => Examples.props 7
  | 8 => Examples.props 8
  | 10 => Examples.props 10
  | _ => []
  end%nat.

Definition tree_tc : TypeChecker :=
  {| type_at := Examples.heap;
     typeToString := Examples.display;
     isArrayType := fun id => Nat.eqb id 6;
     getIndexInfoOfType := fun _ _ => false;
     getPropertiesOfType := tree_props |}.

Definition rank (id : TypeId) : nat :=
  match id with
  | 2 | 5 | 7 | 10 | 13 | 16 | 19 => 1
  | 6 | 8 | 9 | 17 | 25 => 2
  | 24 => 3
  | _ => 0
  end%nat.

(** A program with four calls: [schema<A>()] (0), [schema<A>(false)] (1),
    [validate<A>()] (2) and [schema()] (3).  Type node 0 denotes [A], the
    argument 0 is the literal [false]. *)
Definition call (id : nat) (targs : option (list TypeNode))
           (args : list ArgumentNode) : CallExpression :=
  {| call_id := id; call_typeArguments := targs; call_arguments := args |}.

Definition declared (name : string) : option Signature :=
  Some {| declaration :=
            Some {| isJSDocSignature := false; declaration_name := Some name |} |}.

Definition program : Program :=
  {| getTypeChecker := Examples.tc;
     getResolvedSignature :=
       fun c => match call_id c with
                | 2 => declared "validate"
                | _ => declared "schema"
                end%nat;
     getTypeAtLocation :=
       fun a => match a with Some 0%nat => 15%nat | _ => 11%nat end;
     getTypeFromTypeNode :=
       fun t => match t with Some 0%nat => 7%nat | _ => 11%nat end |}.

(** A second heap:
<<
    'a' | 'b' (0), the literal types 'a' (1) and 'b' (2)
    interface constructor { x: string } (3), string (4)
    interface L { next?: L } (5)
>>  *)
Definition literal (text : string) : TypeObject :=
  {| flags := TypeFlags.StringLiteral; objectFlags := 0; symbol := None;
     aliasSymbol := None; typeArguments := None; types := None;
     value := Some (JString text); intrinsicName := None |}.

Definition small_heap (id : TypeId) : TypeObject :=
  match id with
  | 0 => Examples.members TypeFlags.Union [1; 2]
  | 1 => literal "a"
  | 2 => literal "b"
  | 3 => Examples.named "constructor" [] ObjectFlags.Interface
  | 4 => Examples.mkType TypeFlags.String
  | 5 => Examples.named "L" [] ObjectFlags.Interface
  | _ => Examples.mkType TypeFlags.Unknown
  end%nat.

Definition small_tc : TypeChecker :=
  {| type_at := small_heap;
     typeToString :=
       fun id => match id with
                 | 0 => "'a' | 'b'"
                 | 1 => "'a'" | 2 => "'b'" | 3 => "constructor"
                 | 4 => "string" | 5 => "L" | _ => "unknown"
                 end%nat;
     isArrayType := fun _ => false;
     getIndexInfoOfType := fun _ _ => false;
     getPropertiesOfType :=
       fun id => match id with
                 | 3 => [Examples.field "x" false [] 4]
                 | 5 => [Examples.field "next" true [] 5]
                 | _ => []
                 end%nat |}.

(** The decomposition of [A | C] (type 25 of [Examples.tc]) with the optional
    flag set. *)
Definition A_or_C_optional : Expression :=
  ArrayLiteral
    [ ObjectLiteral
        [("type", Literal (JString "object"));
         ("props",
          ObjectLiteral
            [("x", ObjectLiteral [("type", Literal (JString "string"))]);
             ("y", ObjectLiteral [("optional", Literal (JBool true));
                                  ("type", Literal (JString "number"));
                                  ("optional", Literal (JBool true))])]);
         ("optional", Literal (JBool true))];
      ObjectLiteral
        [("type", Literal (JString "object"));
         ("props",
          ObjectLiteral
            [("y", ObjectLiteral [("type", Literal (JString "string"))]);
             ("z", ObjectLiteral [("type", Literal (JString "string"))])]);
         ("optional", Literal (JBool true))] ].

End MoreExamples.

(** ** The rules in the words of the specification *)

(** The type decomposed for a property and the property's optionality: those
    of its first declaration, the question mark giving the optionality, or
    the type recorded on the symbol when it has no declaration at all. *)
Definition property_subject (property : PropertySymbol) : option (TypeId * bool) :=
  match declarations property with
  | Some (declaration :: _) =>
      Some (declared_type property, questionToken declaration)
  | Some [] => None
  | None =>
      match prop_type property with
      | Some t => Some (t, false)
      | None => None
      end
  end.

(** The properties an interface is decomposed over: those with a declaration
    or with a recorded type. *)
Definition eligible_property (property : PropertySymbol) : bool :=
  match declarations property with
  | Some (_ :: _) => true
  | _ => match prop_type property with Some _ => true | None => false end
  end.

(** The doc tags of a type: those of its symbol, then those of its alias. *)
Definition declared_tags (tc : TypeChecker) (type : TypeId) : list JSDocTagInfo :=
  match symbol (type_at tc type) with Some s => symbol_docs s | None => [] end
  ++ match aliasSymbol (type_at tc type) with Some s => symbol_docs s | None => [] end.

(** The keys made of doc tags, present only at an additive call. *)
Definition tag_entries (additional : bool) (docs : list JSDocTagInfo)
  : list PropertyAssignment :=
  if additional && nonempty docs then Full.parseJSDoc docs else [].

Definition optional_entry (optional : bool) : list PropertyAssignment :=
  if optional then [("optional", Literal (JBool true))] else [].

(** Keys attached before and after those of a structured node; any other
    node is left as it is. *)
Definition attached (front back : list PropertyAssignment) (node : Expression)
  : Expression :=
  match node with
  | ObjectLiteral properties => ObjectLiteral (front ++ properties ++ back)
  | _ => node
  end.

(** The property mapping: one entry per property, in order, under the
    property's name; the entry is the decomposition of the property's type
    with the property's doc tags in front and, for an optional property,
    [optional: true] at the end; the last name of the history is dropped
    after each property. *)
Fixpoint property_mapping (decompose : TypeId -> bool -> M Expression)
         (additional : bool) (properties : list PropertySymbol) (h : History)
  : outcome (list PropertyAssignment * History) :=
  match properties with
  | [] => Ok ([], h)
  | property :: rest =>
      match property_subject property with
      | None => Throw TypeError
      | Some (t, optional) =>
          match decompose t optional h with
          | Ok (node, h1) =>
              match property_mapping decompose additional rest (removelast h1) with
              | Ok (entries, h2) =>
                  Ok ((prop_name property,
                       attached (tag_entries additional (prop_docs property))
                                (optional_entry optional) node) :: entries,
                      h2)
              | Throw e => Throw e
              | Diverge => Diverge
              end
          | Throw e => Throw e
          | Diverge => Diverge
          end
      end
  end.

(** The names under which the lookup in [predefined] finds something: the
    five markers and the members every object inherits. *)
Definition marker_names : list string :=
  ["IDate"; "IEmail"; "IForbidden"; "IUrl"; "IUUID"].

Definition inherited_names : list string :=
  [ "constructor"; "__defineGetter__"; "__defineSetter__"; "hasOwnProperty";
    "__lookupGetter__"; "__lookupSetter__"; "isPrototypeOf";
    "propertyIsEnumerable"; "toString"; "valueOf"; "__proto__";
    "toLocaleString" ].

(** A decomposition with [optional: true] attached, in front of the keys of
    the node or after them; a failure stays the failure it is. *)
Definition optional_in_front (o : outcome (Expression * History))
  : outcome (Expression * History) :=
  match o with
  | Ok (ObjectLiteral properties, h) =>
      Ok (ObjectLiteral (("optional", Literal (JBool true)) :: properties), h)
  | _ => o
  end.

Definition optional_at_end (o : outcome (Expression * History))
  : outcome (Expression * History) :=
  match o with
  | Ok (ObjectLiteral properties, h) =>
      Ok (ObjectLiteral (properties ++ [("optional", Literal (JBool true))]), h)
  | _ => o
  end.

(** The kinds of union member by what becomes of the optional flag: the
    primitive, array and enum rules put the mark in front, the interface rule
    puts it at the end of a node that has properties, and the remaining rules
    never look at the flag. *)
Definition marked_in_front (tc : TypeChecker) (m : TypeId) : Prop :=
  let f := flags (type_at tc m) in
  Full.primitive_like f = true
  \/ (f = TypeFlags.Object
      /\ Full.predefined_get (Full.symbol_name_of tc m) = None
      /\ isArrayType tc m = true)
  \/ (Full.primitive_like f = false
      /\ Full.forbidden_like f = false
      /\ f <> TypeFlags.Object
      /\ f <> TypeFlags.Union
      /\ f <> TypeFlags.Intersection
      /\ has_flag f TypeFlags.EnumLike = true).

Definition marked_at_end (tc : TypeChecker) (m : TypeId) (h : History) : Prop :=
  flags (type_at tc m) = TypeFlags.Object
  /\ Full.predefined_get (Full.symbol_name_of tc m) = None
  /\ isArrayType tc m = false
  /\ getIndexInfoOfType tc m IndexNumber = false
  /\ getIndexInfoOfType tc m IndexString = false
  /\ includes h (Full.symbol_name_of tc m) = false
  /\ filter eligible_property (getPropertiesOfType tc m) <> [].

Definition left_unmarked (tc : TypeChecker) (m : TypeId) (h : History) : Prop :=
  let f := flags (type_at tc m) in
  Full.primitive_like f = false
  /\ (Full.forbidden_like f = true
      \/ f = TypeFlags.Intersection
      \/ (f = TypeFlags.Object
          /\ (Full.predefined_get (Full.symbol_name_of tc m) <> None
              \/ (isArrayType tc m = false
                  /\ (getIndexInfoOfType tc m IndexNumber
                      || getIndexInfoOfType tc m IndexString = true
                      \/ includes h (Full.symbol_name_of tc m) = true
                      \/ filter eligible_property (getPropertiesOfType tc m) = []))))).

(** The alternatives of a union with the optional mark on each of them; a
    node without properties cannot take the mark. *)
Definition is_object_literal (node : Expression) : bool :=
  match node with ObjectLiteral _ => true | _ => false end.

Definition marked_alternatives (nodes : list Expression) : list Expression :=
  map (attached [] [("optional", Literal (JBool true))]) nodes.

(** A third heap, in which an interface carries a doc tag named [props]:
<<
    A & C (0)
    /** @props x */ interface A { x: string }  (1)
    interface C { y: string } (2), string (3)
>>  *)
Module TagExamples.

Definition heap (id : TypeId) : TypeObject :=
  match id with
  | 0 => Examples.members TypeFlags.Intersection [1; 2]
  | 1 => Examples.named "A" [Examples.tag "props" "x"] ObjectFlags.Interface
  | 2 => Examples.named "C" [] ObjectFlags.Interface
  | 3 => Examples.mkType TypeFlags.String
  | _ => Examples.mkType TypeFlags.Unknown
  end%nat.

Definition tc : TypeChecker :=
  {| type_at := heap;
     typeToString :=
       fun id => match id with
                 | 0 => "A & C" | 1 => "A" | 2 => "C" | 3 => "string"
                 | _ => "unknown"
                 end%nat;
     isArrayType := fun _ => false;
     getIndexInfoOfType := fun _ _ => false;
     getPropertiesOfType :=
       fun id => match id with
                 | 1 => [Examples.field "x" false [] 3]
                 | 2 => [Examples.field "y" false [] 3]
                 | _ => []
                 end%nat |}.

End TagExamples.

(** * Properties *)

(** ** The monad *)

Lemma bind_ok {A B} (m : M A) (k : A -> M B) h a h' :
  m h = Ok (a, h') -> bind m k h = k a h'.
Proof. unfold bind; intros ->; reflexivity. Qed.

Lemma bind_ret {A B} (a : A) (k : A -> M B) h : bind (ret a) k h = k a h.
Proof. reflexivity. Qed.

Lemma bind_ext {A B} (m1 m2 : M A) (k1 k2 : A -> M B) h :
  m1 h = m2 h ->
  (forall a h', k1 a h' = k2 a h') ->
  bind m1 k1 h = bind m2 k2 h.
Proof.
  intros Hm Hk. unfold bind. rewrite Hm.
  destruct (m2 h) as [[a h']| |]; auto.
Qed.

Lemma mapM_ext {A B} (f g : A -> M B) (l : list A) :
  (forall a h, In a l -> f a h = g a h) ->
  forall h, mapM f l h = mapM g l h.
Proof.
  induction l as [|a l IH]; intros Hfg h; simpl; [reflexivity|].
  apply bind_ext; [apply Hfg; left; reflexivity|].
  intros b h'. apply bind_ext; [|reflexivity].
  apply IH. intros x hx Hx. apply Hfg. right; exact Hx.
Qed.

Lemma mapM_map {A B C} (f : B -> M C) (g : A -> B) (l : list A) h :
  mapM f (map g l) h = mapM (fun a => f (g a)) l h.
Proof.
  revert h. induction l as [|a l IH]; intro h; simpl; [reflexivity|].
  apply bind_ext; [reflexivity|]. intros b h'.
  apply bind_ext; [apply IH|reflexivity].
Qed.

Lemma mapM_length {A B} (f : A -> M B) (l : list A) h bs h' :
  mapM f l h = Ok (bs, h') -> length bs = length l.
Proof.
  revert h bs h'. induction l as [|a l IH]; simpl; intros h bs h' H.
  - inversion H; reflexivity.
  - unfold bind in H at 1. destruct (f a h) as [[b h1]| |]; try discriminate.
    unfold bind in H at 1. destruct (mapM f l h1) as [[bs1 h2]| |] eqn:E; try discriminate.
    inversion H; subst. simpl. f_equal. eapply IH; eassumption.
Qed.

(** ** Dispatch of the full variant *)

Lemma parseType_S fuel tc type depth additional optional h :
  Full.parseType (S fuel) tc type depth additional optional h
  = Full.dispatch tc (Full.parseType fuel tc) type depth additional optional h.
Proof. reflexivity. Qed.

(** ** Fuel: a settled outcome does not depend on the bound *)

Lemma bind_settled {A B} (m m' : M A) (k k' : A -> M B) h :
  (settled (m h) -> m' h = m h) ->
  (forall a h', settled (k a h') -> k' a h' = k a h') ->
  settled (bind m k h) -> bind m' k' h = bind m k h.
Proof.
  unfold settled, bind. intros Hm Hk Hs.
  destruct (m h) as [[a h1]| |] eqn:E.
  - rewrite Hm by discriminate. apply Hk. exact Hs.
  - rewrite Hm by discriminate. reflexivity.
  - congruence.
Qed.

Lemma mapM_settled {A B} (f g : A -> M B) (l : list A) :
  (forall a h, settled (f a h) -> g a h = f a h) ->
  forall h, settled (mapM f l h) -> mapM g l h = mapM f l h.
Proof.
  intro Hfg. induction l as [|a l IH]; intros h Hs; simpl; [reflexivity|].
  apply bind_settled; [apply Hfg| |exact Hs].
  intros b h1 Hs1. apply bind_settled; [apply IH|reflexivity|exact Hs1].
Qed.

Section MoreFuel.

Variable tc : TypeChecker.
Variables self self' : parser.
Hypothesis self_settled :
  forall type depth additional optional h,
    settled (self type depth additional optional h) ->
    self' type depth additional optional h = self type depth additional optional h.

Lemma parseProperty_settled depth additional property h :
  settled (Full.parseProperty self depth additional property h) ->
  Full.parseProperty self' depth additional property h
  = Full.parseProperty self depth additional property h.
Proof.
  unfold Full.parseProperty. apply bind_settled; [|reflexivity].
  destruct (declarations property) as [[|declaration rest]|].
  - reflexivity.
  - apply bind_settled; [apply self_settled | reflexivity].
  - destruct (prop_type property);
      [apply bind_settled; [apply self_settled | reflexivity] | reflexivity].
Qed.

Lemma dispatch_settled type depth additional optional h :
  settled (Full.dispatch tc self type depth additional optional h) ->
  Full.dispatch tc self' type depth additional optional h
  = Full.dispatch tc self type depth additional optional h.
Proof.
  unfold Full.dispatch.
  destruct (Full.primitive_like (flags (type_at tc type))); [reflexivity|].
  destruct (Full.forbidden_like (flags (type_at tc type))); [reflexivity|].
  destruct (flags (type_at tc type) =? TypeFlags.Object).
  - cbv zeta.
    destruct (Full.predefined_get (Full.symbol_name_of tc type)); [reflexivity|].
    destruct (isArrayType tc type).
    { unfold Full.parseArray.
      destruct (typeArguments (type_at tc type)) as [[|element rest]|];
        try reflexivity.
      apply bind_settled; [apply self_settled | reflexivity]. }
    destruct (getIndexInfoOfType tc type IndexNumber
              || getIndexInfoOfType tc type IndexString); [reflexivity|].
    apply bind_settled; [reflexivity|]. intros history h1.
    destruct (includes history (Full.symbol_name_of tc type)); [reflexivity|].
    apply bind_settled; [reflexivity|]. intros _ h2.
    unfold Full.parseInterface.
    apply bind_settled; [|reflexivity].
    apply mapM_settled. intros p hp. apply parseProperty_settled.
  - destruct (flags (type_at tc type) =? TypeFlags.Union).
    { unfold Full.parseUnion.
      apply bind_settled; [reflexivity|]. intros members h1.
      destruct (Full.filter_union tc true false members) as [kept uo].
      destruct kept as [|m [|m' kept]].
      - reflexivity.
      - destruct (Full.boolean_literal tc m); [reflexivity|].
        apply self_settled.
      - destruct (Full.all_literals tc (m :: m' :: kept)); [reflexivity|].
        apply bind_settled; [|reflexivity].
        apply mapM_settled. intros x hx.
        destruct (Full.boolean_literal tc x); [reflexivity|].
        apply self_settled. }
    destruct (flags (type_at tc type) =? TypeFlags.Intersection).
    { unfold Full.parseIntersection.
      apply bind_settled; [reflexivity|]. intros members h1.
      apply bind_settled; [|reflexivity].
      apply mapM_settled. intros x hx. apply self_settled. }
    reflexivity.
Qed.

End MoreFuel.

Lemma parseType_more_fuel tc fuel :
  forall extra type depth additional optional h,
    settled (Full.parseType fuel tc type depth additional optional h) ->
    Full.parseType (extra + fuel) tc type depth additional optional h
    = Full.parseType fuel tc type depth additional optional h.
Proof.
  induction fuel as [|fuel IH]; intros extra type depth additional optional h Hs.
  - exfalso. apply Hs. reflexivity.
  - rewrite Nat.add_succ_r, !parseType_S.
    apply dispatch_settled; [|exact Hs].
    intros; apply IH; assumption.
Qed.

(** C3. A type whose flags match none of the dispatch rules (not
    primitive-like, not null/undefined/never, not object, not union, not
    intersection, not enum-like) makes [parseType] throw "Unknown type": no
    schema node is produced for it, whatever the depth, the history and the
    flags of the call. *)
Theorem unrecognized_type_throws :
  forall fuel tc type depth additional optional h,
    Full.primitive_like (flags (type_at tc type)) = false ->
    Full.forbidden_like (flags (type_at tc type)) = false ->
    flags (type_at tc type) <> TypeFlags.Object ->
    flags (type_at tc type) <> TypeFlags.Union ->
    flags (type_at tc type) <> TypeFlags.Intersection ->
    has_flag (flags (type_at tc type)) TypeFlags.EnumLike = false ->
    Full.parseType (S fuel) tc type depth additional optional h
    = Throw "Unknown type".
Proof.
  intros fuel tc type depth additional optional h Hp Hf Ho Hu Hi He.
  rewrite parseType_S. unfold Full.dispatch.
  rewrite Hp, Hf, He.
  apply Z.eqb_neq in Ho, Hu, Hi. rewrite Ho, Hu, Hi.
  reflexivity.
Qed.

Lemma unrecognized_type_throws_witness :
  Full.parseType 1 Examples.tc 11 0 true false [] = Throw "Unknown type".
Proof.
  apply (@unrecognized_type_throws 0 Examples.tc 11%nat 0%nat true false []);
    try reflexivity; simpl; discriminate.
Defined.

(** C8. An object type whose symbol is named after one of the five markers
    yields the fixed node of that marker.  The type checker, the history and
    the remaining arguments are arbitrary: the answers to the array test, the
    index signatures, the cycle guard and the properties of the type play no
    part. *)
Theorem marker_types_fixed :
  forall fuel tc type depth additional optional h name kind,
    flags (type_at tc type) = TypeFlags.Object ->
    Full.symbol_name_of tc type = Some name ->
    In (name, kind)
       [("IDate", "date"); ("IEmail", "email"); ("IForbidden", "forbidden");
        ("IUrl", "url"); ("IUUID", "uuid")] ->
    Full.parseType (S fuel) tc type depth additional optional h
    = Ok (ObjectLiteral [("type", Literal (JString kind))], h).
Proof.
  intros fuel tc type depth additional optional h name kind Hf Hn Hin.
  rewrite parseType_S. unfold Full.dispatch.
  rewrite Hf, Hn. simpl in Hin.
  repeat (destruct Hin as [Hin|Hin]; [inversion Hin; subst; reflexivity|]).
  contradiction.
Qed.

Lemma marker_types_fixed_witness :
  Full.parseType 1 Examples.tc 5 3 true true [Some "IDate"]
  = Ok (ObjectLiteral [("type", Literal (JString "date"))], [Some "IDate"]).
Proof.
  apply (@marker_types_fixed 0 Examples.tc 5%nat 3%nat true true
           [Some "IDate"] "IDate" "date");
    [reflexivity | reflexivity | simpl; auto].
Defined.

(** ** Regular expressions: [test] decides the language *)

Lemma append_nil_inv (s1 s2 : string) :
  (s1 ++ s2)%string = "" -> s1 = "" /\ s2 = "".
Proof. destruct s1; simpl; [auto | discriminate]. Qed.

Lemma append_empty_r (s : string) : (s ++ "")%string = s.
Proof. induction s; simpl; congruence. Qed.

Lemma append_assoc (a b c : string) :
  ((a ++ b) ++ c)%string = (a ++ b ++ c)%string.
Proof. induction a; simpl; congruence. Qed.

Lemma nullable_lang r : RegExp.nullable r = true <-> RegExp.lang r "".
Proof.
  split.
  - induction r; simpl; intro H; try discriminate.
    + constructor.
    + apply andb_true_iff in H as [H1 H2].
      change "" with ("" ++ "")%string. constructor; auto.
    + apply orb_true_iff in H as [H|H];
        [apply RegExp.lang_alt_l | apply RegExp.lang_alt_r]; auto.
    + constructor.
  - intro H. remember "" as s eqn:Es.
    induction H; simpl; auto; try discriminate.
    + apply append_nil_inv in Es as [-> ->]. rewrite IHlang1, IHlang2; auto.
    + rewrite IHlang; auto.
    + rewrite IHlang; auto using orb_true_r.
Qed.

Lemma deriv_sound c r : forall s,
  RegExp.lang (RegExp.deriv c r) s -> RegExp.lang r (String c s).
Proof.
  induction r; simpl; intros s H.
  - inversion H.
  - inversion H.
  - destruct (p c) eqn:E; inversion H; subst. constructor; exact E.
  - destruct (RegExp.nullable r1) eqn:N.
    + inversion H; subst.
      * match goal with X : RegExp.lang (RegExp.Cat _ _) _ |- _ => inversion X; subst end.
        change (String c (s1 ++ s2)%string) with ((String c s1) ++ s2)%string.
        constructor; auto.
      * change (String c s) with ("" ++ String c s)%string.
        constructor; [apply nullable_lang; exact N | auto].
    + inversion H; subst.
      change (String c (s1 ++ s2)%string) with ((String c s1) ++ s2)%string.
      constructor; auto.
  - inversion H; subst;
      [apply RegExp.lang_alt_l | apply RegExp.lang_alt_r]; auto.
  - inversion H; subst.
    change (String c (s1 ++ s2)%string) with ((String c s1) ++ s2)%string.
    constructor; auto.
Qed.

Lemma deriv_complete c r s0 :
  RegExp.lang r s0 -> forall t, s0 = String c t -> RegExp.lang (RegExp.deriv c r) t.
Proof.
  induction 1; intros t Et; simpl.
  - discriminate.
  - inversion Et; subst. rewrite H. constructor.
  - destruct s1 as [|c1 s1'].
    + simpl in Et. subst s2.
      assert (N : RegExp.nullable r1 = true) by (apply nullable_lang; assumption).
      rewrite N. apply RegExp.lang_alt_r. apply IHlang2. reflexivity.
    + simpl in Et. inversion Et; subst.
      destruct (RegExp.nullable r1).
      * apply RegExp.lang_alt_l. constructor; auto.
      * constructor; auto.
  - apply RegExp.lang_alt_l; auto.
  - apply RegExp.lang_alt_r; auto.
  - discriminate.
  - destruct s1 as [|c1 s1'].
    + simpl in Et. apply IHlang2 in Et. simpl in Et. exact Et.
    + simpl in Et. inversion Et; subst. constructor; auto.
Qed.

Lemma test_lang r s : RegExp.test r s = true <-> RegExp.lang r s.
Proof.
  revert r. induction s as [|c s IH]; intro r; simpl.
  - apply nullable_lang.
  - rewrite IH. split.
    + apply deriv_sound.
    + intro H. eapply deriv_complete; [exact H | reflexivity].
Qed.

Lemma lang_cat_inv r1 r2 s :
  RegExp.lang (RegExp.Cat r1 r2) s ->
  exists s1 s2, s = (s1 ++ s2)%string /\ RegExp.lang r1 s1 /\ RegExp.lang r2 s2.
Proof. inversion 1; subst; eauto. Qed.

Lemma lang_alt_inv r1 r2 s :
  RegExp.lang (RegExp.Alt r1 r2) s -> RegExp.lang r1 s \/ RegExp.lang r2 s.
Proof. inversion 1; subst; auto. Qed.

Lemma lang_class_inv p s :
  RegExp.lang (RegExp.Class p) s -> exists c, s = String c "" /\ p c = true.
Proof. inversion 1; subst; eauto. Qed.

Lemma lang_eps_inv s : RegExp.lang RegExp.Eps s -> s = "".
Proof. inversion 1; reflexivity. Qed.

Lemma lang_opt r s :
  RegExp.lang (RegExp.Opt r) s <-> s = "" \/ RegExp.lang r s.
Proof.
  unfold RegExp.Opt. split.
  - intro H. apply lang_alt_inv in H as [H|H]; auto.
    apply lang_eps_inv in H; auto.
  - intros [->|H]; [apply RegExp.lang_alt_r; constructor | apply RegExp.lang_alt_l; auto].
Qed.

(** ** The number pattern of [parseJSDoc] *)

Lemma star_digits s :
  RegExp.lang (RegExp.Star (RegExp.Class RegExp.digit_class)) s <-> digits s.
Proof.
  split.
  - intro H. remember (RegExp.Star (RegExp.Class RegExp.digit_class)) as r eqn:Er.
    induction H; try discriminate.
    + constructor.
    + inversion Er; subst.
      apply lang_class_inv in H as (c & -> & Hc). simpl.
      constructor; auto.
  - induction 1 as [|c s Hc Hs IH].
    + constructor.
    + change (String c s) with (String c "" ++ s)%string.
      constructor; [constructor; exact Hc | exact IH].
Qed.

Lemma plus_digits s :
  RegExp.lang (RegExp.Plus (RegExp.Class RegExp.digit_class)) s
  <-> digits s /\ s <> "".
Proof.
  unfold RegExp.Plus. split.
  - intro H. apply lang_cat_inv in H as (s1 & s2 & -> & H1 & H2).
    apply lang_class_inv in H1 as (c & -> & Hc). apply star_digits in H2.
    simpl. split; [constructor; auto | discriminate].
  - intros [H Hne]. destruct H as [|c s Hc Hs]; [congruence|].
    change (String c s) with (String c "" ++ s)%string.
    constructor; [constructor; exact Hc | apply star_digits; exact Hs].
Qed.

Lemma sign_lang s :
  RegExp.lang (RegExp.Opt (RegExp.Class RegExp.sign_class)) s <-> sign s.
Proof.
  rewrite lang_opt. unfold sign. split.
  - intros [->|H]; auto.
    apply lang_class_inv in H as (c & -> & Hc). unfold RegExp.sign_class in Hc.
    apply orb_true_iff in Hc as [Hc|Hc]; apply Ascii.eqb_eq in Hc; subst; auto.
  - intros [->|[->| ->]]; auto; right; constructor; reflexivity.
Qed.

Lemma dot_lang s :
  RegExp.lang (RegExp.Class RegExp.dot_class) s <-> s = ".".
Proof.
  split.
  - intro H. apply lang_class_inv in H as (c & -> & Hc).
    apply Ascii.eqb_eq in Hc. subst. reflexivity.
  - intros ->. constructor. reflexivity.
Qed.

Lemma number_pattern_spec s :
  RegExp.lang number_pattern s <-> signed_decimal s.
Proof.
  unfold number_pattern. split.
  - intro H.
    apply lang_cat_inv in H as (sg & body & -> & Hsg & Hbody).
    apply sign_lang in Hsg.
    apply lang_alt_inv in Hbody as [Hb|Hb].
    + apply lang_cat_inv in Hb as (ds & fr & -> & Hds & Hfr).
      apply plus_digits in Hds as [Hds Hne].
      apply lang_opt in Hfr as [->|Hfr].
      * rewrite append_empty_r. apply sd_integer; auto.
      * apply lang_cat_inv in Hfr as (d & fs & -> & Hd & Hfs).
        apply dot_lang in Hd. subst d. apply star_digits in Hfs.
        apply sd_fraction; auto.
    + apply lang_cat_inv in Hb as (d & fs & -> & Hd & Hfs).
      apply dot_lang in Hd. subst d.
      apply plus_digits in Hfs as [Hfs Hne].
      apply sd_point; auto.
  - intro H. destruct H as [sg ds Hsg Hds Hne | sg ds fs Hsg Hds Hne Hfs | sg fs Hsg Hfs Hne].
    + constructor; [apply sign_lang; exact Hsg|].
      apply RegExp.lang_alt_l.
      rewrite <- (append_empty_r ds).
      constructor; [apply plus_digits; auto | apply lang_opt; auto].
    + constructor; [apply sign_lang; exact Hsg|].
      apply RegExp.lang_alt_l.
      constructor; [apply plus_digits; auto|].
      apply lang_opt. right.
      constructor; [apply dot_lang; reflexivity | apply star_digits; exact Hfs].
    + constructor; [apply sign_lang; exact Hsg|].
      apply RegExp.lang_alt_r.
      constructor; [apply dot_lang; reflexivity | apply plus_digits; auto].
Qed.

Lemma number_test_spec s :
  RegExp.test number_pattern s = true <-> signed_decimal s.
Proof. rewrite test_lang. apply number_pattern_spec. Qed.

Lemma parseJSDoc_value_spec doc text :
  tag_text doc = Some text -> tag_value text (Full.parseJSDoc_value doc).
Proof.
  intro Ht. unfold Full.parseJSDoc_value. rewrite Ht.
  cbn [strict_eq_string].
  destruct (String.eqb text "true") eqn:E1.
  - apply String.eqb_eq in E1. subst text. cbn. constructor.
  - cbn [strict_eq_string]. destruct (String.eqb text "false") eqn:E2.
    + apply String.eqb_eq in E2. subst text. cbn. constructor.
    + cbn [to_string]. apply String.eqb_neq in E1, E2.
      destruct (RegExp.test number_pattern text) eqn:E3.
      * apply tag_number. apply number_test_spec. exact E3.
      * apply tag_string; auto.
        intro Hsd. apply number_test_spec in Hsd. congruence.
Qed.

Lemma has_text_inv doc :
  has_text doc = true -> exists text, tag_text doc = Some text /\ text <> "".
Proof.
  unfold has_text. destruct (tag_text doc) as [t|]; [|discriminate].
  intro H. exists t. split; [reflexivity|].
  apply negb_true_iff in H. apply String.eqb_neq in H. exact H.
Qed.

(** C9. [parseJSDoc] is a total function: every tag that has text yields one
    property named after the tag, and its value follows the coercion rule
    ("true" and "false" become booleans, a signed decimal or integer becomes
    a number, any other text stays a string); tags without text yield
    nothing. *)
Theorem doc_tag_coercion :
  forall docs,
    Forall2
      (fun doc prop =>
         exists text v,
           tag_text doc = Some text /\ text <> "" /\
           prop = (tag_name doc, Literal v) /\ tag_value text v)
      (filter has_text docs) (Full.parseJSDoc docs).
Proof.
  intro docs. unfold Full.parseJSDoc.
  assert (Hall : Forall (fun doc => has_text doc = true) (filter has_text docs)).
  { apply Forall_forall. intros doc Hin. apply filter_In in Hin. tauto. }
  induction Hall as [|doc l Hdoc _ IH]; simpl; constructor; [|exact IH].
  destruct (has_text_inv doc Hdoc) as (text & Ht & Hne).
  exists text, (Full.parseJSDoc_value doc).
  repeat split; auto. apply parseJSDoc_value_spec. exact Ht.
Qed.

Lemma tag_value_functional text v1 v2 :
  tag_value text v1 -> tag_value text v2 -> v1 = v2.
Proof.
  assert (Ht : ~ signed_decimal "true")
    by (intro H; apply number_test_spec in H; discriminate).
  assert (Hf : ~ signed_decimal "false")
    by (intro H; apply number_test_spec in H; discriminate).
  intros H1 H2; inversion H1; subst; inversion H2; subst;
    try reflexivity; try contradiction; congruence.
Qed.

Example Number_samples :
  Number "-1.5" = (-3 # 2)%Q /\ Number "+007" = (7 # 1)%Q
  /\ Number ".25" = (1 # 4)%Q /\ Number "10." = (10 # 1)%Q
  /\ RegExp.test number_pattern "." = false
  /\ RegExp.test number_pattern "1e3" = false
  /\ RegExp.test number_pattern "-.5" = true
  /\ RegExp.test number_pattern "" = false.
Proof. repeat split; reflexivity. Qed.

Example parseJSDoc_sample :
  Full.parseJSDoc
    [ Examples.tag "min" "-1.5"; Examples.tag "strict" "true";
      Examples.tag "format" "1e3"; {| tag_name := "deprecated"; tag_text := None |};
      Examples.tag "max" "10."; Examples.tag "empty" "" ]
  = [ ("min", Literal (JNumber (-3 # 2))); ("strict", Literal (JBool true));
      ("format", Literal (JString "1e3")); ("max", Literal (JNumber (10 # 1))) ].
Proof. reflexivity. Qed.

(** ** Unions *)

Lemma flags_union_dispatch tc self type depth additional optional h :
  flags (type_at tc type) = TypeFlags.Union ->
  Full.dispatch tc self type depth additional optional h
  = Full.parseUnion tc self type (S depth) additional optional h.
Proof. intro Hf. unfold Full.dispatch. rewrite Hf. reflexivity. Qed.

Lemma filter_union_spec tc l :
  forall firstBoolean unionOptional,
    Full.filter_union tc firstBoolean unionOptional l
    = ((if firstBoolean
        then first_boolean_only tc
               (filter (fun m => negb (is_undefined tc m)) l)
        else filter (fun x => negb (Full.boolean_literal tc x))
               (filter (fun m => negb (is_undefined tc m)) l)),
       unionOptional || existsb (is_undefined tc) l).
Proof.
  induction l as [|m l IH]; intros fb uo.
  - simpl. destruct fb; rewrite orb_false_r; reflexivity.
  - cbn [Full.filter_union filter existsb].
    destruct (Full.boolean_literal tc m) eqn:Eb.
    + assert (Hu : is_undefined tc m = false)
        by (unfold is_undefined; rewrite Eb; reflexivity).
      assert (Eb' := Eb). unfold Full.boolean_literal in Eb'.
      rewrite Eb', Hu. cbn [negb orb].
      destruct fb; rewrite IH; cbn [first_boolean_only filter];
        rewrite Eb; reflexivity.
    + assert (Eb' := Eb). unfold Full.boolean_literal in Eb'. rewrite Eb'.
      destruct (String.eqb (typeToString tc m) "undefined") eqn:Eu.
      * assert (Hu : is_undefined tc m = true)
          by (unfold is_undefined; rewrite Eb, Eu; reflexivity).
        rewrite Hu. cbn [negb orb]. rewrite IH, orb_true_r. reflexivity.
      * assert (Hu : is_undefined tc m = false)
          by (unfold is_undefined; rewrite Eb, Eu; reflexivity).
        rewrite Hu. cbn [negb orb]. rewrite IH.
        destruct fb; cbn [first_boolean_only filter]; rewrite Eb; reflexivity.
Qed.

Lemma first_boolean_only_In tc l m :
  In m (first_boolean_only tc l) -> In m l.
Proof.
  induction l as [|x l IH]; simpl; [tauto|].
  destruct (Full.boolean_literal tc x); simpl; intros [H|H]; auto.
  apply filter_In in H. tauto.
Qed.

Example string_or_undefined :
  Full.visitNode 2 Examples.tc 13 true
  = Ok (ObjectLiteral [("optional", Literal (JBool true));
                       ("type", Literal (JString "string"))], []).
Proof. reflexivity. Qed.

Example boolean_or_undefined :
  Full.visitNode 2 Examples.tc 16 true
  = Ok (ObjectLiteral [("type", Literal (JString "boolean"));
                       ("optional", Literal (JBool true))], []).
Proof. reflexivity. Qed.

(** ** The cycle guard *)

Lemma string_type_outcome fuel depth additional optional h :
  Full.parseType fuel Examples.tc 1 depth additional optional h = Diverge
  \/ exists node,
       Full.parseType fuel Examples.tc 1 depth additional optional h = Ok (node, h).
Proof.
  destruct fuel as [|fuel]; [left; reflexivity|].
  right. eexists. reflexivity.
Qed.

Lemma bind_diverge {A B} (m : M A) (k : A -> M B) h :
  m h = Diverge -> bind m k h = Diverge.
Proof. unfold bind; intros ->; reflexivity. Qed.

Lemma bind_throw {A B} (m : M A) (k : A -> M B) h e :
  m h = Throw e -> bind m k h = Throw e.
Proof. unfold bind; intros ->; reflexivity. Qed.

(** The callback of [parseInterface] on a declared property: one recursive
    call, then one [history.pop()]. *)
Lemma parseProperty_declared self depth additional property declaration rest h :
  declarations property = Some (declaration :: rest) ->
  Full.parseProperty self depth additional property h
  = match self (declared_type property) depth additional
               (questionToken declaration) h with
    | Ok (parsed, h') =>
        Ok ((prop_name property,
             Full.decorate (questionToken declaration) additional
                           (prop_docs property) parsed),
            removelast h')
    | Throw e => Throw e
    | Diverge => Diverge
    end.
Proof.
  intro Hd. unfold Full.parseProperty. rewrite Hd.
  unfold getTypeOfSymbolAtLocation, bind, ret, pop, createPropertyAssignment.
  destruct (self (declared_type property) depth additional
                 (questionToken declaration) h) as [[parsed h']| |]; reflexivity.
Qed.

Lemma Node_diverges fuel :
  forall depth additional optional,
    Full.parseType fuel Examples.tc 0 depth additional optional [] = Diverge.
Proof.
  induction fuel as [|fuel IH]; intros depth additional optional; [reflexivity|].
  rewrite parseType_S. unfold Full.dispatch. cbn -[Full.parseType].
  unfold Full.parseInterface. cbn [filter Examples.tc getPropertiesOfType Examples.props Full.eligible Examples.field declarations].
  apply bind_diverge. cbn [mapM].
  destruct (string_type_outcome fuel (S depth) additional false [Some "Node"])
    as [Hd|[node Hn]].
  - apply bind_diverge.
    rewrite (@parseProperty_declared _ _ _ _ {| questionToken := false |} [])
      by reflexivity.
    cbn [declared_type Examples.field questionToken]. rewrite Hd. reflexivity.
  - erewrite bind_ok;
      [| rewrite (@parseProperty_declared _ _ _ _ {| questionToken := false |} [])
           by reflexivity;
         cbn [declared_type Examples.field questionToken]; rewrite Hn; reflexivity].
    cbn [removelast]. do 2 apply bind_diverge.
    rewrite (@parseProperty_declared _ _ _ _ {| questionToken := true |} [])
      by reflexivity.
    cbn [declared_type Examples.field questionToken]. rewrite IH. reflexivity.
Qed.

Lemma Node_strict_diverges fuel :
  forall depth additional optional,
    Full.parseType fuel Examples.tc 18 depth additional optional [] = Diverge.
Proof.
  induction fuel as [fuel IH] using lt_wf_ind.
  intros depth additional optional.
  destruct fuel as [|fuel]; [reflexivity|].
  rewrite parseType_S. unfold Full.dispatch. cbn -[Full.parseType].
  unfold Full.parseInterface.
  cbn [filter Examples.tc getPropertiesOfType Examples.props Full.eligible
       Examples.field declarations].
  apply bind_diverge. cbn [mapM].
  destruct (string_type_outcome fuel (S depth) additional false [Some "Node"])
    as [Hd|[node Hn]].
  - apply bind_diverge.
    rewrite (@parseProperty_declared _ _ _ _ {| questionToken := false |} [])
      by reflexivity.
    cbn [declared_type Examples.field questionToken]. rewrite Hd. reflexivity.
  - erewrite bind_ok;
      [| rewrite (@parseProperty_declared _ _ _ _ {| questionToken := false |} [])
           by reflexivity;
         cbn [declared_type Examples.field questionToken]; rewrite Hn; reflexivity].
    cbn [removelast]. do 2 apply bind_diverge.
    rewrite (@parseProperty_declared _ _ _ _ {| questionToken := true |} [])
      by reflexivity.
    cbn [declared_type Examples.field questionToken].
    destruct fuel as [|fuel']; [reflexivity|].
    rewrite parseType_S. unfold Full.dispatch. cbn -[Full.parseType].
    rewrite IH by lia. reflexivity.
Qed.


(** With the self-reference declared first the guard is still armed when the
    reference is met, and the decomposition ends. *)
Example Rev_terminates :
  Full.visitNode 2 Examples.tc 22 true
  = Ok (ObjectLiteral
          [("next", ObjectLiteral [("type", Literal (JString "any"));
                                   ("optional", Literal (JBool true))]);
           ("value", ObjectLiteral [("type", Literal (JString "string"))])],
        []).
Proof. reflexivity. Qed.

Lemma Node_alias_diverges fuel :
  forall depth additional optional,
    Full.parseType fuel Examples.tc 23 depth additional optional [] = Diverge.
Proof.
  induction fuel as [|fuel IH]; intros depth additional optional; [reflexivity|].
  rewrite parseType_S. unfold Full.dispatch. cbn -[Full.parseType].
  unfold Full.parseInterface.
  cbn [filter Examples.tc getPropertiesOfType Examples.props Full.eligible
       Examples.field declarations].
  apply bind_diverge. cbn [mapM].
  destruct (string_type_outcome fuel (S depth) additional false [])
    as [Hd|[node Hn]].
  - apply bind_diverge.
    rewrite (@parseProperty_declared _ _ _ _ {| questionToken := false |} [])
      by reflexivity.
    cbn [declared_type Examples.field questionToken]. rewrite Hd. reflexivity.
  - erewrite bind_ok;
      [| rewrite (@parseProperty_declared _ _ _ _ {| questionToken := false |} [])
           by reflexivity;
         cbn [declared_type Examples.field questionToken]; rewrite Hn; reflexivity].
    cbn [removelast]. do 2 apply bind_diverge.
    rewrite (@parseProperty_declared _ _ _ _ {| questionToken := true |} [])
      by reflexivity.
    cbn [declared_type Examples.field questionToken]. rewrite IH. reflexivity.
Qed.

(** C1 (fails on the code). For [Node = {value: string, next?: Node}] the
    decomposition does not end, whatever bound is put on the depth of the
    recursion.  Declared as an interface, the [history.pop()] done after the
    property [value] removes the name [Node] again, so the guard does not see
    it when [next] is reached; this holds both when the type of [next] is
    [Node] and, under strictNullChecks, when it is [Node | undefined].
    Declared as a type alias, the symbol of the type is the anonymous
    [__type], which is never pushed. *)
Theorem self_reference_diverges :
  forall fuel additional,
    Full.visitNode fuel Examples.tc 0 additional = Diverge
    /\ Full.visitNode fuel Examples.tc 18 additional = Diverge
    /\ Full.visitNode fuel Examples.tc 23 additional = Diverge.
Proof.
  intros fuel additional. unfold Full.visitNode. split; [|split].
  - apply Node_diverges.
  - apply Node_strict_diverges.
  - apply Node_alias_diverges.
Qed.

(** C2 (fails on the code). [parseInterface] pops the history once after
    every property and once more at its end, not once per type.  Decomposing
    [A = {x: string, y?: number}] inside [B] (history [B]) pushes [A] once and
    pops three times, so the name of [B], which is still being decomposed, is
    gone afterwards; and in [P = {a: string, b: Q}], [Q = {c: P}] the name
    [P] is popped before [b] is entered, so [P] is decomposed a second time
    under [c] instead of being cut off by the guard.  Both hold for every
    bound on the recursion that lets the decomposition finish. *)
Theorem history_popped_per_property :
  forall extra,
  Full.parseType (extra + 2) Examples.tc 7 1 false false [Some "B"]
  = Ok (ObjectLiteral
          [("type", Literal (JString "object"));
           ("props",
            ObjectLiteral
              [("x", ObjectLiteral [("type", Literal (JString "string"))]);
               ("y", ObjectLiteral [("optional", Literal (JBool true));
                                    ("type", Literal (JString "number"));
                                    ("optional", Literal (JBool true))])])],
        [])
  /\ Full.visitNode (extra + 6) Examples.tc 20 false
     = Ok (ObjectLiteral
             [("a", ObjectLiteral [("type", Literal (JString "string"))]);
              ("b",
               ObjectLiteral
                 [("type", Literal (JString "object"));
                  ("props",
                   ObjectLiteral
                     [("c",
                       ObjectLiteral
                         [("type", Literal (JString "object"));
                          ("props",
                           ObjectLiteral
                             [("a", ObjectLiteral
                                      [("type", Literal (JString "string"))]);
                              ("b", ObjectLiteral
                                      [("type", Literal (JString "any"))])])])])])],
           []).
Proof.
  intro extra. unfold Full.visitNode.
  split; (rewrite parseType_more_fuel;
          [reflexivity | unfold settled; vm_compute; discriminate]).
Qed.

(** ** The two variants *)

Lemma variants_differ_on_null :
  literal_of (Full.visitNode 1 Examples.tc 12 true)
  <> Simplified.visitNode 1 Examples.tc 12.
Proof. cbv. discriminate. Qed.

Example variants_differ_on_void :
  literal_of (Full.visitNode 1 Examples.tc 11 true) = Throw "Unknown type"
  /\ Simplified.visitNode 1 Examples.tc 11 = Ok (ObjectLiteral []).
Proof. split; reflexivity. Qed.

Example variants_differ_on_tags :
  exists full simplified,
    literal_of (Full.visitNode 2 Examples.tc 7 true) = Ok full
    /\ Simplified.visitNode 2 Examples.tc 7 = Ok simplified
    /\ full <> simplified.
Proof. do 2 eexists. split; [vm_compute; reflexivity|]. split; [vm_compute; reflexivity|]. discriminate. Qed.

Example variants_differ_on_intersection :
  Simplified.visitNode 3 Examples.tc 9
  = Ok (ObjectLiteral
          [("x", ObjectLiteral [("type", Literal (JString "string"));
                                ("min", Literal (JString "-1.5"))]);
           ("y", ObjectLiteral [("type", Literal (JString "number"));
                                ("optional", Literal (JBool true))]);
           ("y", ObjectLiteral [("type", Literal (JString "string"))]);
           ("z", ObjectLiteral [("type", Literal (JString "string"))])]).
Proof. reflexivity. Qed.

(** C7 (amended). The two variants do not agree on every type, but they do
    on the types both treat alike: a primitive-like type that is not a
    literal type, and an enum-like type that reaches the enum rule, given as
    the type argument of the call, yield the same literal (or the same
    exception) in both. *)
Theorem variants_agree_on_primitives_and_enums :
  forall fuel tc type additional,
    (Full.primitive_like (flags (type_at tc type)) = true
     /\ has_flag (flags (type_at tc type)) TypeFlags.Literal = false)
    \/ (Full.primitive_like (flags (type_at tc type)) = false
        /\ Full.forbidden_like (flags (type_at tc type)) = false
        /\ flags (type_at tc type) <> TypeFlags.Object
        /\ flags (type_at tc type) <> TypeFlags.Union
        /\ flags (type_at tc type) <> TypeFlags.Intersection
        /\ has_flag (flags (type_at tc type)) TypeFlags.EnumLike = true) ->
    literal_of (Full.visitNode (S fuel) tc type additional)
    = Simplified.visitNode (S fuel) tc type.
Proof.
  intros fuel tc type additional H.
  unfold Full.visitNode, Simplified.visitNode. rewrite parseType_S.
  cbn [Simplified.parseType]. unfold Full.dispatch, Simplified.dispatch.
  destruct H as [[Hp Hl] | (Hp & Hf & Ho & Hu & Hi & He)].
  - rewrite Hp. unfold Full.primitive_like in Hp. rewrite Hp.
    unfold Full.parsePrimitive, Simplified.parsePrimitive. rewrite Hl.
    reflexivity.
  - rewrite Hp, Hf, He. unfold Full.primitive_like in Hp. rewrite Hp.
    unfold Full.forbidden_like in Hf.
    apply orb_false_iff in Hf as [Hf _]. rewrite Hf.
    apply Z.eqb_neq in Ho, Hu, Hi. rewrite Ho, Hu, Hi. cbn [andb].
    unfold Full.parseEnum, Simplified.parseEnum.
    destruct (types (type_at tc type)) as [ms|]; reflexivity.
Qed.

Lemma variants_agree_on_primitives_and_enums_witness :
  literal_of (Full.visitNode 1 Examples.tc 1 true)
  = Simplified.visitNode 1 Examples.tc 1.
Proof.
  apply (@variants_agree_on_primitives_and_enums 0 Examples.tc 1%nat true).
  left. split; reflexivity.
Defined.

(** ** Doc tags and the [additional] flag *)

Section WithoutAdditional.

Variable tc : TypeChecker.
Variables self self' : parser.
Hypothesis self_agree :
  forall type depth optional h,
    self type depth false optional h = self' type depth false optional h.

Lemma symbol_name_of_strip type :
  Full.symbol_name_of (strip_docs tc) type = Full.symbol_name_of tc type.
Proof.
  unfold Full.symbol_name_of. cbn. destruct (symbol (type_at tc type)); reflexivity.
Qed.

Lemma parseArray_strip type depth optional h :
  Full.parseArray (strip_docs tc) self' type depth optional h
  = Full.parseArray tc self type depth optional h.
Proof.
  unfold Full.parseArray. cbn [strip_docs type_at strip_type typeArguments].
  destruct (typeArguments (type_at tc type)) as [[|element rest]|]; try reflexivity.
  apply bind_ext; [symmetry; apply self_agree | reflexivity].
Qed.

Lemma parseUnion_strip type depth optional h :
  Full.parseUnion (strip_docs tc) self' type depth false optional h
  = Full.parseUnion tc self type depth false optional h.
Proof.
  unfold Full.parseUnion. cbn [strip_docs type_at strip_type types].
  apply bind_ext; [reflexivity|]. intros members h1.
  change (Full.filter_union (strip_docs tc)) with (Full.filter_union tc).
  destruct (Full.filter_union tc true false members) as [kept uo].
  change (Full.boolean_literal (strip_docs tc)) with (Full.boolean_literal tc).
  change (Full.all_literals (strip_docs tc)) with (Full.all_literals tc).
  destruct kept as [|m [|m' kept]].
  - reflexivity.
  - destruct (Full.boolean_literal tc m); [reflexivity|].
    symmetry; apply self_agree.
  - destruct (Full.all_literals tc (m :: m' :: kept)); [reflexivity|].
    apply bind_ext; [|reflexivity].
    apply mapM_ext. intros x hx _.
    destruct (Full.boolean_literal tc x); [reflexivity|].
    symmetry; apply self_agree.
Qed.

Lemma parseIntersection_strip type depth h :
  Full.parseIntersection (strip_docs tc) self' type depth false h
  = Full.parseIntersection tc self type depth false h.
Proof.
  unfold Full.parseIntersection. cbn [strip_docs type_at strip_type types].
  apply bind_ext; [reflexivity|]. intros members h1.
  apply bind_ext; [|reflexivity].
  apply mapM_ext. intros x hx _. symmetry; apply self_agree.
Qed.

Lemma parseProperty_strip depth property h :
  Full.parseProperty self' depth false (strip_property property) h
  = Full.parseProperty self depth false property h.
Proof.
  unfold Full.parseProperty.
  cbn [strip_property declarations prop_type prop_docs prop_name].
  apply bind_ext; [|intros [parsed optional] h1; reflexivity].
  destruct (declarations property) as [[|declaration rest]|].
  - reflexivity.
  - apply bind_ext; [symmetry; apply self_agree | reflexivity].
  - destruct (prop_type property);
      [apply bind_ext; [symmetry; apply self_agree | reflexivity] | reflexivity].
Qed.

Lemma filter_eligible_strip l :
  filter Full.eligible (map strip_property l)
  = map strip_property (filter Full.eligible l).
Proof.
  induction l as [|p l IH]; [reflexivity|]. simpl.
  change (Full.eligible (strip_property p)) with (Full.eligible p).
  destruct (Full.eligible p); simpl; congruence.
Qed.

Lemma parseInterface_strip type depth optional h :
  Full.parseInterface (strip_docs tc) self' type depth false optional h
  = Full.parseInterface tc self type depth false optional h.
Proof.
  unfold Full.parseInterface. cbn [strip_docs getPropertiesOfType].
  rewrite filter_eligible_strip.
  apply bind_ext; [|reflexivity].
  rewrite mapM_map. apply mapM_ext. intros p hp _. apply parseProperty_strip.
Qed.

Lemma dispatch_strip type depth optional h :
  Full.dispatch (strip_docs tc) self' type depth false optional h
  = Full.dispatch tc self type depth false optional h.
Proof.
  unfold Full.dispatch. rewrite symbol_name_of_strip.
  cbn [strip_docs type_at strip_type flags isArrayType getIndexInfoOfType].
  destruct (Full.primitive_like (flags (type_at tc type))); [reflexivity|].
  destruct (Full.forbidden_like (flags (type_at tc type))); [reflexivity|].
  destruct (flags (type_at tc type) =? TypeFlags.Object).
  - cbv zeta.
    destruct (Full.predefined_get (Full.symbol_name_of tc type)); [reflexivity|].
    destruct (isArrayType tc type); [apply parseArray_strip|].
    destruct (getIndexInfoOfType tc type IndexNumber
              || getIndexInfoOfType tc type IndexString); [reflexivity|].
    apply bind_ext; [reflexivity|]. intros history h1.
    destruct (includes history (Full.symbol_name_of tc type)); [reflexivity|].
    apply bind_ext; [reflexivity|]. intros _ h2. apply parseInterface_strip.
  - destruct (flags (type_at tc type) =? TypeFlags.Union);
      [apply parseUnion_strip|].
    destruct (flags (type_at tc type) =? TypeFlags.Intersection);
      [apply parseIntersection_strip|].
    reflexivity.
Qed.

End WithoutAdditional.

(** Without the [additional] flag the doc tags play no part. *)
Lemma no_additional_ignores_docs fuel tc :
  forall type depth optional h,
    Full.parseType fuel tc type depth false optional h
    = Full.parseType fuel (strip_docs tc) type depth false optional h.
Proof.
  induction fuel as [|fuel IH]; intros type depth optional h; [reflexivity|].
  rewrite !parseType_S. symmetry. apply dispatch_strip.
  intros; apply IH.
Qed.

Lemma flags_array_dispatch tc self type depth additional optional h :
  flags (type_at tc type) = TypeFlags.Object ->
  Full.predefined_get (Full.symbol_name_of tc type) = None ->
  isArrayType tc type = true ->
  Full.dispatch tc self type depth additional optional h
  = Full.parseArray tc self type (S depth) optional h.
Proof.
  intros Hf Hp Ha. unfold Full.dispatch. rewrite Hf, Hp, Ha. reflexivity.
Qed.

(** C10. The decomposition of an array type with an element type is the
    array node whose [items] is the decomposition of the element type made
    without the [additional] flag; that decomposition is the same as one
    against a type checker that reports no doc tags at all, so no key of the
    items subtree comes from a doc tag, whatever [additional] is for the
    enclosing call. *)
Theorem array_items_without_docs :
  forall fuel tc type element rest depth additional optional h,
    flags (type_at tc type) = TypeFlags.Object ->
    Full.predefined_get (Full.symbol_name_of tc type) = None ->
    isArrayType tc type = true ->
    typeArguments (type_at tc type) = Some (element :: rest) ->
    Full.parseType (S fuel) tc type depth additional optional h
    = (items <- Full.parseType fuel (strip_docs tc) element (S depth) false false ;;
       ret (ObjectLiteral
              (Full.optional_prop optional ++
               [("type", Literal (JString "array")); ("items", items)]))) h.
Proof.
  intros fuel tc type element rest depth additional optional h Hf Hp Ha Ht.
  rewrite parseType_S, flags_array_dispatch by assumption.
  unfold Full.parseArray. rewrite Ht.
  apply bind_ext; [apply no_additional_ignores_docs | reflexivity].
Qed.

Lemma array_items_without_docs_witness :
  Full.parseType 4 Examples.tc 6 0 true false []
  = (items <- Full.parseType 3 (strip_docs Examples.tc) 7 1 false false ;;
     ret (ObjectLiteral
            (Full.optional_prop false ++
             [("type", Literal (JString "array")); ("items", items)]))) [].
Proof.
  apply (@array_items_without_docs 3 Examples.tc 6%nat 7%nat [] 0%nat true false []);
    reflexivity.
Defined.

Example array_of_A :
  Full.visitNode 4 Examples.tc 6 true
  = Ok (ObjectLiteral
          [("type", Literal (JString "array"));
           ("items",
            ObjectLiteral
              [("type", Literal (JString "object"));
               ("props",
                ObjectLiteral
                  [("x", ObjectLiteral [("type", Literal (JString "string"))]);
                   ("y", ObjectLiteral [("optional", Literal (JBool true));
                                        ("type", Literal (JString "number"));
                                        ("optional", Literal (JBool true))])])])],
        []).
Proof. reflexivity. Qed.

(** ** Intersections: merging the members' properties *)

Lemma assoc_app {A} name (l1 l2 : list (string * A)) :
  assoc name (l1 ++ l2)
  = match assoc name l1 with Some e => Some e | None => assoc name l2 end.
Proof.
  induction l1 as [|[k v] l1 IH]; simpl; [reflexivity|].
  destruct (String.eqb name k); auto.
Qed.

Lemma existsb_assoc {A} name (c : list (string * A)) :
  existsb (String.eqb name) (map fst c)
  = match assoc name c with Some _ => true | None => false end.
Proof.
  induction c as [|[k v] c IH]; simpl; [reflexivity|].
  destruct (String.eqb name k); simpl; auto.
Qed.

Lemma existsb_false_not_In name (u : list string) :
  existsb (String.eqb name) u = false -> ~ In name u.
Proof.
  intros H Hin. assert (existsb (String.eqb name) u = true); [|congruence].
  apply existsb_exists. exists name. split; [exact Hin | apply String.eqb_refl].
Qed.

Lemma add_unique_app props1 props2 unique combined :
  Full.add_unique (props1 ++ props2) unique combined
  = let '(u, c) := Full.add_unique props1 unique combined in
    Full.add_unique props2 u c.
Proof.
  revert unique combined.
  induction props1 as [|p props1 IH]; intros unique combined; simpl; [reflexivity|].
  destruct (existsb (String.eqb (fst p)) unique); apply IH.
Qed.

(** The two accumulators stay in step, names stay distinct, and the first
    entry seen for a name is the one kept. *)
Lemma add_unique_spec props :
  forall combined,
    NoDup (map fst combined) ->
    exists combined',
      Full.add_unique props (map fst combined) combined
      = (map fst combined', combined')
      /\ NoDup (map fst combined')
      /\ forall name,
           assoc name combined'
           = match assoc name combined with
             | Some e => Some e
             | None => assoc name props
             end.
Proof.
  induction props as [|[k v] props IH]; intros combined Hnd; simpl.
  - exists combined. repeat split; auto.
    intro name. destruct (assoc name combined); reflexivity.
  - destruct (existsb (String.eqb k) (map fst combined)) eqn:E.
    + destruct (IH combined Hnd) as (c' & Hc & Hnd' & Hl).
      exists c'. repeat split; auto.
      intro name. rewrite Hl. destruct (assoc name combined) eqn:En; [reflexivity|].
      destruct (String.eqb name k) eqn:Ek; [|reflexivity].
      apply String.eqb_eq in Ek. subst k.
      rewrite existsb_assoc, En in E. discriminate.
    + assert (Hnd1 : NoDup (map fst (combined ++ [(k, v)]))).
      { rewrite map_app. simpl. apply NoDup_app; auto.
        - constructor; [intros []|constructor].
        - intros x Hx [Heq|[]]. subst x.
          apply existsb_false_not_In in E. contradiction. }
      destruct (IH (combined ++ [(k, v)]) Hnd1) as (c' & Hc & Hnd' & Hl).
      exists c'. rewrite map_app in Hc. simpl in Hc. repeat split; auto.
      intro name. rewrite Hl, assoc_app. simpl.
      destruct (assoc name combined); [reflexivity|].
      destruct (String.eqb name k); reflexivity.
Qed.

Lemma collect_props_entries properties :
  (forall v, In ("props", v) properties -> exists props, v = ObjectLiteral props) ->
  forall unique combined,
    Full.collect_props properties unique combined
    = Some (Full.add_unique (props_entries properties) unique combined).
Proof.
  induction properties as [|[k v] properties IH]; intros Hwf unique combined; simpl.
  - reflexivity.
  - destruct (String.eqb k "props") eqn:Ek.
    + apply String.eqb_eq in Ek. subst k.
      destruct (Hwf v (or_introl eq_refl)) as [props ->]. simpl.
      rewrite add_unique_app.
      destruct (Full.add_unique props unique combined) as [u c].
      apply IH. intros v' Hv'. apply Hwf. right; exact Hv'.
    + apply IH. intros v' Hv'. apply Hwf. right; exact Hv'.
Qed.

Lemma combine_members_entries nodes :
  Forall mergeable nodes ->
  forall unique combined,
    Full.combine_members nodes unique combined
    = Some (snd (Full.add_unique (concat (map contributed nodes)) unique combined)).
Proof.
  induction 1 as [|node nodes (properties & -> & Hwf) _ IH];
    intros unique combined; simpl.
  - reflexivity.
  - rewrite collect_props_entries by exact Hwf.
    unfold contributed. simpl. rewrite add_unique_app.
    destruct (Full.add_unique (props_entries properties) unique combined) as [u c].
    apply IH.
Qed.

Lemma merged_lookup_from name nodes : forall found,
  fold_left (fun found node =>
               match assoc name (contributed node) with
               | Some e => Some e
               | None => found
               end) nodes found
  = match merged_lookup name nodes with Some e => Some e | None => found end.
Proof.
  unfold merged_lookup.
  induction nodes as [|node nodes IH]; intro found; simpl; [reflexivity|].
  rewrite IH. rewrite (IH (match assoc name (contributed node) with
                           | Some e => Some e | None => None end)).
  destruct (fold_left _ nodes None); [reflexivity|].
  destruct (assoc name (contributed node)); reflexivity.
Qed.

Lemma assoc_reversed_members name nodes :
  assoc name (concat (map contributed (rev nodes))) = merged_lookup name nodes.
Proof.
  induction nodes as [|node nodes IH]; [reflexivity|].
  simpl rev. rewrite map_app, concat_app.
  rewrite (@assoc_app Expression name (concat (map contributed (rev nodes)))), IH.
  simpl.
  rewrite app_nil_r.
  unfold merged_lookup at 2. simpl. rewrite merged_lookup_from.
  destruct (merged_lookup name nodes); [reflexivity|].
  destruct (assoc name (contributed node)); reflexivity.
Qed.

Lemma add_unique_In props :
  forall unique combined entry,
    In entry (snd (Full.add_unique props unique combined)) ->
    In entry combined \/ In entry props.
Proof.
  induction props as [|p props IH]; intros unique combined entry; simpl; [auto|].
  destruct (existsb (String.eqb (fst p)) unique); intro H; apply IH in H.
  - tauto.
  - destruct H as [H|H]; [|tauto].
    apply in_app_or in H as [H|[H|[]]]; auto.
Qed.

(** What [parseIntersection] computes from the member nodes. *)
Lemma combine_members_spec nodes :
  Forall mergeable nodes ->
  exists merged,
    Full.combine_members (rev nodes) [] [] = Some merged
    /\ NoDup (map fst merged)
    /\ (forall name, assoc name merged = merged_lookup name nodes)
    /\ (forall entry, In entry merged ->
                      exists node, In node nodes /\ In entry (contributed node)).
Proof.
  intro Hm.
  assert (Hr : Forall mergeable (rev nodes)) by (apply Forall_rev; exact Hm).
  rewrite (combine_members_entries Hr).
  destruct (@add_unique_spec (concat (map contributed (rev nodes))) [])
    as (merged & He & Hnd & Hl); [constructor|].
  simpl in He. exists merged. split; [|split; [|split]].
  - rewrite He. reflexivity.
  - exact Hnd.
  - intro name. rewrite Hl. simpl. apply assoc_reversed_members.
  - intros entry Hin.
    assert (Hin' : In entry (snd (Full.add_unique
                                    (concat (map contributed (rev nodes))) [] [])))
      by (rewrite He; exact Hin).
    apply add_unique_In in Hin' as [[]|Hin'].
    apply in_concat in Hin' as (l & Hl1 & Hl2).
    apply in_map_iff in Hl1 as (node & <- & Hnode).
    exists node. split; [apply in_rev; exact Hnode | exact Hl2].
Qed.

Lemma flags_intersection_dispatch tc self type depth additional optional h :
  flags (type_at tc type) = TypeFlags.Intersection ->
  Full.dispatch tc self type depth additional optional h
  = Full.parseIntersection tc self type (S depth) additional h.
Proof. intro Hf. unfold Full.dispatch. rewrite Hf. reflexivity. Qed.

Lemma collect_props_some properties :
  forall unique combined r,
    Full.collect_props properties unique combined = Some r ->
    forall v, In ("props", v) properties -> exists props, v = ObjectLiteral props.
Proof.
  induction properties as [|[k v] properties IH];
    intros unique combined r H v' Hin; simpl in *; [contradiction|].
  destruct (String.eqb k "props") eqn:Ek.
  - destruct v as [lit|props|elements]; simpl in H; try discriminate.
    destruct (Full.add_unique props unique combined) as [u c].
    destruct Hin as [Hin|Hin]; [inversion Hin; subst; eauto|].
    eapply IH; eassumption.
  - destruct Hin as [Hin|Hin].
    + inversion Hin; subst. rewrite String.eqb_refl in Ek. discriminate.
    + eapply IH; eassumption.
Qed.

Lemma combine_members_some nodes :
  forall unique combined merged,
    Full.combine_members nodes unique combined = Some merged ->
    Forall mergeable nodes.
Proof.
  induction nodes as [|node nodes IH]; intros unique combined merged H;
    [constructor|].
  simpl in H.
  destruct node as [lit|properties|elements]; simpl in H; try discriminate.
  destruct (Full.collect_props properties unique combined) as [[u c]|] eqn:Ec;
    [|discriminate].
  constructor; [|eapply IH; exact H].
  exists properties. split; [reflexivity|].
  eapply collect_props_some. exact Ec.
Qed.

(** X19. An intersection whose members decompose to the nodes [nodes] yields
    one mapping [merged] built from what the members carry under a [props]
    key only: names are distinct, every entry comes from some member's
    [props], and for a name that several members have the entry of the member
    latest in declared order is the one kept.  The mapping is emitted flat
    when the depth of the rule is at most 1 (the type argument of the call)
    and as [{type: "object", props: merged}] when it is deeper, followed by
    the intersection's own doc tags.  The only other case is a member node
    that cannot be merged (one that is not an object literal, or whose
    [props] is not one), on which the code throws a TypeError. *)
Theorem intersection_later_member_wins :
  forall fuel tc type members depth additional optional h nodes h',
    flags (type_at tc type) = TypeFlags.Intersection ->
    types (type_at tc type) = Some members ->
    mapM (fun member => Full.parseType fuel tc member (S depth) additional false)
         members h = Ok (nodes, h') ->
    (Forall mergeable nodes
     /\ exists merged,
         Full.parseType (S fuel) tc type depth additional optional h
         = Ok (ObjectLiteral
                 ((if (S depth <=? 1)%nat
                   then merged
                   else [("type", Literal (JString "object"));
                         ("props", ObjectLiteral merged)])
                  ++ Full.doc_props additional (Full.type_docs tc type)),
               h')
         /\ NoDup (map fst merged)
         /\ (forall name, assoc name merged = merged_lookup name nodes)
         /\ (forall entry, In entry merged ->
                           exists node, In node nodes /\ In entry (contributed node)))
    \/ (~ Forall mergeable nodes
        /\ Full.parseType (S fuel) tc type depth additional optional h
           = Throw TypeError).
Proof.
  intros fuel tc type members depth additional optional h nodes h' Hf Ht Hnodes.
  assert (Hbody :
            Full.parseType (S fuel) tc type depth additional optional h
            = match Full.combine_members (rev nodes) [] [] with
              | Some merged =>
                  Ok (ObjectLiteral
                        (Full.wrap_props (S depth) merged
                         ++ Full.doc_props additional (Full.type_docs tc type)),
                      h')
              | None => Throw TypeError
              end).
  { rewrite parseType_S, flags_intersection_dispatch by exact Hf.
    unfold Full.parseIntersection. rewrite Ht. simpl lift. rewrite bind_ret.
    erewrite bind_ok by exact Hnodes.
    destruct (Full.combine_members (rev nodes) [] []); reflexivity. }
  destruct (Full.combine_members (rev nodes) [] []) as [merged0|] eqn:Ec.
  - left.
    assert (Hm : Forall mergeable nodes).
    { apply combine_members_some in Ec. apply Forall_rev in Ec.
      rewrite rev_involutive in Ec. exact Ec. }
    split; [exact Hm|].
    destruct (combine_members_spec Hm) as (merged & Hc & Hnd & Hl & Hin).
    rewrite Ec in Hc. inversion Hc; subst merged0.
    exists merged. split; [|auto].
    rewrite Hbody. unfold Full.wrap_props. destruct depth; reflexivity.
  - right. split; [|exact Hbody].
    intro Hm. destruct (combine_members_spec Hm) as (merged & Hc & _).
    congruence.
Qed.

Lemma intersection_later_member_wins_witness :
  (Forall mergeable Examples.A_and_C_nodes
   /\ exists merged,
       Full.parseType 4 Examples.tc 9 0 true false []
       = Ok (ObjectLiteral
               ((if (1 <=? 1)%nat
                 then merged
                 else [("type", Literal (JString "object"));
                       ("props", ObjectLiteral merged)])
                ++ Full.doc_props true (Full.type_docs Examples.tc 9)),
             [])
       /\ NoDup (map fst merged)
       /\ (forall name, assoc name merged = merged_lookup name Examples.A_and_C_nodes)
       /\ (forall entry, In entry merged ->
                         exists node, In node Examples.A_and_C_nodes
                                      /\ In entry (contributed node)))
  \/ (~ Forall mergeable Examples.A_and_C_nodes
      /\ Full.parseType 4 Examples.tc 9 0 true false [] = Throw TypeError).
Proof.
  apply (@intersection_later_member_wins 3 Examples.tc 9%nat [7; 10]%nat 0%nat
           true false [] Examples.A_and_C_nodes []); reflexivity.
Defined.

(** C6 (fails on the code).  The merge takes every key named [props] of a
    member node for the member's property mapping.  An interface with a doc
    tag named [props] has two such keys at an additive call, its mapping and
    the tag, and the tag's value is a string literal without properties: for
<<
    /** @props x */ interface A { x: string }
    interface C { y: string }
>>
    the call [schema<A & C>()] throws a TypeError instead of yielding the
    merged mapping, which the same call with [additional] off does yield.
    Both hold for every bound on the recursion that lets the members be
    decomposed. *)
Theorem props_tag_breaks_merge :
  forall extra,
    Full.parseType (extra + 2) TagExamples.tc 1 1 true false []
    = Ok (ObjectLiteral
            [("type", Literal (JString "object"));
             ("props",
              ObjectLiteral
                [("x", ObjectLiteral [("type", Literal (JString "string"))])]);
             ("props", Literal (JString "x"))],
          [])
    /\ Full.visitNode (extra + 3) TagExamples.tc 0 true = Throw TypeError
    /\ Full.visitNode (extra + 3) TagExamples.tc 0 false
       = Ok (ObjectLiteral
               [("y", ObjectLiteral [("type", Literal (JString "string"))]);
                ("x", ObjectLiteral [("type", Literal (JString "string"))])],
             []).
Proof.
  intro extra. unfold Full.visitNode.
  split; [|split];
    (rewrite parseType_more_fuel;
     [reflexivity | unfold settled; vm_compute; discriminate]).
Qed.

Example unmergeable_member :
  Full.visitNode 5 Examples.tc 24 false = Throw TypeError.
Proof. reflexivity. Qed.

Example A_and_C_merged :
  Full.visitNode 4 Examples.tc 9 true
  = Ok (ObjectLiteral
          [("y", ObjectLiteral [("type", Literal (JString "string"))]);
           ("z", ObjectLiteral [("type", Literal (JString "string"))]);
           ("x", ObjectLiteral [("min", Literal (JNumber (-3 # 2)));
                                ("type", Literal (JString "string"))])],
        [])
  /\ merged_lookup "y" Examples.A_and_C_nodes
     = Some (ObjectLiteral [("type", Literal (JString "string"))]).
Proof. split; reflexivity. Qed.

(** ** Depth: flat at the top, wrapped below *)

Section DepthIndependence.

Variable tc : TypeChecker.
Variable self : parser.
Hypothesis self_depth :
  forall type d1 d2 additional optional h,
    (1 <= d1)%nat -> (1 <= d2)%nat ->
    self type d1 additional optional h = self type d2 additional optional h.

Lemma wrap_props_deep d1 d2 assignments :
  (2 <= d1)%nat -> (2 <= d2)%nat ->
  Full.wrap_props d1 assignments = Full.wrap_props d2 assignments.
Proof.
  intros H1 H2. unfold Full.wrap_props.
  destruct (Nat.ltb_spec 1 d1); [|lia]. destruct (Nat.ltb_spec 1 d2); [|lia].
  reflexivity.
Qed.

Lemma parseProperty_depth d1 d2 additional property h :
  (1 <= d1)%nat -> (1 <= d2)%nat ->
  Full.parseProperty self d1 additional property h
  = Full.parseProperty self d2 additional property h.
Proof.
  intros H1 H2. unfold Full.parseProperty.
  apply bind_ext; [|reflexivity].
  destruct (declarations property) as [[|declaration rest]|].
  - reflexivity.
  - apply bind_ext; [apply self_depth; assumption | reflexivity].
  - destruct (prop_type property);
      [apply bind_ext; [apply self_depth; assumption | reflexivity] | reflexivity].
Qed.

Lemma dispatch_depth type d1 d2 additional optional h :
  (1 <= d1)%nat -> (1 <= d2)%nat ->
  Full.dispatch tc self type d1 additional optional h
  = Full.dispatch tc self type d2 additional optional h.
Proof.
  intros H1 H2. unfold Full.dispatch.
  destruct (Full.primitive_like (flags (type_at tc type))); [reflexivity|].
  destruct (Full.forbidden_like (flags (type_at tc type))); [reflexivity|].
  destruct (flags (type_at tc type) =? TypeFlags.Object).
  - cbv zeta.
    destruct (Full.predefined_get (Full.symbol_name_of tc type)); [reflexivity|].
    destruct (isArrayType tc type).
    { unfold Full.parseArray.
      destruct (typeArguments (type_at tc type)) as [[|element rest]|];
        try reflexivity.
      apply bind_ext; [apply self_depth; lia | reflexivity]. }
    destruct (getIndexInfoOfType tc type IndexNumber
              || getIndexInfoOfType tc type IndexString); [reflexivity|].
    apply bind_ext; [reflexivity|]. intros history h1.
    destruct (includes history (Full.symbol_name_of tc type)); [reflexivity|].
    apply bind_ext; [reflexivity|]. intros _ h2.
    unfold Full.parseInterface.
    apply bind_ext.
    + apply mapM_ext. intros p hp _. apply parseProperty_depth; lia.
    + intros assignments h3.
      rewrite (@wrap_props_deep (S d1) (S d2)) by lia. reflexivity.
  - destruct (flags (type_at tc type) =? TypeFlags.Union).
    { unfold Full.parseUnion.
      apply bind_ext; [reflexivity|]. intros members h1.
      destruct (Full.filter_union tc true false members) as [kept uo].
      destruct kept as [|m [|m' kept]].
      - reflexivity.
      - destruct (Full.boolean_literal tc m); [reflexivity|].
        apply self_depth; lia.
      - destruct (Full.all_literals tc (m :: m' :: kept)); [reflexivity|].
        apply bind_ext; [|reflexivity].
        apply mapM_ext. intros x hx _.
        destruct (Full.boolean_literal tc x); [reflexivity|].
        apply self_depth; lia. }
    destruct (flags (type_at tc type) =? TypeFlags.Intersection).
    { unfold Full.parseIntersection.
      apply bind_ext; [reflexivity|]. intros members h1.
      apply bind_ext.
      - apply mapM_ext. intros x hx _. apply self_depth; lia.
      - intros nodes h2. apply bind_ext; [reflexivity|]. intros merged h3.
        rewrite (@wrap_props_deep (S d1) (S d2)) by lia. reflexivity. }
    reflexivity.
Qed.

End DepthIndependence.

(** Below the type argument of the call the depth no longer matters. *)
Lemma parseType_depth fuel tc :
  forall type d1 d2 additional optional h,
    (1 <= d1)%nat -> (1 <= d2)%nat ->
    Full.parseType fuel tc type d1 additional optional h
    = Full.parseType fuel tc type d2 additional optional h.
Proof.
  induction fuel as [|fuel IH]; intros type d1 d2 additional optional h H1 H2;
    [reflexivity|].
  rewrite !parseType_S. apply dispatch_depth; assumption.
Qed.

Lemma flags_interface_dispatch tc self type depth additional optional h :
  flags (type_at tc type) = TypeFlags.Object ->
  Full.predefined_get (Full.symbol_name_of tc type) = None ->
  isArrayType tc type = false ->
  getIndexInfoOfType tc type IndexNumber = false ->
  getIndexInfoOfType tc type IndexString = false ->
  includes h (Full.symbol_name_of tc type) = false ->
  Full.dispatch tc self type depth additional optional h
  = Full.parseInterface tc self type (S depth) additional optional
      (if negb (name_eqb (Full.symbol_name_of tc type) (Some "__type"))
          && negb (name_eqb (Full.symbol_name_of tc type) (Some "Array"))
       then h ++ [Full.symbol_name_of tc type] else h).
Proof.
  intros Hf Hp Ha Hn Hs Hi. unfold Full.dispatch.
  rewrite Hf, Hp, Ha, Hn, Hs. cbn -[includes name_eqb Full.parseInterface].
  unfold bind at 1. unfold get_history. rewrite Hi.
  destruct (negb (name_eqb (Full.symbol_name_of tc type) (Some "__type"))
            && negb (name_eqb (Full.symbol_name_of tc type) (Some "Array")));
    reflexivity.
Qed.

Lemma mapM_parseProperty_names self depth additional properties :
  forall h assignments h',
    mapM (Full.parseProperty self depth additional) properties h
    = Ok (assignments, h') ->
    map fst assignments = map prop_name properties.
Proof.
  induction properties as [|p properties IH]; simpl; intros h assignments h' H.
  - inversion H. reflexivity.
  - unfold bind in H at 1.
    destruct (Full.parseProperty self depth additional p h) as [[b h1]| |] eqn:Ep;
      try discriminate.
    unfold bind in H at 1.
    destruct (mapM (Full.parseProperty self depth additional) properties h1)
      as [[bs h2]| |] eqn:Em; try discriminate.
    inversion H; subst. simpl. f_equal; [|eapply IH; exact Em].
    unfold Full.parseProperty, bind in Ep.
    destruct (match declarations p with
              | Some [] => throw TypeError
              | Some (declaration :: _) => _
              | None => _
              end h) as [[[parsed optional] h3]| |]; try discriminate.
    inversion Ep. reflexivity.
Qed.

Lemma decorate_optional additional docs properties :
  Full.decorate true additional docs (ObjectLiteral properties)
  = ObjectLiteral
      (Full.doc_props additional docs
       ++ properties ++ [("optional", Literal (JBool true))]).
Proof.
  unfold Full.decorate, Full.doc_props. simpl.
  destruct (additional && nonempty docs); reflexivity.
Qed.

(** ** Unions with [undefined] *)

Lemma parsePrimitive_optional tc type depth :
  exists properties,
    Full.parsePrimitive tc type depth false = ObjectLiteral properties
    /\ Full.parsePrimitive tc type depth true
       = ObjectLiteral (("optional", Literal (JBool true)) :: properties).
Proof.
  unfold Full.parsePrimitive.
  destruct (has_flag (flags (type_at tc type)) TypeFlags.Literal);
    [destruct (value (type_at tc type)), (intrinsicName (type_at tc type))|];
    eexists; split; reflexivity.
Qed.

Lemma eligible_property_filter l :
  filter Full.eligible l = filter eligible_property l.
Proof. reflexivity. Qed.

Lemma member_marked_in_front fuel tc m depth additional h :
  marked_in_front tc m ->
  Full.parseType (S fuel) tc m depth additional true h
  = optional_in_front (Full.parseType (S fuel) tc m depth additional false h).
Proof.
  intros Hkind. rewrite !parseType_S. unfold Full.dispatch.
  destruct Hkind as [Hp | [(Ho & Hn & Ha) | (Hp & Hfb & Ho & Hu & Hi & He)]].
  - rewrite Hp. unfold ret.
    destruct (parsePrimitive_optional tc m (S depth)) as (ps & E0 & E1).
    rewrite E0, E1. reflexivity.
  - rewrite Ho. cbn [Full.primitive_like Full.forbidden_like].
    change (Full.primitive_like TypeFlags.Object) with false.
    change (Full.forbidden_like TypeFlags.Object) with false.
    cbn [Z.eqb Pos.eqb TypeFlags.Object]. rewrite Hn, Ha.
    unfold Full.parseArray.
    destruct (typeArguments (type_at tc m)) as [[|element args]|];
      try reflexivity.
    unfold bind, ret.
    destruct (Full.parseType fuel tc element (S depth) false false h)
      as [[items h']| |]; reflexivity.
  - rewrite Hp, Hfb.
    destruct (Z.eqb_spec (flags (type_at tc m)) TypeFlags.Object); [contradiction|].
    destruct (Z.eqb_spec (flags (type_at tc m)) TypeFlags.Union); [contradiction|].
    destruct (Z.eqb_spec (flags (type_at tc m)) TypeFlags.Intersection);
      [contradiction|].
    rewrite He. unfold Full.parseEnum.
    destruct (types (type_at tc m)); reflexivity.
Qed.

Lemma parseType_interface fuel tc type depth additional optional h :
  flags (type_at tc type) = TypeFlags.Object ->
  Full.predefined_get (Full.symbol_name_of tc type) = None ->
  isArrayType tc type = false ->
  getIndexInfoOfType tc type IndexNumber = false ->
  getIndexInfoOfType tc type IndexString = false ->
  includes h (Full.symbol_name_of tc type) = false ->
  filter eligible_property (getPropertiesOfType tc type) <> [] ->
  Full.parseType (S fuel) tc type depth additional optional h
  = match mapM (Full.parseProperty (Full.parseType fuel tc) (S depth) additional)
               (filter eligible_property (getPropertiesOfType tc type))
               (if negb (name_eqb (Full.symbol_name_of tc type) (Some "__type"))
                   && negb (name_eqb (Full.symbol_name_of tc type) (Some "Array"))
                then h ++ [Full.symbol_name_of tc type] else h) with
    | Ok (assignments, h') =>
        Ok (ObjectLiteral
              (Full.wrap_props (S depth) assignments
               ++ Full.doc_props additional (Full.type_docs tc type)
               ++ Full.optional_prop optional),
            removelast h')
    | Throw e => Throw e
    | Diverge => Diverge
    end.
Proof.
  intros Hf Hp Ha Hn Hs Hi Hne.
  rewrite parseType_S, flags_interface_dispatch by assumption.
  unfold Full.parseInterface, bind at 1.
  rewrite eligible_property_filter.
  match goal with
  | |- match ?m1 with _ => _ end = match ?m2 with _ => _ end =>
      change m2 with m1;
      destruct m1 as [[assignments h']| |] eqn:Em; try reflexivity
  end.
  destruct assignments as [|a assignments]; [|reflexivity].
  apply mapM_length in Em. simpl in Em.
  destruct (filter eligible_property (getPropertiesOfType tc type));
    [congruence | discriminate].
Qed.

Lemma member_marked_at_end fuel tc m depth additional h :
  marked_at_end tc m h ->
  Full.parseType (S fuel) tc m depth additional true h
  = optional_at_end (Full.parseType (S fuel) tc m depth additional false h).
Proof.
  intros (Ho & Hn & Ha & Hx & Hs & Hi & Hne).
  rewrite !parseType_interface by assumption.
  match goal with
  | |- match ?m1 with _ => _ end = _ =>
      destruct m1 as [[assignments h']| |]; try reflexivity
  end.
  unfold optional_at_end, Full.optional_prop, createPropertyAssignment,
    createLiteral.
  rewrite !app_nil_r, <- !app_assoc. reflexivity.
Qed.

Lemma member_left_unmarked fuel tc m depth additional h :
  left_unmarked tc m h ->
  Full.parseType (S fuel) tc m depth additional true h
  = Full.parseType (S fuel) tc m depth additional false h.
Proof.
  intros (Hp & Hkind). rewrite !parseType_S. unfold Full.dispatch. rewrite Hp.
  destruct Hkind as [Hn | [Hi | (Ho & Hkind)]].
  - rewrite Hn. reflexivity.
  - rewrite Hi. reflexivity.
  - rewrite Ho. change (Full.forbidden_like TypeFlags.Object) with false.
    cbn [Z.eqb Pos.eqb TypeFlags.Object].
    destruct (Full.predefined_get (Full.symbol_name_of tc m)) as [kind|];
      [reflexivity|].
    destruct Hkind as [Hkind | (Ha & Hrest)]; [congruence|].
    rewrite Ha.
    destruct (getIndexInfoOfType tc m IndexNumber
              || getIndexInfoOfType tc m IndexString) eqn:Ex; [reflexivity|].
    unfold bind at 1 3. unfold get_history.
    destruct (includes h (Full.symbol_name_of tc m)) eqn:Einc; [reflexivity|].
    destruct Hrest as [Hx | [Hx | Hempty]]; try discriminate.
    unfold Full.parseInterface. rewrite eligible_property_filter, Hempty.
    reflexivity.
Qed.

(** C5 (as amended).  In a union with a literal [undefined] member the filter
    drops every such member and sets the optional flag, and of several
    boolean-literal members only the first stays.  When exactly one member
    remains and it is not a boolean literal, the union yields one node and no
    alternation: the decomposition of that member made with the optional flag
    set.  Compared with the member's own decomposition it has
    [optional: true] in front for a member under the primitive, array or enum
    rule, [optional: true] at the end for an interface with properties, and
    no mark at all for null, undefined or never, an intersection, a type
    found in [predefined], an index-signature type, a type already in the
    history and an interface without properties. *)
Theorem union_undefined_optional :
  forall fuel tc type members depth additional optional h,
    flags (type_at tc type) = TypeFlags.Union ->
    types (type_at tc type) = Some members ->
    existsb (is_undefined tc) members = true ->
    exists kept,
      Full.filter_union tc true false members = (kept, true)
      /\ kept = first_boolean_only tc
                  (filter (fun m => negb (is_undefined tc m)) members)
      /\ (forall m, In m kept -> is_undefined tc m = false)
      /\ (forall m,
             kept = [m] -> Full.boolean_literal tc m = false ->
             Full.parseType (S fuel) tc type depth additional optional h
             = Full.parseType fuel tc m (S depth) additional true h)
      /\ (forall m,
             kept = [m] -> Full.boolean_literal tc m = false ->
             let result :=
               Full.parseType (S (S fuel)) tc type depth additional optional h in
             let alone :=
               Full.parseType (S fuel) tc m (S depth) additional false h in
             (marked_in_front tc m -> result = optional_in_front alone)
             /\ (marked_at_end tc m h -> result = optional_at_end alone)
             /\ (left_unmarked tc m h -> result = alone)
             /\ (Full.primitive_like (flags (type_at tc m)) = true ->
                 has_flag (flags (type_at tc m)) TypeFlags.Literal = false ->
                 result
                 = Ok (ObjectLiteral
                         [("optional", Literal (JBool true));
                          ("type", Literal (JString (typeToString tc m)))],
                       h))).
Proof.
  intros fuel tc type members depth additional optional h Hf Ht Hu.
  assert (Hone : forall fuel' m,
             first_boolean_only tc
               (filter (fun m => negb (is_undefined tc m)) members) = [m] ->
             Full.boolean_literal tc m = false ->
             Full.parseType (S fuel') tc type depth additional optional h
             = Full.parseType fuel' tc m (S depth) additional true h).
  { intros fuel' m Hk Hb. rewrite parseType_S, flags_union_dispatch by exact Hf.
    unfold Full.parseUnion. rewrite Ht. simpl lift. rewrite bind_ret.
    rewrite filter_union_spec, Hu, Hk. simpl.
    rewrite Hb. reflexivity. }
  eexists. split; [|split; [reflexivity|split; [|split]]].
  - rewrite filter_union_spec, Hu. reflexivity.
  - intros m Hin. apply first_boolean_only_In in Hin.
    apply filter_In in Hin as [_ Hin]. apply negb_true_iff in Hin. exact Hin.
  - intros m Hk Hb. apply Hone; assumption.
  - intros m Hk Hb result alone. subst result alone.
    rewrite (Hone (S fuel) m Hk Hb).
    split; [|split; [|split]].
    + apply member_marked_in_front.
    + apply member_marked_at_end.
    + apply member_left_unmarked.
    + intros Hp Hl. rewrite parseType_S. unfold Full.dispatch. rewrite Hp.
      unfold ret, Full.parsePrimitive. rewrite Hl. reflexivity.
Qed.

Lemma union_undefined_optional_witness :
  exists kept,
    Full.filter_union Examples.tc true false [3; 1]%nat = (kept, true)
    /\ kept = first_boolean_only Examples.tc
                (filter (fun m => negb (is_undefined Examples.tc m)) [3; 1]%nat)
    /\ (forall m, In m kept -> is_undefined Examples.tc m = false)
    /\ (forall m,
           kept = [m] -> Full.boolean_literal Examples.tc m = false ->
           Full.parseType 2 Examples.tc 13 0 true false []
           = Full.parseType 1 Examples.tc m 1 true true [])
    /\ (forall m,
           kept = [m] -> Full.boolean_literal Examples.tc m = false ->
           let result := Full.parseType 3 Examples.tc 13 0 true false [] in
           let alone := Full.parseType 2 Examples.tc m 1 true false [] in
           (marked_in_front Examples.tc m -> result = optional_in_front alone)
           /\ (marked_at_end Examples.tc m [] -> result = optional_at_end alone)
           /\ (left_unmarked Examples.tc m [] -> result = alone)
           /\ (Full.primitive_like (flags (type_at Examples.tc m)) = true ->
               has_flag (flags (type_at Examples.tc m)) TypeFlags.Literal = false ->
               result
               = Ok (ObjectLiteral
                       [("optional", Literal (JBool true));
                        ("type", Literal (JString (typeToString Examples.tc m)))],
                     []))).
Proof.
  apply (@union_undefined_optional 1 Examples.tc 13%nat [3; 1]%nat 0%nat true false []);
    reflexivity.
Defined.

(** A member whose rule does not look at the flag: [IDate | undefined] keeps
    the one member [IDate], and the node it yields carries no [optional]
    key. *)
Lemma marker_or_undefined_not_optional :
  Full.filter_union Examples.tc true false [3; 5]%nat = ([5]%nat, true)
  /\ Full.boolean_literal Examples.tc 5 = false
  /\ ~ exists properties h,
         Full.visitNode 2 Examples.tc 17 true = Ok (ObjectLiteral properties, h)
         /\ In "optional" (map fst properties).
Proof.
  split; [reflexivity|split; [reflexivity|]].
  intros (properties & h & H & Hin).
  vm_compute in H. inversion H; subst. simpl in Hin.
  destruct Hin as [E|[]]. discriminate E.
Qed.

(** ** Interfaces: the property mapping *)

Lemma decorate_attached optional additional docs node :
  Full.decorate optional additional docs node
  = attached (tag_entries additional docs) (optional_entry optional) node.
Proof.
  unfold Full.decorate, attached, tag_entries, optional_entry,
    Full.addProperty, Full.addProperties.
  destruct node as [v|properties|elements], optional,
           (additional && nonempty docs); simpl;
    rewrite ?app_nil_r; reflexivity.
Qed.

Lemma mapM_parseProperty_mapping self depth additional properties :
  forall h,
    mapM (Full.parseProperty self depth additional) properties h
    = property_mapping (fun t optional => self t depth additional optional)
                       additional properties h.
Proof.
  induction properties as [|p properties IH]; intro h; [reflexivity|].
  cbn [mapM property_mapping]. unfold bind at 1.
  assert (Hp : Full.parseProperty self depth additional p h
               = match property_subject p with
                 | None => Throw TypeError
                 | Some (t, optional) =>
                     match self t depth additional optional h with
                     | Ok (node, h1) =>
                         Ok ((prop_name p,
                              attached (tag_entries additional (prop_docs p))
                                       (optional_entry optional) node),
                             removelast h1)
                     | Throw e => Throw e
                     | Diverge => Diverge
                     end
                 end).
  { unfold Full.parseProperty, property_subject, getTypeOfSymbolAtLocation.
    destruct (declarations p) as [[|declaration ds]|].
    - reflexivity.
    - unfold bind, ret, pop, createPropertyAssignment.
      destruct (self (declared_type p) depth additional
                     (questionToken declaration) h) as [[parsed h1]| |];
        [rewrite decorate_attached|..]; reflexivity.
    - destruct (prop_type p) as [t|]; [|reflexivity].
      unfold bind, ret, pop, createPropertyAssignment.
      destruct (self t depth additional false h) as [[parsed h1]| |];
        [rewrite decorate_attached|..]; reflexivity. }
  rewrite Hp. destruct (property_subject p) as [[t optional]|]; [|reflexivity].
  destruct (self t depth additional optional h) as [[node h1]| |];
    try reflexivity.
  unfold bind at 1. rewrite IH.
  destruct (property_mapping (fun t0 optional0 => self t0 depth additional optional0)
                             additional properties (removelast h1))
    as [[entries h2]| |]; reflexivity.
Qed.

Lemma property_mapping_ext decompose decompose' additional properties :
  (forall t optional h, decompose t optional h = decompose' t optional h) ->
  forall h,
    property_mapping decompose additional properties h
    = property_mapping decompose' additional properties h.
Proof.
  intro Hext. induction properties as [|p properties IH]; intro h;
    [reflexivity|].
  cbn [property_mapping]. destruct (property_subject p) as [[t optional]|];
    [|reflexivity].
  rewrite Hext. destruct (decompose' t optional h) as [[node h1]| |];
    try reflexivity.
  rewrite IH. reflexivity.
Qed.

Lemma property_mapping_names decompose additional properties :
  forall h entries h',
    property_mapping decompose additional properties h = Ok (entries, h') ->
    map fst entries = map prop_name properties.
Proof.
  induction properties as [|p properties IH]; intros h entries h' H.
  - inversion H. reflexivity.
  - cbn [property_mapping] in H.
    destruct (property_subject p) as [[t optional]|]; [|discriminate].
    destruct (decompose t optional h) as [[node h1]| |]; try discriminate.
    destruct (property_mapping decompose additional properties (removelast h1))
      as [[entries' h2]| |] eqn:Em; try discriminate.
    inversion H; subst. simpl. f_equal. eapply IH. exact Em.
Qed.

Lemma predefined_get_none name :
  (forall n, name = Some n -> ~ In n (marker_names ++ inherited_names)) ->
  Full.predefined_get name = None.
Proof.
  intro Hn. unfold Full.predefined_get.
  set (key := match name with Some n => n | None => "undefined" end).
  assert (Hk : ~ In key (marker_names ++ inherited_names)).
  { subst key. destruct name as [n|]; [apply Hn; reflexivity|].
    simpl. intuition discriminate. }
  assert (Hne : forall k, In k (marker_names ++ inherited_names) ->
                          String.eqb key k = false).
  { intros k Hin. apply String.eqb_neq. intro E. subst k. contradiction. }
  unfold Full.predefined, Full.Object_prototype. cbn [assoc existsb].
  rewrite !Hne by (simpl; tauto). reflexivity.
Qed.

(** C4 (as amended).  An object type that reaches the interface rule (its
    name is neither a marker name nor a name every object inherits, it is not
    an array, has no index signature and is not in the history) and has at
    least one eligible property: given as the type argument of the call, it
    yields the property mapping flat; anywhere deeper the same mapping comes
    wrapped in [{type: "object", props: ...}].  In both cases the doc tags of
    the type and the optional mark follow.  The mapping has one entry per
    property, in order and under the property's name, and the entry is the
    decomposition of the property's type, made one level deeper with the
    property's optionality: as it is for a required property without doc
    tags and for a node that is not structured, and with the doc tags in
    front and [optional: true] at the end of a structured node otherwise. *)
Theorem interface_flat_or_wrapped :
  forall fuel tc type depth additional optional h,
    flags (type_at tc type) = TypeFlags.Object ->
    (forall n, Full.symbol_name_of tc type = Some n ->
               ~ In n (marker_names ++ inherited_names)) ->
    isArrayType tc type = false ->
    getIndexInfoOfType tc type IndexNumber = false ->
    getIndexInfoOfType tc type IndexString = false ->
    includes h (Full.symbol_name_of tc type) = false ->
    filter eligible_property (getPropertiesOfType tc type) <> [] ->
    let name := Full.symbol_name_of tc type in
    let entered :=
      if negb (name_eqb name (Some "__type")) && negb (name_eqb name (Some "Array"))
      then h ++ [name] else h in
    let decompose := fun t q => Full.parseType fuel tc t 1 additional q in
    let mapping :=
      property_mapping decompose additional
        (filter eligible_property (getPropertiesOfType tc type)) entered in
    let extras :=
      tag_entries additional (declared_tags tc type) ++ optional_entry optional in
    Full.parseType (S fuel) tc type 0 additional optional h
    = match mapping with
      | Ok (assignments, h') =>
          Ok (ObjectLiteral (assignments ++ extras), removelast h')
      | Throw e => Throw e
      | Diverge => Diverge
      end
    /\ Full.parseType (S fuel) tc type (S depth) additional optional h
       = match mapping with
         | Ok (assignments, h') =>
             Ok (ObjectLiteral
                   ([("type", Literal (JString "object"));
                     ("props", ObjectLiteral assignments)] ++ extras),
                 removelast h')
         | Throw e => Throw e
         | Diverge => Diverge
         end
    /\ (forall assignments h',
           mapping = Ok (assignments, h') ->
           assignments <> []
           /\ map fst assignments
              = map prop_name (filter eligible_property (getPropertiesOfType tc type)))
    /\ (forall property rest t q hist node hist' entries hist'',
           property_subject property = Some (t, q) ->
           Full.parseType fuel tc t 1 additional q hist = Ok (node, hist') ->
           property_mapping decompose additional rest (removelast hist')
           = Ok (entries, hist'') ->
           exists entry,
             property_mapping decompose additional (property :: rest) hist
             = Ok ((prop_name property, entry) :: entries, hist'')
             /\ (forall properties,
                    node = ObjectLiteral properties ->
                    entry
                    = ObjectLiteral
                        (tag_entries additional (prop_docs property)
                         ++ properties ++ optional_entry q))
             /\ (q = false ->
                 tag_entries additional (prop_docs property) = [] ->
                 entry = node)
             /\ ((forall properties, node <> ObjectLiteral properties) ->
                 entry = node)).
Proof.
  intros fuel tc type depth additional optional h Hf Hname Ha Hn Hs Hi Hne
         name entered decompose mapping extras.
  assert (Hp : Full.predefined_get (Full.symbol_name_of tc type) = None)
    by (apply predefined_get_none; exact Hname).
  assert (Hbody : forall d,
             Full.parseType (S fuel) tc type d additional optional h
             = match mapping with
               | Ok (assignments, h') =>
                   Ok (ObjectLiteral (Full.wrap_props (S d) assignments ++ extras),
                       removelast h')
               | Throw e => Throw e
               | Diverge => Diverge
               end).
  { intro d. rewrite parseType_interface by assumption.
    rewrite mapM_parseProperty_mapping.
    rewrite (property_mapping_ext
               (fun t q => Full.parseType fuel tc t (S d) additional q)
               decompose)
      by (intros t q hp; apply parseType_depth; lia).
    reflexivity. }
  split; [|split; [|split]].
  - rewrite Hbody. reflexivity.
  - rewrite Hbody. reflexivity.
  - intros assignments h' Hm.
    pose proof (property_mapping_names _ _ _ _ Hm) as Hnames.
    split; [|exact Hnames].
    intro E. subst assignments. simpl in Hnames.
    destruct (filter eligible_property (getPropertiesOfType tc type));
      [congruence | discriminate].
  - intros property rest t q hist node hist' entries hist'' Hsub Hnode Hrest.
    eexists. split; [|split; [|split]].
    + cbn [property_mapping]. rewrite Hsub. unfold decompose at 1.
      rewrite Hnode, Hrest. reflexivity.
    + intros properties ->. reflexivity.
    + intros -> Hd. rewrite Hd.
      destruct node; simpl; rewrite ?app_nil_r; reflexivity.
    + intro Hno. destruct node as [v|properties|elements]; try reflexivity.
      exfalso. apply (Hno properties). reflexivity.
Qed.

Lemma interface_flat_or_wrapped_witness :
  let decompose := fun t q => Full.parseType 2 Examples.tc t 1 true q in
  let mapping :=
    property_mapping decompose true
      (filter eligible_property (getPropertiesOfType Examples.tc 7)) [Some "A"] in
  let extras :=
    tag_entries true (declared_tags Examples.tc 7) ++ optional_entry false in
  Full.parseType 3 Examples.tc 7 0 true false []
  = match mapping with
    | Ok (assignments, h') =>
        Ok (ObjectLiteral (assignments ++ extras), removelast h')
    | Throw e => Throw e
    | Diverge => Diverge
    end
  /\ Full.parseType 3 Examples.tc 7 1 true false []
     = match mapping with
       | Ok (assignments, h') =>
           Ok (ObjectLiteral
                 ([("type", Literal (JString "object"));
                   ("props", ObjectLiteral assignments)] ++ extras),
               removelast h')
       | Throw e => Throw e
       | Diverge => Diverge
       end
  /\ (forall assignments h',
         mapping = Ok (assignments, h') ->
         assignments <> []
         /\ map fst assignments
            = map prop_name
                  (filter eligible_property (getPropertiesOfType Examples.tc 7)))
  /\ (forall property rest t q hist node hist' entries hist'',
         property_subject property = Some (t, q) ->
         Full.parseType 2 Examples.tc t 1 true q hist = Ok (node, hist') ->
         property_mapping decompose true rest (removelast hist')
         = Ok (entries, hist'') ->
         exists entry,
           property_mapping decompose true (property :: rest) hist
           = Ok ((prop_name property, entry) :: entries, hist'')
           /\ (forall properties,
                  node = ObjectLiteral properties ->
                  entry
                  = ObjectLiteral
                      (tag_entries true (prop_docs property)
                       ++ properties ++ optional_entry q))
           /\ (q = false ->
               tag_entries true (prop_docs property) = [] ->
               entry = node)
           /\ ((forall properties, node <> ObjectLiteral properties) ->
               entry = node)).
Proof.
  apply (@interface_flat_or_wrapped 2 Examples.tc 7%nat 0%nat true false []);
    try reflexivity.
  - intros n Hn. vm_compute in Hn. inversion Hn; subst n.
    simpl. intuition discriminate.
  - simpl. discriminate.
Defined.

(** A type with a property that an earlier rule takes: the interface
    [IDate] of the examples has the property [time], and as the type argument
    of the call it yields [{type: "date"}], in which no entry is named after
    the property. *)
Lemma marker_with_property_not_flat :
  filter eligible_property (getPropertiesOfType Examples.tc 5) <> []
  /\ Full.visitNode 2 Examples.tc 5 true
     = Ok (ObjectLiteral [("type", Literal (JString "date"))], [])
  /\ ~ exists assignments extras h,
         Full.visitNode 2 Examples.tc 5 true
         = Ok (ObjectLiteral (assignments ++ extras), h)
         /\ map fst assignments
            = map prop_name
                  (filter eligible_property (getPropertiesOfType Examples.tc 5)).
Proof.
  split; [simpl; discriminate|]. split; [reflexivity|].
  intros (assignments & extras & h & H & Hnames).
  vm_compute in H. inversion H as [[Hl Hh]]. clear H.
  destruct assignments as [|[k v] [|b assignments]]; simpl in Hnames;
    try discriminate.
  simpl in Hl. inversion Hl; subst. inversion Hnames.
Qed.

Example A_flat_and_wrapped :
  Full.visitNode 3 Examples.tc 7 false
  = Ok (ObjectLiteral
          [("x", ObjectLiteral [("type", Literal (JString "string"))]);
           ("y", ObjectLiteral [("optional", Literal (JBool true));
                                ("type", Literal (JString "number"));
                                ("optional", Literal (JBool true))])],
        [])
  /\ Full.parseType 3 Examples.tc 7 1 false false []
     = Ok (ObjectLiteral
             [("type", Literal (JString "object"));
              ("props",
               ObjectLiteral
                 [("x", ObjectLiteral [("type", Literal (JString "string"))]);
                  ("y", ObjectLiteral [("optional", Literal (JBool true));
                                       ("type", Literal (JString "number"));
                                       ("optional", Literal (JBool true))])])],
           []).
Proof. split; reflexivity. Qed.

(** * Further properties of the code *)

(** ** Inversion of the monad *)

Lemma bind_Ok_inv {A B} (m : M A) (k : A -> M B) h r :
  bind m k h = Ok r -> exists a h1, m h = Ok (a, h1) /\ k a h1 = Ok r.
Proof.
  unfold bind. destruct (m h) as [[a h1]| |]; try discriminate. eauto.
Qed.

Lemma lift_Ok_inv {A} (o : option A) h a h' :
  lift o h = Ok (a, h') -> o = Some a /\ h' = h.
Proof.
  destruct o; simpl; unfold ret, throw; intro H; inversion H; auto.
Qed.

Lemma mapM_Ok_inv {A B} (f : A -> M B) (P : History -> History -> Prop) :
  (forall h, P h h) ->
  (forall h1 h2 h3, P h2 h1 -> P h3 h2 -> P h3 h1) ->
  forall l,
    (forall a h b h', In a l -> f a h = Ok (b, h') -> P h' h) ->
    forall h bs h', mapM f l h = Ok (bs, h') -> P h' h.
Proof.
  intros Hrefl Htrans. induction l as [|a l IH]; intros Hf h bs h' H; simpl in H.
  - inversion H; subst. apply Hrefl.
  - apply bind_Ok_inv in H as (b & h1 & Hb & H).
    apply bind_Ok_inv in H as (bs1 & h2 & Hbs & H).
    inversion H; subst.
    eapply Htrans; [eapply Hf; [left; reflexivity | exact Hb]|].
    eapply IH; [|exact Hbs]. intros; eapply Hf; [right|]; eassumption.
Qed.

Lemma mapM_Forall2 {A B} (f : A -> M B) (Q : A -> B -> Prop) :
  forall l,
    (forall a h b h', In a l -> f a h = Ok (b, h') -> Q a b) ->
    forall h bs h', mapM f l h = Ok (bs, h') -> Forall2 Q l bs.
Proof.
  induction l as [|a l IH]; intros Hf h bs h' H; simpl in H.
  - inversion H; subst. constructor.
  - apply bind_Ok_inv in H as (b & h1 & Hb & H).
    apply bind_Ok_inv in H as (bs1 & h2 & Hbs & H).
    inversion H; subst. constructor.
    + eapply Hf; [left; reflexivity | exact Hb].
    + eapply IH; [|exact Hbs]. intros; eapply Hf; [right|]; eassumption.
Qed.

(** ** The history only shrinks *)

Lemma prefix_refl h : prefix h h.
Proof. exists []. symmetry. apply app_nil_r. Qed.

Lemma prefix_trans h1 h2 h3 : prefix h2 h1 -> prefix h3 h2 -> prefix h3 h1.
Proof.
  intros [r1 ->] [r2 ->]. exists (r2 ++ r1). symmetry. apply app_assoc.
Qed.

Lemma prefix_removelast h : prefix (removelast h) h.
Proof.
  induction h as [|x h _] using rev_ind.
  - apply prefix_refl.
  - rewrite removelast_last. exists [x]. reflexivity.
Qed.

Lemma prefix_removelast_pushed p h name :
  prefix p (h ++ [name]) -> prefix (removelast p) h.
Proof.
  intros [rest Hr].
  induction rest as [|x rest _] using rev_ind.
  - rewrite app_nil_r in Hr. subst p. rewrite removelast_last. apply prefix_refl.
  - rewrite app_assoc in Hr. apply app_inj_tail in Hr as [Hr _].
    eapply prefix_trans; [exists rest; exact Hr | apply prefix_removelast].
Qed.

Section HistoryShrinks.

Variable tc : TypeChecker.
Variable self : parser.
Hypothesis self_prefix :
  forall type depth additional optional h e h',
    self type depth additional optional h = Ok (e, h') -> prefix h' h.

Lemma mapM_prefix {A B} (f : A -> M B) l :
  (forall a h b h', In a l -> f a h = Ok (b, h') -> prefix h' h) ->
  forall h bs h', mapM f l h = Ok (bs, h') -> prefix h' h.
Proof. apply mapM_Ok_inv; [apply prefix_refl | apply prefix_trans]. Qed.

Lemma parseProperty_prefix depth additional property h b h' :
  Full.parseProperty self depth additional property h = Ok (b, h') ->
  prefix h' h.
Proof.
  unfold Full.parseProperty. intro H.
  apply bind_Ok_inv in H as ([parsed optional] & h1 & H1 & H2).
  unfold bind, pop, ret in H2. inversion H2; subst.
  eapply prefix_trans; [|apply prefix_removelast].
  destruct (declarations property) as [[|declaration rest]|].
  - discriminate.
  - apply bind_Ok_inv in H1 as (e & h2 & He & Hr). inversion Hr; subst.
    eapply self_prefix; exact He.
  - destruct (prop_type property); [|discriminate].
    apply bind_Ok_inv in H1 as (e & h2 & He & Hr). inversion Hr; subst.
    eapply self_prefix; exact He.
Qed.

Lemma union_alternatives_prefix kept depth additional flag h e h' :
  (if Full.all_literals tc kept
   then ret (ObjectLiteral
               (Full.optional_prop flag ++
                [createPropertyAssignment "type" (createLiteral (JString "enum"));
                 createPropertyAssignment "values"
                   (ArrayLiteral
                      (map (fun union_property =>
                              if Full.boolean_literal tc union_property
                              then if String.eqb (typeToString tc union_property) "false"
                                   then createLiteral (JBool false)
                                   else createLiteral (JBool true)
                              else createLiteral (Full.value_of tc union_property))
                           kept))]))
   else mapped_types <-
          mapM (fun union_property =>
                  if Full.boolean_literal tc union_property
                  then ret (Full.type_node "boolean")
                  else self union_property depth additional false)
               kept ;;
        if flag
        then mapped_types <-
               mapM (fun type => lift (Full.addProperty type "optional" (JBool true)))
                    mapped_types ;;
             ret (ArrayLiteral mapped_types)
        else ret (ArrayLiteral mapped_types)) h = Ok (e, h') ->
  prefix h' h.
Proof.
  destruct (Full.all_literals tc kept); intro H;
    [inversion H; subst; apply prefix_refl|].
  apply bind_Ok_inv in H as (mapped & h2 & Hm & H).
  assert (Hp : prefix h2 h).
  { eapply mapM_prefix; [|exact Hm].
    intros a ha b hb _. cbv beta.
    destruct (Full.boolean_literal tc a);
      [intro Hb; inversion Hb; subst; apply prefix_refl | apply self_prefix]. }
  destruct flag.
  - apply bind_Ok_inv in H as (marked & h3 & Hk & H). inversion H; subst.
    eapply prefix_trans; [exact Hp|].
    eapply mapM_prefix; [|exact Hk].
    intros a ha b hb _ Hb. cbv beta in Hb. apply lift_Ok_inv in Hb as [_ ->].
    apply prefix_refl.
  - inversion H; subst. exact Hp.
Qed.

Lemma dispatch_prefix type depth additional optional h e h' :
  Full.dispatch tc self type depth additional optional h = Ok (e, h') ->
  prefix h' h.
Proof.
  unfold Full.dispatch.
  destruct (Full.primitive_like (flags (type_at tc type)));
    [intro H; inversion H; subst; apply prefix_refl|].
  destruct (Full.forbidden_like (flags (type_at tc type)));
    [intro H; inversion H; subst; apply prefix_refl|].
  destruct (flags (type_at tc type) =? TypeFlags.Object).
  - cbv zeta.
    destruct (Full.predefined_get (Full.symbol_name_of tc type));
      [intro H; inversion H; subst; apply prefix_refl|].
    destruct (isArrayType tc type).
    { unfold Full.parseArray.
      destruct (typeArguments (type_at tc type)) as [[|element rest]|];
        intro H; try discriminate.
      - apply bind_Ok_inv in H as (items & h1 & Hi & Hr). inversion Hr; subst.
        eapply self_prefix; exact Hi.
      - inversion H; subst; apply prefix_refl. }
    destruct (getIndexInfoOfType tc type IndexNumber
              || getIndexInfoOfType tc type IndexString);
      [intro H; inversion H; subst; apply prefix_refl|].
    unfold bind at 1, get_history.
    destruct (includes h (Full.symbol_name_of tc type));
      [intro H; inversion H; subst; apply prefix_refl|].
    intro H. apply bind_Ok_inv in H as (u & entered & Hpush & H).
    unfold Full.parseInterface in H.
    apply bind_Ok_inv in H as (assignments & h1 & Hm & H).
    assert (Hp1 : prefix h1 entered).
    { eapply mapM_prefix; [|exact Hm].
      intros a ha b hb _. apply parseProperty_prefix. }
    assert (Hh' : h' = removelast h1).
    { destruct assignments; unfold bind, pop, ret in H; inversion H; reflexivity. }
    subst h'.
    destruct (negb (name_eqb (Full.symbol_name_of tc type) (Some "__type"))
              && negb (name_eqb (Full.symbol_name_of tc type) (Some "Array")));
      inversion Hpush; subst entered.
    + eapply prefix_removelast_pushed; exact Hp1.
    + eapply prefix_trans; [exact Hp1 | apply prefix_removelast].
  - destruct (flags (type_at tc type) =? TypeFlags.Union).
    { unfold Full.parseUnion. intro H.
      apply bind_Ok_inv in H as (members & h1 & Hl & H).
      apply lift_Ok_inv in Hl as [_ ->].
      destruct (Full.filter_union tc true false members) as [kept uo].
      destruct kept as [|m [|m' kept]].
      - exact (@union_alternatives_prefix [] (S depth) additional
                 (optional || uo) h e h' H).
      - destruct (Full.boolean_literal tc m).
        + destruct (optional || uo); inversion H; subst; apply prefix_refl.
        + eapply self_prefix; exact H.
      - exact (@union_alternatives_prefix (m :: m' :: kept) (S depth) additional
                 (optional || uo) h e h' H). }
    destruct (flags (type_at tc type) =? TypeFlags.Intersection).
    { unfold Full.parseIntersection. intro H.
      apply bind_Ok_inv in H as (members & h1 & Hl & H).
      apply lift_Ok_inv in Hl as [_ ->].
      apply bind_Ok_inv in H as (nodes & h2 & Hm & H).
      apply bind_Ok_inv in H as (merged & h3 & Hc & H).
      apply lift_Ok_inv in Hc as [_ ->]. inversion H; subst.
      eapply mapM_prefix; [|exact Hm]. intros a ha b hb _. apply self_prefix. }
    destruct (has_flag (flags (type_at tc type)) TypeFlags.EnumLike).
    + unfold Full.parseEnum. intro H.
      apply bind_Ok_inv in H as (members & h1 & Hl & H).
      apply lift_Ok_inv in Hl as [_ ->]. inversion H; subst; apply prefix_refl.
    + discriminate.
Qed.

End HistoryShrinks.

(** X1. Whatever [parseType] is called on, the history it leaves behind is an
    initial part of the history it was given: no name stays pushed once the
    call has returned. *)
Theorem history_only_shrinks :
  forall fuel tc type depth additional optional h e h',
    Full.parseType fuel tc type depth additional optional h = Ok (e, h') ->
    prefix h' h.
Proof.
  induction fuel as [|fuel IH]; intros tc type depth additional optional h e h' H.
  - discriminate.
  - rewrite parseType_S in H. eapply dispatch_prefix; [|exact H].
    intros; eapply IH; eassumption.
Qed.

Lemma history_only_shrinks_witness :
  prefix [] [Some "B"].
Proof.
  apply (@history_only_shrinks 2 Examples.tc 7%nat 1%nat false false [Some "B"]
           (ObjectLiteral
              [("type", Literal (JString "object"));
               ("props",
                ObjectLiteral
                  [("x", ObjectLiteral [("type", Literal (JString "string"))]);
                   ("y", ObjectLiteral [("optional", Literal (JBool true));
                                        ("type", Literal (JString "number"));
                                        ("optional", Literal (JBool true))])])])
           []).
  reflexivity.
Defined.

(** ** The shape of a decomposition *)

Section Shape.

Variable tc : TypeChecker.
Variable self : parser.
Hypothesis self_shape :
  forall type depth additional optional h e h',
    self type depth additional optional h = Ok (e, h') -> well_shaped tc type e.

Lemma dispatch_shape type depth additional optional h e h' :
  Full.dispatch tc self type depth additional optional h = Ok (e, h') ->
  well_shaped tc type e.
Proof.
  unfold Full.dispatch.
  destruct (Full.primitive_like (flags (type_at tc type))).
  { intro H. inversion H; subst. unfold Full.parsePrimitive.
    destruct (has_flag _ TypeFlags.Literal); [|exact I].
    destruct (value (type_at tc type)), (intrinsicName (type_at tc type)); exact I. }
  destruct (Full.forbidden_like (flags (type_at tc type)));
    [intro H; inversion H; subst; exact I|].
  destruct (flags (type_at tc type) =? TypeFlags.Object).
  - cbv zeta.
    destruct (Full.predefined_get (Full.symbol_name_of tc type));
      [intro H; inversion H; subst; exact I|].
    destruct (isArrayType tc type).
    { unfold Full.parseArray.
      destruct (typeArguments (type_at tc type)) as [[|element rest]|];
        intro H; try discriminate.
      - apply bind_Ok_inv in H as (items & h1 & Hi & Hr). inversion Hr; subst.
        exact I.
      - inversion H; subst; exact I. }
    destruct (getIndexInfoOfType tc type IndexNumber
              || getIndexInfoOfType tc type IndexString);
      [intro H; inversion H; subst; exact I|].
    unfold bind at 1, get_history.
    destruct (includes h (Full.symbol_name_of tc type));
      [intro H; inversion H; subst; exact I|].
    intro H. apply bind_Ok_inv in H as (u & entered & Hpush & H).
    unfold Full.parseInterface in H.
    apply bind_Ok_inv in H as (assignments & h1 & Hm & H).
    destruct assignments; unfold bind, pop, ret in H; inversion H; subst; exact I.
  - destruct (flags (type_at tc type) =? TypeFlags.Union) eqn:Eu.
    { apply Z.eqb_eq in Eu. unfold Full.parseUnion. intro H.
      apply bind_Ok_inv in H as (members & h1 & Hl & H).
      apply lift_Ok_inv in Hl as [_ ->].
      destruct (Full.filter_union tc true false members) as [kept uo].
      assert (Hmulti :
                forall kept',
                  (if Full.all_literals tc kept'
                   then ret (ObjectLiteral
                               (Full.optional_prop (optional || uo) ++
                                [createPropertyAssignment "type"
                                   (createLiteral (JString "enum"));
                                 createPropertyAssignment "values"
                                   (ArrayLiteral
                                      (map (fun union_property =>
                                              if Full.boolean_literal tc union_property
                                              then if String.eqb
                                                        (typeToString tc union_property)
                                                        "false"
                                                   then createLiteral (JBool false)
                                                   else createLiteral (JBool true)
                                              else createLiteral
                                                     (Full.value_of tc union_property))
                                           kept'))]))
                   else mapped_types <-
                          mapM (fun union_property =>
                                  if Full.boolean_literal tc union_property
                                  then ret (Full.type_node "boolean")
                                  else self union_property (S depth) additional false)
                               kept' ;;
                        if optional || uo
                        then mapped_types <-
                               mapM (fun type =>
                                       lift (Full.addProperty type "optional"
                                                              (JBool true)))
                                    mapped_types ;;
                             ret (ArrayLiteral mapped_types)
                        else ret (ArrayLiteral mapped_types)) h = Ok (e, h') ->
                  well_shaped tc type e).
      { intros kept'. destruct (Full.all_literals tc kept'); intro Hk;
          [inversion Hk; subst; exact I|].
        apply bind_Ok_inv in Hk as (mapped & h2 & Hm & Hk).
        destruct (optional || uo).
        - apply bind_Ok_inv in Hk as (marked & h3 & _ & Hk).
          inversion Hk; subst. exact Eu.
        - inversion Hk; subst. exact Eu. }
      destruct kept as [|m [|m' kept]].
      - exact (Hmulti [] H).
      - destruct (Full.boolean_literal tc m).
        + destruct (optional || uo); inversion H; subst; exact I.
        + apply self_shape in H. destruct e; simpl in *; auto.
      - exact (Hmulti (m :: m' :: kept) H). }
    destruct (flags (type_at tc type) =? TypeFlags.Intersection).
    { unfold Full.parseIntersection. intro H.
      apply bind_Ok_inv in H as (members & h1 & Hl & H).
      apply bind_Ok_inv in H as (nodes & h2 & Hm & H).
      apply bind_Ok_inv in H as (merged & h3 & Hc & H).
      inversion H; subst. exact I. }
    destruct (has_flag (flags (type_at tc type)) TypeFlags.EnumLike).
    + unfold Full.parseEnum. intro H.
      apply bind_Ok_inv in H as (members & h1 & Hl & H).
      inversion H; subst; exact I.
    + discriminate.
Qed.

End Shape.

(** X2. [parseType] never returns a bare literal, and it returns an array
    literal only for a type whose flags are exactly [Union]; every other
    result is an object literal, so it has [properties]. *)
Theorem decomposition_shape :
  forall fuel tc type depth additional optional h e h',
    Full.parseType fuel tc type depth additional optional h = Ok (e, h') ->
    well_shaped tc type e.
Proof.
  induction fuel as [|fuel IH]; intros tc type depth additional optional h e h' H.
  - discriminate.
  - rewrite parseType_S in H. eapply dispatch_shape; [|exact H].
    intros; eapply IH; eassumption.
Qed.

Lemma decomposition_shape_witness :
  well_shaped Examples.tc 13
    (ObjectLiteral [("optional", Literal (JBool true));
                    ("type", Literal (JString "string"))]).
Proof.
  apply (@decomposition_shape 2 Examples.tc 13%nat 0%nat true false [] _ []).
  reflexivity.
Defined.

(** ** Termination on type graphs without cycles *)

Lemma settled_ret {A} (a : A) h : settled (ret a h).
Proof. discriminate. Qed.

Lemma settled_lift {A} (o : option A) h : settled (lift o h).
Proof. destruct o; discriminate. Qed.

Lemma settled_bind {A B} (m : M A) (k : A -> M B) h :
  settled (m h) ->
  (forall a h1, m h = Ok (a, h1) -> settled (k a h1)) ->
  settled (bind m k h).
Proof.
  unfold settled, bind. intros Hm Hk.
  destruct (m h) as [[a h1]| |]; [apply Hk; reflexivity | discriminate | congruence].
Qed.

Lemma settled_mapM {A B} (f : A -> M B) (l : list A) :
  (forall a h, In a l -> settled (f a h)) ->
  forall h, settled (mapM f l h).
Proof.
  induction l as [|a l IH]; intros Hf h; simpl; [apply settled_ret|].
  apply settled_bind; [apply Hf; left; reflexivity|]. intros b h1 _.
  apply settled_bind; [|intros; apply settled_ret].
  apply IH. intros; apply Hf; right; assumption.
Qed.

Lemma filter_union_kept tc union_types kept uo m :
  Full.filter_union tc true false union_types = (kept, uo) ->
  In m kept -> In m union_types.
Proof.
  rewrite filter_union_spec. intros H Hin. inversion H; subst.
  apply first_boolean_only_In in Hin. apply filter_In in Hin. tauto.
Qed.

Section Settles.

Variable tc : TypeChecker.
Variable self : parser.
Variable type : TypeId.
Hypothesis self_settles :
  forall child depth additional optional h,
    In child (children tc type) -> settled (self child depth additional optional h).

Lemma child_element element rest :
  typeArguments (type_at tc type) = Some (element :: rest) ->
  In element (children tc type).
Proof. intro H. unfold children. rewrite H. left. reflexivity. Qed.

Lemma child_member union_types m :
  types (type_at tc type) = Some union_types -> In m union_types ->
  In m (children tc type).
Proof.
  intros H Hin. unfold children. rewrite H.
  apply in_or_app. right. apply in_or_app. left. exact Hin.
Qed.

Lemma child_property property t :
  In property (getPropertiesOfType tc type) ->
  property_type property = Some t ->
  In t (children tc type).
Proof.
  intros Hin Ht. unfold children.
  apply in_or_app. right. apply in_or_app. right.
  apply in_flat_map. exists property. split; [exact Hin|].
  rewrite Ht. left. reflexivity.
Qed.

Lemma parseProperty_settles depth additional property h :
  In property (getPropertiesOfType tc type) ->
  settled (Full.parseProperty self depth additional property h).
Proof.
  intro Hin. unfold Full.parseProperty.
  apply settled_bind.
  - assert (Hc : forall t, property_type property = Some t ->
                           In t (children tc type))
      by (intros t Ht; eapply child_property; eassumption).
    unfold property_type in Hc.
    destruct (declarations property) as [[|declaration rest]|].
    + discriminate.
    + apply settled_bind; [apply self_settles; apply Hc; reflexivity|].
      intros; apply settled_ret.
    + destruct (prop_type property) as [t|]; [|discriminate].
      apply settled_bind; [apply self_settles; apply Hc; reflexivity|].
      intros; apply settled_ret.
  - intros [parsed optional] h1 _. discriminate.
Qed.

Lemma dispatch_settles depth additional optional h :
  settled (Full.dispatch tc self type depth additional optional h).
Proof.
  unfold Full.dispatch.
  destruct (Full.primitive_like (flags (type_at tc type))); [discriminate|].
  destruct (Full.forbidden_like (flags (type_at tc type))); [discriminate|].
  destruct (flags (type_at tc type) =? TypeFlags.Object).
  - cbv zeta.
    destruct (Full.predefined_get (Full.symbol_name_of tc type)); [discriminate|].
    destruct (isArrayType tc type).
    { unfold Full.parseArray.
      destruct (typeArguments (type_at tc type)) as [[|element rest]|] eqn:Et;
        try discriminate.
      apply settled_bind; [|intros; apply settled_ret].
      apply self_settles. eapply child_element; exact Et. }
    destruct (getIndexInfoOfType tc type IndexNumber
              || getIndexInfoOfType tc type IndexString); [discriminate|].
    apply settled_bind; [discriminate|]. intros history h1 _.
    destruct (includes history (Full.symbol_name_of tc type)); [discriminate|].
    apply settled_bind.
    { destruct (negb _ && negb _); discriminate. }
    intros _ h2 _. unfold Full.parseInterface.
    apply settled_bind.
    + apply settled_mapM. intros p hp Hp. apply parseProperty_settles.
      apply filter_In in Hp. tauto.
    + intros assignments h3 _. destruct assignments; discriminate.
  - destruct (flags (type_at tc type) =? TypeFlags.Union).
    { unfold Full.parseUnion.
      destruct (types (type_at tc type)) as [union_types|] eqn:Et;
        [|discriminate].
      simpl lift. rewrite bind_ret.
      destruct (Full.filter_union tc true false union_types) as [kept uo] eqn:Ef.
      assert (Hkept : forall m, In m kept -> In m (children tc type)).
      { intros m Hm. eapply child_member; [exact Et|].
        eapply filter_union_kept; eassumption. }
      assert (Hmulti :
                settled
                  ((if Full.all_literals tc kept
                    then ret (ObjectLiteral
                                (Full.optional_prop (optional || uo) ++
                                 [createPropertyAssignment "type"
                                    (createLiteral (JString "enum"));
                                  createPropertyAssignment "values"
                                    (ArrayLiteral
                                       (map (fun union_property =>
                                               if Full.boolean_literal tc union_property
                                               then if String.eqb
                                                         (typeToString tc union_property)
                                                         "false"
                                                    then createLiteral (JBool false)
                                                    else createLiteral (JBool true)
                                               else createLiteral
                                                      (Full.value_of tc union_property))
                                            kept))]))
                    else mapped_types <-
                           mapM (fun union_property =>
                                   if Full.boolean_literal tc union_property
                                   then ret (Full.type_node "boolean")
                                   else self union_property (S depth) additional false)
                                kept ;;
                         if optional || uo
                         then mapped_types <-
                                mapM (fun type =>
                                        lift (Full.addProperty type "optional"
                                                               (JBool true)))
                                     mapped_types ;;
                              ret (ArrayLiteral mapped_types)
                         else ret (ArrayLiteral mapped_types)) h)).
      { destruct (Full.all_literals tc kept); [discriminate|].
        apply settled_bind.
        - apply settled_mapM. intros m hm Hm. cbv beta.
          destruct (Full.boolean_literal tc m); [discriminate|].
          apply self_settles. apply Hkept. exact Hm.
        - intros mapped h2 _. destruct (optional || uo); [|discriminate].
          apply settled_bind; [|intros; discriminate].
          apply settled_mapM. intros; apply settled_lift. }
      destruct kept as [|m [|m' kept]].
      - exact Hmulti.
      - destruct (Full.boolean_literal tc m).
        + destruct (optional || uo); discriminate.
        + apply self_settles. apply Hkept. left. reflexivity.
      - exact Hmulti. }
    destruct (flags (type_at tc type) =? TypeFlags.Intersection).
    { unfold Full.parseIntersection.
      destruct (types (type_at tc type)) as [members|] eqn:Et; [|discriminate].
      simpl lift. rewrite bind_ret.
      apply settled_bind.
      - apply settled_mapM. intros m hm Hm. apply self_settles.
        eapply child_member; eassumption.
      - intros nodes h2 _. apply settled_bind; [apply settled_lift|].
        intros; discriminate. }
    destruct (has_flag (flags (type_at tc type)) TypeFlags.EnumLike).
    + unfold Full.parseEnum. apply settled_bind; [apply settled_lift|].
      intros; discriminate.
    + discriminate.
Qed.

End Settles.

(** X3. On a type graph without cycles the decomposition ends.  If every
    type the rules can recurse into from a type (its first type argument, its
    members, the types of its properties) has a smaller rank than the type
    itself, then [parseType] gives a result or throws as soon as the bound on
    the recursion exceeds the rank of the type it is called on. *)
Theorem acyclic_types_terminate :
  forall tc (rank : TypeId -> nat),
    (forall type child, In child (children tc type) -> (rank child < rank type)%nat) ->
    forall fuel type depth additional optional h,
      (rank type < fuel)%nat ->
      settled (Full.parseType fuel tc type depth additional optional h).
Proof.
  intros tc rank Hrank.
  induction fuel as [|fuel IH]; intros type depth additional optional h Hr;
    [lia|].
  rewrite parseType_S. apply dispatch_settles.
  intros child d a o hc Hc. apply IH.
  specialize (Hrank type child Hc). lia.
Qed.

Lemma tree_tc_ranked type child :
  In child (children MoreExamples.tree_tc type) ->
  (MoreExamples.rank child < MoreExamples.rank type)%nat.
Proof.
  do 26 (destruct type as [|type];
         [simpl; intuition (subst; simpl; lia)|]).
  simpl. tauto.
Qed.

Lemma acyclic_types_terminate_witness :
  settled (Full.parseType 4 MoreExamples.tree_tc 24 0 true false []).
Proof.
  apply (@acyclic_types_terminate MoreExamples.tree_tc MoreExamples.rank
           tree_tc_ranked 4 24%nat 0%nat true false []).
  simpl. lia.
Defined.

(** ** Depth *)

(** X4. Below the type argument of the call the depth has no influence:
    called with any two depths of at least 1, [parseType] gives the same
    outcome. *)
Theorem depth_irrelevant_below_top :
  forall fuel tc type d1 d2 additional optional h,
    (1 <= d1)%nat -> (1 <= d2)%nat ->
    Full.parseType fuel tc type d1 additional optional h
    = Full.parseType fuel tc type d2 additional optional h.
Proof.
  induction fuel as [|fuel IH]; intros tc type d1 d2 additional optional h H1 H2.
  - reflexivity.
  - rewrite !parseType_S. apply dispatch_depth; [|assumption|assumption].
    intros; apply IH; assumption.
Qed.

Lemma depth_irrelevant_below_top_witness :
  Full.parseType 3 Examples.tc 8 1 true false []
  = Full.parseType 3 Examples.tc 8 7 true false [].
Proof.
  apply (@depth_irrelevant_below_top 3 Examples.tc 8%nat 1%nat 7%nat true false []);
    lia.
Defined.

(** ** Call sites *)

Lemma isKeysCallExpression_schema_call program node :
  isKeysCallExpression program node = true -> schema_call program node.
Proof.
  unfold isKeysCallExpression, schema_call.
  destruct node as [call| |]; try discriminate.
  destruct (getResolvedSignature program call) as [signature|] eqn:Es;
    [|discriminate].
  destruct (declaration signature) as [decl|] eqn:Ed; [|discriminate].
  intro H. apply andb_true_iff in H as [Hj Hn].
  apply negb_true_iff in Hj.
  destruct (declaration_name decl) as [text|] eqn:En; [|discriminate].
  apply String.eqb_eq in Hn. subst text.
  exists call, signature, decl. auto.
Qed.

(** X5. A node that is not a call resolved to a declaration named [schema]
    (not a call at all, no resolved signature, no declaration, a JSDoc
    signature, no name or another name) is returned as it is by [visitNode],
    in both variants and without any decomposition being run; and a call
    that is one but has no type arguments is replaced by the empty object
    literal in both. *)
Theorem visitNode_rewrites_schema_calls_only :
  forall fuel program node,
    (~ schema_call program node ->
     Visitor.visitNode fuel program node = Ok node
     /\ SimplifiedVisitor.visitNode fuel program node = Ok node)
    /\ (forall call,
           node = CallNode call ->
           schema_call program node ->
           call_typeArguments call = None ->
           Visitor.visitNode fuel program node = Ok (LiteralNode (ObjectLiteral []))
           /\ SimplifiedVisitor.visitNode fuel program node
              = Ok (LiteralNode (ObjectLiteral []))).
Proof.
  intros fuel program node. split.
  - intro Hn.
    assert (E : isKeysCallExpression program node = false).
    { destruct (isKeysCallExpression program node) eqn:E; [|reflexivity].
      exfalso. apply Hn. apply isKeysCallExpression_schema_call. exact E. }
    unfold Visitor.visitNode, SimplifiedVisitor.visitNode. rewrite E. auto.
  - intros call -> (c & signature & decl & Hc & Hs & Hd & Hj & Hname) Ht.
    inversion Hc; subst c.
    unfold Visitor.visitNode, SimplifiedVisitor.visitNode, isKeysCallExpression.
    rewrite Hs, Hd, Hj, Hname, Ht. simpl. auto.
Qed.

Example visitNode_samples :
  Visitor.visitNode 3 MoreExamples.program (OtherNode 5) = Ok (OtherNode 5)
  /\ Visitor.visitNode 0 MoreExamples.program
       (CallNode (MoreExamples.call 2 (Some [0%nat]) []))
     = Ok (CallNode (MoreExamples.call 2 (Some [0%nat]) []))
  /\ Visitor.visitNode 0 MoreExamples.program
       (CallNode (MoreExamples.call 3 None [0%nat]))
     = Ok (LiteralNode (ObjectLiteral [])).
Proof. repeat split; reflexivity. Qed.

(** X6. When the first argument of a [schema] call has the type [false],
    [visitNode] gives what it gives for a program whose type checker reports
    no doc tags at all: no key of the literal comes from a doc tag. *)
Theorem schema_false_ignores_docs :
  forall fuel program call argument rest,
    call_arguments call = argument :: rest ->
    intrinsicName
      (type_at (getTypeChecker program) (getTypeAtLocation program (Some argument)))
    = Some "false" ->
    Visitor.visitNode fuel program (CallNode call)
    = Visitor.visitNode fuel (strip_program program) (CallNode call).
Proof.
  intros fuel program call argument rest Ha Hi.
  unfold Visitor.visitNode.
  change (isKeysCallExpression (strip_program program) (CallNode call))
    with (isKeysCallExpression program (CallNode call)).
  destruct (negb (isKeysCallExpression program (CallNode call))); [reflexivity|].
  destruct (call_typeArguments call) as [typeArguments|]; [|reflexivity].
  cbn [strip_program getTypeChecker getTypeAtLocation getTypeFromTypeNode
       strip_docs type_at strip_type intrinsicName].
  rewrite Ha. cbn [hd_error nonempty andb]. rewrite Hi.
  cbn [option_string_eqb String.eqb Ascii.eqb Bool.eqb andb negb].
  rewrite no_additional_ignores_docs. reflexivity.
Qed.

Lemma schema_false_ignores_docs_witness :
  Visitor.visitNode 3 MoreExamples.program
    (CallNode (MoreExamples.call 1 (Some [0%nat]) [0%nat]))
  = Visitor.visitNode 3 (strip_program MoreExamples.program)
      (CallNode (MoreExamples.call 1 (Some [0%nat]) [0%nat])).
Proof.
  apply (@schema_false_ignores_docs 3 MoreExamples.program
           (MoreExamples.call 1 (Some [0%nat]) [0%nat]) 0%nat []);
    reflexivity.
Defined.

Example schema_with_and_without_docs :
  Visitor.visitNode 3 MoreExamples.program
    (CallNode (MoreExamples.call 0 (Some [0%nat]) []))
  = Ok (LiteralNode
          (ObjectLiteral
             [("x", ObjectLiteral [("min", Literal (JNumber (-3 # 2)));
                                   ("type", Literal (JString "string"))]);
              ("y", ObjectLiteral [("optional", Literal (JBool true));
                                   ("type", Literal (JString "number"));
                                   ("optional", Literal (JBool true))]);
              ("title", Literal (JString "An A"))]))
  /\ Visitor.visitNode 3 MoreExamples.program
       (CallNode (MoreExamples.call 1 (Some [0%nat]) [0%nat]))
     = Ok (LiteralNode
             (ObjectLiteral
                [("x", ObjectLiteral [("type", Literal (JString "string"))]);
                 ("y", ObjectLiteral [("optional", Literal (JBool true));
                                      ("type", Literal (JString "number"));
                                      ("optional", Literal (JBool true))])])).
Proof. split; reflexivity. Qed.

(** ** Object types: edge cases of the interface rule *)

(** X7. An object type that reaches the interface rule without an eligible
    property decomposes to the empty object literal at every depth: no
    wrapper, no doc tags, and no [optional] even when the flag is set.  The
    history is popped once all the same. *)
Theorem empty_interface_is_empty_object :
  forall fuel tc type depth additional optional h,
    flags (type_at tc type) = TypeFlags.Object ->
    Full.predefined_get (Full.symbol_name_of tc type) = None ->
    isArrayType tc type = false ->
    getIndexInfoOfType tc type IndexNumber = false ->
    getIndexInfoOfType tc type IndexString = false ->
    includes h (Full.symbol_name_of tc type) = false ->
    filter Full.eligible (getPropertiesOfType tc type) = [] ->
    Full.parseType (S fuel) tc type depth additional optional h
    = Ok (ObjectLiteral [],
          removelast
            (if negb (name_eqb (Full.symbol_name_of tc type) (Some "__type"))
                && negb (name_eqb (Full.symbol_name_of tc type) (Some "Array"))
             then h ++ [Full.symbol_name_of tc type] else h)).
Proof.
  intros fuel tc type depth additional optional h Hf Hp Ha Hn Hs Hi He.
  rewrite parseType_S, flags_interface_dispatch by assumption.
  unfold Full.parseInterface. rewrite He. reflexivity.
Qed.

Lemma empty_interface_is_empty_object_witness :
  Full.parseType 1 MoreExamples.tree_tc 22 3 true true [Some "B"]
  = Ok (ObjectLiteral [],
        removelast
          (if negb (name_eqb (Full.symbol_name_of MoreExamples.tree_tc 22)
                             (Some "__type"))
              && negb (name_eqb (Full.symbol_name_of MoreExamples.tree_tc 22)
                                (Some "Array"))
           then [Some "B"] ++ [Full.symbol_name_of MoreExamples.tree_tc 22]
           else [Some "B"])).
Proof.
  apply (@empty_interface_is_empty_object 0 MoreExamples.tree_tc 22%nat 3%nat
           true true [Some "B"]); reflexivity.
Defined.

(** X8. A question-mark property of primitive type gets the key [optional]
    twice: once from [parsePrimitive], put first, and once more appended by
    the callback of [parseInterface]. *)
Theorem optional_primitive_property_marked_twice :
  forall fuel tc property declaration rest depth additional h,
    declarations property = Some (declaration :: rest) ->
    questionToken declaration = true ->
    Full.primitive_like (flags (type_at tc (declared_type property))) = true ->
    has_flag (flags (type_at tc (declared_type property))) TypeFlags.Literal = false ->
    Full.parseProperty (Full.parseType (S fuel) tc) depth additional property h
    = Ok ((prop_name property,
           ObjectLiteral
             (Full.doc_props additional (prop_docs property)
              ++ [("optional", Literal (JBool true));
                  ("type", Literal (JString (typeToString tc (declared_type property))));
                  ("optional", Literal (JBool true))])),
          removelast h).
Proof.
  intros fuel tc property declaration rest depth additional h Hd Hq Hp Hl.
  rewrite (parseProperty_declared _ _ _ _ _ Hd), Hq.
  rewrite parseType_S. unfold Full.dispatch. rewrite Hp.
  unfold ret, Full.parsePrimitive. rewrite Hl.
  rewrite decorate_optional. reflexivity.
Qed.

Lemma optional_primitive_property_marked_twice_witness :
  Full.parseProperty (Full.parseType 1 Examples.tc) 1 false
    (Examples.field "y" true [] 4) [Some "A"]
  = Ok (("y",
         ObjectLiteral
           (Full.doc_props false []
            ++ [("optional", Literal (JBool true));
                ("type", Literal (JString "number"));
                ("optional", Literal (JBool true))])),
        []).
Proof.
  apply (@optional_primitive_property_marked_twice 0 Examples.tc
           (Examples.field "y" true [] 4) {| questionToken := true |} []
           1%nat false [Some "A"]); reflexivity.
Defined.

(** X9. The table of marker names is a plain object, so a type whose symbol
    is named like a member of [Object.prototype] is taken for a marker too:
    the result is a node with the single key [type], made by [createLiteral]
    from the inherited member, and the properties of the type are not
    looked at. *)
Theorem prototype_names_taken_for_markers :
  forall fuel tc type depth additional optional h name,
    flags (type_at tc type) = TypeFlags.Object ->
    Full.symbol_name_of tc type = Some name ->
    In name
       [ "constructor"; "__defineGetter__"; "__defineSetter__"; "hasOwnProperty";
         "__lookupGetter__"; "__lookupSetter__"; "isPrototypeOf";
         "propertyIsEnumerable"; "toString"; "valueOf"; "__proto__";
         "toLocaleString" ] ->
    Full.parseType (S fuel) tc type depth additional optional h
    = Ok (ObjectLiteral
            [("type", Literal (JObject ("Object.prototype." ++ name)%string))],
          h).
Proof.
  intros fuel tc type depth additional optional h name Hf Hn Hin.
  rewrite parseType_S. unfold Full.dispatch. rewrite Hf, Hn. simpl in Hin.
  repeat (destruct Hin as [Hin|Hin]; [subst name; reflexivity|]).
  contradiction.
Qed.

Lemma prototype_names_taken_for_markers_witness :
  Full.parseType 1 MoreExamples.small_tc 3 0 true false []
  = Ok (ObjectLiteral
          [("type", Literal (JObject ("Object.prototype." ++ "constructor")%string))],
        []).
Proof.
  apply (@prototype_names_taken_for_markers 0 MoreExamples.small_tc 3%nat 0%nat
           true false [] "constructor");
    [reflexivity | reflexivity | simpl; auto].
Defined.




(** ** Unions: the three outcomes of the filter *)

Lemma filter_none {A} (f : A -> bool) (l : list A) :
  (forall x, In x l -> f x = false) -> filter f l = [].
Proof.
  induction l as [|a l IH]; intro H; simpl; [reflexivity|].
  rewrite (H a (or_introl eq_refl)). apply IH. intros; apply H; right; assumption.
Qed.

Lemma filter_all {A} (f : A -> bool) (l : list A) :
  (forall x, In x l -> f x = true) -> filter f l = l.
Proof.
  induction l as [|a l IH]; intro H; simpl; [reflexivity|].
  rewrite (H a (or_introl eq_refl)). f_equal. apply IH.
  intros; apply H; right; assumption.
Qed.

Lemma first_boolean_only_none tc l :
  (forall m, In m l -> Full.boolean_literal tc m = false) ->
  first_boolean_only tc l = l.
Proof.
  induction l as [|a l IH]; intro H; simpl; [reflexivity|].
  rewrite (H a (or_introl eq_refl)). f_equal. apply IH.
  intros; apply H; right; assumption.
Qed.

Lemma parseType_union fuel tc type union_types depth additional optional h :
  flags (type_at tc type) = TypeFlags.Union ->
  types (type_at tc type) = Some union_types ->
  Full.parseType (S fuel) tc type depth additional optional h
  = (let '(members, unionOptional) := Full.filter_union tc true false union_types in
     match members with
     | [union_property] =>
         if Full.boolean_literal tc union_property then
           if optional || unionOptional
           then ret (ObjectLiteral
                       [("type", Literal (JString "boolean"));
                        ("optional", Literal (JBool true))])
           else ret (Full.type_node "boolean")
         else Full.parseType fuel tc union_property (S depth) additional
                             (unionOptional || optional)
     | _ =>
         if Full.all_literals tc members then
           ret (ObjectLiteral
                  (Full.optional_prop (optional || unionOptional) ++
                   [("type", Literal (JString "enum"));
                    ("values",
                     ArrayLiteral
                       (map (fun union_property =>
                               if Full.boolean_literal tc union_property then
                                 if String.eqb (typeToString tc union_property) "false"
                                 then Literal (JBool false)
                                 else Literal (JBool true)
                               else Literal (Full.value_of tc union_property))
                            members))]))
         else
           mapped_types <-
             mapM (fun union_property =>
                     if Full.boolean_literal tc union_property
                     then ret (Full.type_node "boolean")
                     else Full.parseType fuel tc union_property (S depth)
                                         additional false)
                  members ;;
           if optional || unionOptional then
             mapped_types <-
               mapM (fun type => lift (Full.addProperty type "optional" (JBool true)))
                    mapped_types ;;
             ret (ArrayLiteral mapped_types)
           else ret (ArrayLiteral mapped_types)
     end) h.
Proof.
  intros Hf Ht. rewrite parseType_S, flags_union_dispatch by exact Hf.
  unfold Full.parseUnion. rewrite Ht. reflexivity.
Qed.

(** X11. A union whose members are all boolean literals or [undefined], with
    at least one boolean literal (such as [boolean | undefined]), becomes the
    single node [{type: "boolean"}], followed by [optional: true] when the
    flag is set or [undefined] is a member; no member is decomposed. *)
Theorem boolean_union_collapses :
  forall fuel tc type members depth additional optional h,
    flags (type_at tc type) = TypeFlags.Union ->
    types (type_at tc type) = Some members ->
    (forall m, In m members ->
               Full.boolean_literal tc m = true \/ is_undefined tc m = true) ->
    (exists m, In m members /\ Full.boolean_literal tc m = true) ->
    Full.parseType (S fuel) tc type depth additional optional h
    = Ok (ObjectLiteral
            (("type", Literal (JString "boolean"))
             :: (if optional || existsb (is_undefined tc) members
                 then [("optional", Literal (JBool true))] else [])),
          h).
Proof.
  intros fuel tc type members depth additional optional h Hf Ht Hall [b [Hb1 Hb2]].
  erewrite parseType_union by eassumption. rewrite filter_union_spec.
  assert (Hbools : forall m,
             In m (filter (fun m => negb (is_undefined tc m)) members) ->
             Full.boolean_literal tc m = true).
  { intros m Hm. apply filter_In in Hm as [Hm Hu]. apply negb_true_iff in Hu.
    destruct (Hall m Hm); congruence. }
  assert (Hb : In b (filter (fun m => negb (is_undefined tc m)) members)).
  { apply filter_In. split; [exact Hb1|].
    unfold is_undefined. rewrite Hb2. reflexivity. }
  destruct (filter (fun m => negb (is_undefined tc m)) members) as [|m l];
    [contradiction|].
  cbn [first_boolean_only]. rewrite (Hbools m (or_introl eq_refl)).
  rewrite filter_none.
  2:{ intros x Hx. rewrite (Hbools x (or_intror Hx)). reflexivity. }
  rewrite (Hbools m (or_introl eq_refl)). cbn [orb].
  destruct (optional || existsb (is_undefined tc) members); reflexivity.
Qed.

Lemma boolean_union_collapses_witness :
  Full.parseType 1 Examples.tc 16 0 true false []
  = Ok (ObjectLiteral
          (("type", Literal (JString "boolean"))
           :: (if false || existsb (is_undefined Examples.tc) [3; 15; 14]%nat
               then [("optional", Literal (JBool true))] else [])),
        []).
Proof.
  apply (@boolean_union_collapses 0 Examples.tc 16%nat [3; 15; 14]%nat 0%nat
           true false []).
  - reflexivity.
  - reflexivity.
  - simpl. intros m [<-|[<-|[<-|[]]]]; auto.
  - exists 15%nat. simpl. auto.
Defined.

(** X12. A union of at least two literal types, none of them a boolean
    literal or [undefined], becomes one enum node whose values are the values
    of the members in their order, with [optional: true] in front when the
    flag is set; no member is decomposed. *)
Theorem literal_union_is_enum :
  forall fuel tc type members depth additional optional h,
    flags (type_at tc type) = TypeFlags.Union ->
    types (type_at tc type) = Some members ->
    (2 <= length members)%nat ->
    (forall m, In m members ->
               has_flag (flags (type_at tc m)) TypeFlags.Literal = true
               /\ Full.boolean_literal tc m = false
               /\ typeToString tc m <> "undefined") ->
    Full.parseType (S fuel) tc type depth additional optional h
    = Ok (ObjectLiteral
            (Full.optional_prop optional ++
             [("type", Literal (JString "enum"));
              ("values",
               ArrayLiteral (map (fun m => Literal (Full.value_of tc m)) members))]),
          h).
Proof.
  intros fuel tc type members depth additional optional h Hf Ht Hlen Hall.
  erewrite parseType_union by eassumption. rewrite filter_union_spec.
  assert (Hu : forall m, In m members -> is_undefined tc m = false).
  { intros m Hm. destruct (Hall m Hm) as (_ & Hb & Hd).
    unfold is_undefined. rewrite Hb. apply String.eqb_neq in Hd. rewrite Hd.
    reflexivity. }
  rewrite filter_all by (intros x Hx; rewrite (Hu x Hx); reflexivity).
  rewrite first_boolean_only_none by (intros m Hm; apply (Hall m Hm)).
  assert (He : existsb (is_undefined tc) members = false).
  { apply not_true_is_false. intro E. apply existsb_exists in E as (x & Hx & Ex).
    rewrite (Hu x Hx) in Ex. discriminate. }
  rewrite He.
  assert (Hl : Full.all_literals tc members = true).
  { unfold Full.all_literals. apply andb_true_iff. split.
    - destruct members; [simpl in Hlen; lia | reflexivity].
    - apply forallb_forall. intros x Hx. apply (Hall x Hx). }
  destruct members as [|m1 [|m2 rest]]; [simpl in Hlen; lia | simpl in Hlen; lia |].
  rewrite Hl. rewrite orb_false_r. unfold ret. do 8 f_equal.
  apply map_ext_in. intros x Hx. destruct (Hall x Hx) as (_ & Hb & _).
  rewrite Hb. reflexivity.
Qed.

Lemma literal_union_is_enum_witness :
  Full.parseType 1 MoreExamples.small_tc 0 0 true true []
  = Ok (ObjectLiteral
          (Full.optional_prop true ++
           [("type", Literal (JString "enum"));
            ("values",
             ArrayLiteral
               (map (fun m => Literal (Full.value_of MoreExamples.small_tc m))
                    [1; 2]%nat))]),
        []).
Proof.
  apply (@literal_union_is_enum 0 MoreExamples.small_tc 0%nat [1; 2]%nat 0%nat
           true true []).
  - reflexivity.
  - reflexivity.
  - simpl. lia.
  - simpl. intros m [<-|[<-|[]]]; repeat split; discriminate.
Defined.

Lemma Forall2_right {A B} (Q : B -> Prop) (l : list A) (l' : list B) :
  Forall2 (fun _ b => Q b) l l' -> Forall Q l'.
Proof. induction 1; constructor; auto. Qed.

Lemma mapM_mark_optional nodes h :
  mapM (fun type => lift (Full.addProperty type "optional" (JBool true))) nodes h
  = if forallb is_object_literal nodes
    then Ok (marked_alternatives nodes, h)
    else Throw TypeError.
Proof.
  induction nodes as [|node nodes IH]; [reflexivity|].
  cbn [mapM forallb]. unfold bind at 1.
  destruct node as [v|properties|elements]; try reflexivity.
  cbn -[mapM marked_alternatives forallb]. unfold bind at 1. rewrite IH.
  destruct (forallb is_object_literal nodes); reflexivity.
Qed.

(** X13. A union that keeps no member, or at least two of which not all are
    literal types, becomes an array literal of the decompositions of the kept
    members (the members left once [undefined] and the later boolean literals
    are gone), in their order and one for each, a boolean literal counting as
    [{type: "boolean"}].  When the optional flag is set or [undefined] was a
    member, every alternative gets [optional: true] at its end, and a
    TypeError is thrown if one of them is not an object literal.  A member
    that fails or does not end makes the union do the same. *)
Theorem union_alternatives_are_an_array :
  forall fuel tc type members depth additional optional h,
    flags (type_at tc type) = TypeFlags.Union ->
    types (type_at tc type) = Some members ->
    let kept :=
      first_boolean_only tc (filter (fun m => negb (is_undefined tc m)) members) in
    let alternatives :=
      mapM (fun m =>
              if Full.boolean_literal tc m
              then ret (ObjectLiteral [("type", Literal (JString "boolean"))])
              else Full.parseType fuel tc m (S depth) additional false)
           kept h in
    length kept <> 1%nat ->
    Full.all_literals tc kept = false ->
    Full.parseType (S fuel) tc type depth additional optional h
    = match alternatives with
      | Ok (nodes, h') =>
          if optional || existsb (is_undefined tc) members
          then if forallb is_object_literal nodes
               then Ok (ArrayLiteral
                          (map (attached [] [("optional", Literal (JBool true))])
                               nodes),
                        h')
               else Throw TypeError
          else Ok (ArrayLiteral nodes, h')
      | Throw e => Throw e
      | Diverge => Diverge
      end
    /\ (forall nodes h',
           alternatives = Ok (nodes, h') -> length nodes = length kept).
Proof.
  intros fuel tc type members depth additional optional h Hf Ht kept alternatives
         Hlen Hall.
  split; [|intros nodes h' Hm; eapply mapM_length; exact Hm].
  erewrite parseType_union by eassumption.
  rewrite filter_union_spec. cbn [orb]. fold kept.
  assert (Hbody :
            (mapped_types <-
               mapM (fun union_property =>
                       if Full.boolean_literal tc union_property
                       then ret (Full.type_node "boolean")
                       else Full.parseType fuel tc union_property (S depth)
                                           additional false)
                    kept ;;
             if optional || existsb (is_undefined tc) members then
               mapped_types <-
                 mapM (fun type => lift (Full.addProperty type "optional" (JBool true)))
                      mapped_types ;;
               ret (ArrayLiteral mapped_types)
             else ret (ArrayLiteral mapped_types)) h
            = match alternatives with
              | Ok (nodes, h') =>
                  if optional || existsb (is_undefined tc) members
                  then if forallb is_object_literal nodes
                       then Ok (ArrayLiteral
                                  (map (attached [] [("optional", Literal (JBool true))])
                                       nodes),
                                h')
                       else Throw TypeError
                  else Ok (ArrayLiteral nodes, h')
              | Throw e => Throw e
              | Diverge => Diverge
              end).
  { unfold bind at 1.
    change (mapM _ kept h) with alternatives.
    destruct alternatives as [[nodes h']| |]; try reflexivity.
    destruct (optional || existsb (is_undefined tc) members); [|reflexivity].
    unfold bind. rewrite mapM_mark_optional.
    destruct (forallb is_object_literal nodes); reflexivity. }
  rewrite <- Hbody.
  destruct kept as [|m [|m' rest]]; [|simpl in Hlen; congruence|];
    rewrite Hall; reflexivity.
Qed.

Lemma union_alternatives_are_an_array_witness :
  let kept :=
    first_boolean_only Examples.tc
      (filter (fun m => negb (is_undefined Examples.tc m)) [7; 10]%nat) in
  let alternatives :=
    mapM (fun m =>
            if Full.boolean_literal Examples.tc m
            then ret (ObjectLiteral [("type", Literal (JString "boolean"))])
            else Full.parseType 2 Examples.tc m 1 false false)
         kept [] in
  Full.parseType 3 Examples.tc 25 0 false true []
  = match alternatives with
    | Ok (nodes, h') =>
        if true || existsb (is_undefined Examples.tc) [7; 10]%nat
        then if forallb is_object_literal nodes
             then Ok (ArrayLiteral
                        (map (attached [] [("optional", Literal (JBool true))])
                             nodes),
                      h')
             else Throw TypeError
        else Ok (ArrayLiteral nodes, h')
    | Throw e => Throw e
    | Diverge => Diverge
    end
  /\ (forall nodes h',
         alternatives = Ok (nodes, h') -> length nodes = length kept).
Proof.
  apply (@union_alternatives_are_an_array 2 Examples.tc 25%nat [7; 10]%nat 0%nat
           false true []);
    try reflexivity.
  simpl. discriminate.
Defined.

Example A_or_C_alternatives :
  Full.parseType 3 Examples.tc 25 0 false true []
  = Ok (MoreExamples.A_or_C_optional, []).
Proof. reflexivity. Qed.

(** X14. The optional mark of a union is lost when the one member left after
    the filter is of a kind whose rule does not look at the flag: null,
    undefined or never, an intersection, a marker type, or an object type
    with an index signature.  The union then decomposes exactly as that
    member decomposes on its own, without [optional]. *)
Theorem union_optional_mark_lost :
  forall fuel tc type members m depth additional optional h,
    flags (type_at tc type) = TypeFlags.Union ->
    types (type_at tc type) = Some members ->
    first_boolean_only tc (filter (fun m => negb (is_undefined tc m)) members) = [m] ->
    Full.boolean_literal tc m = false ->
    Full.primitive_like (flags (type_at tc m)) = false ->
    Full.forbidden_like (flags (type_at tc m)) = true
    \/ flags (type_at tc m) = TypeFlags.Intersection
    \/ (flags (type_at tc m) = TypeFlags.Object
        /\ (Full.predefined_get (Full.symbol_name_of tc m) <> None
            \/ (isArrayType tc m = false
                /\ getIndexInfoOfType tc m IndexNumber
                   || getIndexInfoOfType tc m IndexString = true))) ->
    Full.parseType (S (S fuel)) tc type depth additional optional h
    = Full.parseType (S fuel) tc m (S depth) additional false h.
Proof.
  intros fuel tc type members m depth additional optional h Hf Ht Hk Hb Hp Hkind.
  erewrite parseType_union by eassumption.
  rewrite filter_union_spec, Hk, Hb.
  rewrite !parseType_S. unfold Full.dispatch. rewrite Hp.
  destruct Hkind as [Hn | [Hi | [Ho Hkind]]].
  - rewrite Hn. reflexivity.
  - destruct (Full.forbidden_like (flags (type_at tc m))); [reflexivity|].
    rewrite Hi. reflexivity.
  - destruct (Full.forbidden_like (flags (type_at tc m))); [reflexivity|].
    rewrite Ho. cbn [Z.eqb Pos.eqb TypeFlags.Object].
    destruct (Full.predefined_get (Full.symbol_name_of tc m)) as [kind|];
      [reflexivity|].
    destruct Hkind as [Hkind | [Ha Hx]]; [congruence|].
    rewrite Ha, Hx. reflexivity.
Qed.

Lemma union_optional_mark_lost_witness :
  Full.parseType 2 Examples.tc 17 0 true false []
  = Full.parseType 1 Examples.tc 5 1 true false [].
Proof.
  apply (@union_optional_mark_lost 0 Examples.tc 17%nat [3; 5]%nat 5%nat 0%nat
           true false []); try reflexivity.
  right. right. split; [reflexivity|]. left. discriminate.
Defined.

Example IDate_or_undefined :
  Full.visitNode 2 Examples.tc 17 true
  = Ok (ObjectLiteral [("type", Literal (JString "date"))], []).
Proof. reflexivity. Qed.

(** ** The helper functions *)

(** X15. [combineObjects] puts the properties of its two arguments one after
    the other and fails exactly when one of them is not an object literal; it
    is associative, and [addProperty] and [addProperties] are the two special
    cases of it: a single new property on the right, a list of properties on
    the left. *)
Theorem combineObjects_laws :
  forall o1 o2 o3 name v properties,
    (combineObjects o1 o2 = None
     <-> properties_of o1 = None \/ properties_of o2 = None)
    /\ match combineObjects o1 o2, combineObjects o2 o3 with
       | Some o12, Some o23 => combineObjects o12 o3 = combineObjects o1 o23
       | _, _ => True
       end
    /\ Full.addProperty o1 name v
       = combineObjects o1 (ObjectLiteral [(name, Literal v)])
    /\ Full.addProperties o1 properties
       = combineObjects (ObjectLiteral properties) o1.
Proof.
  intros o1 o2 o3 name v properties. split; [split|split; [|split]].
  - unfold combineObjects.
    destruct (properties_of o1), (properties_of o2); intro; auto; discriminate.
  - unfold combineObjects.
    destruct (properties_of o1), (properties_of o2);
      intros [H|H]; auto; discriminate.
  - unfold combineObjects.
    destruct (properties_of o1) as [p1|], (properties_of o2) as [p2|],
             (properties_of o3) as [p3|]; simpl; auto.
    rewrite app_assoc. reflexivity.
  - unfold Full.addProperty, combineObjects. simpl.
    destruct (properties_of o1); reflexivity.
  - unfold Full.addProperties, combineObjects. simpl.
    destruct (properties_of o1); reflexivity.
Qed.

(** ** The simplified variant *)

Lemma digits_test t :
  RegExp.test digits_pattern t = true <-> digits t /\ t <> "".
Proof. rewrite test_lang. apply plus_digits. Qed.

Lemma simplified_doc_value_spec text :
  simple_tag_value text (Simplified.doc_value text).
Proof.
  unfold Simplified.doc_value.
  destruct (String.eqb text "true") eqn:E1.
  - apply String.eqb_eq in E1. subst text. cbn. constructor.
  - destruct (String.eqb text "false") eqn:E2.
    + apply String.eqb_eq in E2. subst text. cbn. constructor.
    + apply String.eqb_neq in E1, E2.
      destruct (RegExp.test digits_pattern text) eqn:E3.
      * apply digits_test in E3 as [Hd Hne]. apply simple_number; assumption.
      * apply simple_string; auto.
        intro Hd. apply digits_test in Hd. congruence.
Qed.

(** X16. In the simplified variant the doc tags of a property are appended
    after the node's own properties, one per tag that has text and in the
    order of the tags; the text "true" or "false" becomes a boolean, a text
    of decimal digits only becomes a number, and any other text, a signed or
    fractional number included, stays a string. *)
Theorem simplified_doc_coercion :
  forall docs properties,
    exists added,
      Simplified.add_docs docs properties = properties ++ added
      /\ Forall2
           (fun doc prop =>
              exists text v,
                tag_text doc = Some text /\ text <> "" /\
                prop = (tag_name doc, Literal v) /\ simple_tag_value text v)
           (filter has_text docs) added.
Proof.
  induction docs as [|doc docs IH]; intro properties.
  - exists []. split; [symmetry; apply app_nil_r | constructor].
  - cbn [Simplified.add_docs filter]. unfold has_text at 1.
    destruct (tag_text doc) as [text|] eqn:Et.
    + destruct (negb (String.eqb text "")) eqn:En.
      * destruct (IH (properties ++
                      [createPropertyAssignment (tag_name doc)
                         (createLiteral (Simplified.doc_value text))]))
          as (added & Ha & Hf).
        exists ((tag_name doc, Literal (Simplified.doc_value text)) :: added).
        split.
        -- rewrite Ha, <- app_assoc. reflexivity.
        -- constructor; [|exact Hf].
           exists text, (Simplified.doc_value text).
           apply negb_true_iff in En. apply String.eqb_neq in En.
           repeat split; auto. apply simplified_doc_value_spec.
      * apply IH.
    + apply IH.
Qed.

Example simplified_doc_samples :
  Simplified.add_docs
    [ Examples.tag "min" "-1.5"; Examples.tag "max" "10";
      Examples.tag "strict" "true"; Examples.tag "empty" "" ]
    [("type", Literal (JString "number"))]
  = [ ("type", Literal (JString "number"));
      ("min", Literal (JString "-1.5"));
      ("max", Literal (JNumber (10 # 1)));
      ("strict", Literal (JBool true)) ].
Proof. reflexivity. Qed.

Lemma omap_length {A B} (f : A -> outcome B) l bs :
  Simplified.omap f l = Ok bs -> length bs = length l.
Proof.
  revert bs. induction l as [|a l IH]; simpl; intros bs H.
  - inversion H. reflexivity.
  - destruct (f a) as [b| |]; try discriminate. simpl in H.
    destruct (Simplified.omap f l) as [bs'| |]; try discriminate.
    inversion H. simpl. f_equal. apply IH. reflexivity.
Qed.

(** X17. In the simplified variant a union always becomes an array literal
    of the decompositions of its members not displayed as [undefined], one
    for each and in their order, a boolean literal counting as
    [{type: "boolean"}]: a single remaining member is not unwrapped, and the
    alternatives are the members' own decompositions, to which no optional
    mark is added.  A member that fails or does not end makes the union do
    the same. *)
Theorem simplified_union_is_an_array :
  forall fuel tc type members,
    flags (type_at tc type) = TypeFlags.Union ->
    types (type_at tc type) = Some members ->
    let kept :=
      filter (fun m => negb (String.eqb (typeToString tc m) "undefined")) members in
    let alternatives :=
      Simplified.omap
        (fun m =>
           if has_flag (flags (type_at tc m)) TypeFlags.BooleanLiteral
           then Ok (ObjectLiteral [("type", Literal (JString "boolean"))])
           else Simplified.parseType fuel tc m)
        kept in
    Simplified.parseType (S fuel) tc type
    = match alternatives with
      | Ok nodes => Ok (ArrayLiteral nodes)
      | Throw e => Throw e
      | Diverge => Diverge
      end
    /\ (forall nodes, alternatives = Ok nodes -> length nodes = length kept).
Proof.
  intros fuel tc type members Hf Ht kept alternatives.
  split; [|intros nodes Hn; eapply omap_length; exact Hn].
  cbn [Simplified.parseType]. unfold Simplified.dispatch.
  rewrite Hf. cbn -[Simplified.parseUnion].
  unfold Simplified.parseUnion. rewrite Ht.
  cbn [Simplified.olift Simplified.obind]. fold kept.
  unfold createPropertyAssignment, createLiteral. fold alternatives.
  destruct alternatives as [nodes| |]; reflexivity.
Qed.

Lemma simplified_union_is_an_array_witness :
  let kept :=
    filter (fun m => negb (String.eqb (typeToString Examples.tc m) "undefined"))
           [3; 1]%nat in
  let alternatives :=
    Simplified.omap
      (fun m =>
         if has_flag (flags (type_at Examples.tc m)) TypeFlags.BooleanLiteral
         then Ok (ObjectLiteral [("type", Literal (JString "boolean"))])
         else Simplified.parseType 1 Examples.tc m)
      kept in
  Simplified.parseType 2 Examples.tc 13
  = match alternatives with
    | Ok nodes => Ok (ArrayLiteral nodes)
    | Throw e => Throw e
    | Diverge => Diverge
    end
  /\ (forall nodes, alternatives = Ok nodes -> length nodes = length kept).
Proof.
  apply (@simplified_union_is_an_array 1 Examples.tc 13%nat [3; 1]%nat);
    reflexivity.
Defined.

Example simplified_string_or_undefined :
  Simplified.visitNode 2 Examples.tc 13
  = Ok (ArrayLiteral [ObjectLiteral [("type", Literal (JString "string"))]]).
Proof. reflexivity. Qed.

Lemma ofilter_declared l :
  (forall q, In q l -> declarations q <> None) ->
  Simplified.ofilter Simplified.has_declarations l
  = Ok (filter (fun q => match declarations q with
                         | Some ds => nonempty ds
                         | None => false
                         end) l).
Proof.
  induction l as [|q l IH]; intro H; [reflexivity|].
  cbn [Simplified.ofilter filter]. unfold Simplified.has_declarations at 1.
  destruct (declarations q) as [ds|] eqn:Ed.
  - cbn [Simplified.obind]. rewrite IH by (intros; apply H; right; assumption).
    reflexivity.
  - exfalso. apply (H q); [left; reflexivity | exact Ed].
Qed.

(** X18. The simplified variant has no cycle guard: an interface whose first
    property is declared with the interface itself as its type (all its
    properties having declarations) is decomposed without end, whatever the
    bound on the recursion. *)
Theorem simplified_self_reference_diverges :
  forall tc type property others declaration rest,
    flags (type_at tc type) = TypeFlags.Object ->
    objectFlags (type_at tc type) = ObjectFlags.Interface ->
    getPropertiesOfType tc type = property :: others ->
    declarations property = Some (declaration :: rest) ->
    declared_type property = type ->
    (forall q, In q others -> declarations q <> None) ->
    forall fuel, Simplified.parseType fuel tc type = Diverge.
Proof.
  intros tc type property others declaration rest Hf Ho Hp Hd Ht Hall.
  induction fuel as [|fuel IH]; [reflexivity|].
  cbn [Simplified.parseType]. unfold Simplified.dispatch.
  rewrite Hf, Ho. cbn -[Simplified.parseInterface].
  unfold Simplified.parseInterface. rewrite Hp.
  rewrite ofilter_declared.
  2:{ intros q [<-|Hq]; [rewrite Hd; discriminate | apply Hall; exact Hq]. }
  cbn [filter]. rewrite Hd. cbn [nonempty Simplified.obind Simplified.omap].
  unfold Simplified.parseProperty at 1. rewrite Hd.
  unfold getTypeOfSymbolAtLocation. rewrite Ht, IH. reflexivity.
Qed.

Lemma simplified_self_reference_diverges_witness :
  Simplified.parseType 9 Examples.tc 22 = Diverge.
Proof.
  apply (@simplified_self_reference_diverges Examples.tc 22%nat
           (Examples.field "next" true [] 22) [Examples.field "value" false [] 1]
           {| questionToken := true |} []);
    try reflexivity.
  simpl. intros q [<-|[]]. discriminate.
Defined.
